(** * Hacksy: the profile scoring engine of [src/agent/main.py]

    A shallow embedding of [GitHubAnalyzer] (repository, activity, expertise,
    domain and collaboration analysis, and the language ranking of
    [get_user_profile]) and of [AgentService.analyze_github_profile], followed
    by the properties the specification states about them.

    Modelling conventions.
    - A Python [str] is a [string]; each [ascii] stands for the code point of
      the same number (U+0000 to U+00FF), and the character classes of
      [str.lower], [str.strip] and [str.isalnum] are those of the Unicode
      database on that range.
    - A Python [int] is a [Z].  The engine's few float expressions are a
      quotient of two ints or the product of an int with one of the literals
      0.5, 0.3, 0.15, 0.2, and they are only summed, compared with integer
      thresholds or truncated by [int()]; they are evaluated exactly, in [Q].
    - A JSON object is a record.  A key the code reads with a default is an
      [option] ([None]: key absent); a key whose null and absent cases the
      code tells apart is a [field].
    - The interpreter services the engine calls but does not define
      ([datetime.fromisoformat], [datetime.now], the iteration order of a
      [set]) are the components of a [Runtime].
    - An agent's configuration is a mapping, as [call_agent] annotates it
      ([Dict[str, Any]]); its values are any values of the configuration
      file.
    - [logger] calls are left out; the one whose argument can raise, in
      [load_config], is accounted for there. *)

From Stdlib Require Import ZArith QArith Qminmax Bool List String Ascii Lia Lqa.
From Stdlib Require Import Permutation Sorted DecimalString.
Import ListNotations.

Open Scope string_scope.
Open Scope Z_scope.

(* ===================================================================== *)
(** ** Python strings *)
(* ===================================================================== *)

Module PyStr.

Definition code (c : ascii) : Z := Z.of_N (N_of_ascii c).

Definition between (lo hi n : Z) : bool := (lo <=? n) && (n <=? hi).

  (** [c.isspace()], the characters [str.strip()] removes. *)
Definition isspace_char (c : ascii) : bool :=
    let n := code c in
    between 9 13 n || between 28 32 n || (n =? 133) || (n =? 160).

  (** [c.isalnum()]: alphabetic, decimal, digit or numeric. *)
Definition isalnum_char (c : ascii) : bool :=
    let n := code c in
    between 48 57 n || between 65 90 n || between 97 122 n
    || (n =? 170) || (n =? 178) || (n =? 179) || (n =? 181)
    || (n =? 185) || (n =? 186) || between 188 190 n
    || between 192 214 n || between 216 246 n || between 248 255 n.

  (** [c.lower()]. *)
Definition lower_char (c : ascii) : ascii :=
    let n := code c in
    if between 65 90 n || (between 192 222 n && negb (n =? 215))
    then ascii_of_N (Z.to_N (n + 32)) else c.

Fixpoint lower (s : string) : string :=
    match s with
    | EmptyString => EmptyString
    | String c t => String (lower_char c) (lower t)
    end.

  (** [needle in hay]. *)
Fixpoint contains (needle hay : string) : bool :=
    if prefix needle hay then true
    else match hay with
         | EmptyString => false
         | String _ t => contains needle t
         end.

  (** [s.replace(old, new)] for a one-character [old]. *)
Fixpoint replace (old : ascii) (new : string) (s : string) : string :=
    match s with
    | EmptyString => EmptyString
    | String c t =>
        if Ascii.eqb c old then new ++ replace old new t
        else String c (replace old new t)
    end.

Fixpoint lstrip (s : string) : string :=
    match s with
    | EmptyString => EmptyString
    | String c t => if isspace_char c then lstrip t else s
    end.

Fixpoint rstrip (s : string) : string :=
    match s with
    | EmptyString => EmptyString
    | String c t =>
        match rstrip t with
        | EmptyString => if isspace_char c then EmptyString else String c EmptyString
        | t' => String c t'
        end
    end.

  (** [s.strip()]. *)
Definition strip (s : string) : string := rstrip (lstrip s).

Fixpoint all_alnum (s : string) : bool :=
    match s with
    | EmptyString => true
    | String c t => isalnum_char c && all_alnum t
    end.

  (** [s.isalnum()]: false on the empty string. *)
Definition isalnum (s : string) : bool :=
    match s with
    | EmptyString => false
    | _ => all_alnum s
    end.

  (** Truth value of a string: [bool(s)]. *)
Definition truthy (s : string) : bool :=
    match s with EmptyString => false | _ => true end.

  (** [str(n)] for an int. *)
Definition of_int (n : Z) : string := NilZero.string_of_int (Z.to_int n).

Fixpoint occurs (c : ascii) (s : string) : Prop :=
    match s with
    | EmptyString => False
    | String d t => d = c \/ occurs c t
    end.

End PyStr.

(** [x in xs] for a list of strings. *)
Definition str_in (x : string) (xs : list string) : bool :=
  existsb (String.eqb x) xs.

(* ===================================================================== *)
(** ** Dates, the interpreter's services, JSON fields *)
(* ===================================================================== *)

(** A [datetime]: its wall-clock fields as microseconds since the first
    representable instant, and its [tzinfo] ([None] for a naive value, else
    the fixed UTC offset in microseconds). *)
Record datetime := { wall : Z; tzinfo : option Z }.

Definition day_us : Z := 86400000000.

(** [d.replace(tzinfo=tz)]. *)
Definition replace_tzinfo (d : datetime) (tz : option Z) : datetime :=
  {| wall := wall d; tzinfo := tz |}.

(** [d - timedelta(days=n)]. *)
Definition minus_days (d : datetime) (n : Z) : datetime :=
  {| wall := wall d - n * day_us; tzinfo := tzinfo d |}.

(** [a > b]: [None] is the TypeError of comparing a naive with an aware
    value. *)
Definition dt_gt (a b : datetime) : option bool :=
  match tzinfo a, tzinfo b with
  | None, None => Some (wall b <? wall a)
  | Some oa, Some ob => Some (wall b - ob <? wall a - oa)
  | _, _ => None
  end.

(** [(a - b).days]: the whole days of the difference, rounded down. *)
Definition days_between (a b : datetime) : option Z :=
  match tzinfo a, tzinfo b with
  | None, None => Some ((wall a - wall b) / day_us)
  | Some oa, Some ob => Some (((wall a - oa) - (wall b - ob)) / day_us)
  | _, _ => None
  end.

(** What the interpreter provides: [datetime.fromisoformat] ([None] when it
    raises), the reading of [datetime.now()] (one reference instant for all
    the readings of an analysis), and the order in which [list(set(xs))]
    lists the distinct elements of [xs]. *)
Record Runtime := {
  fromisoformat : string -> option datetime;
  now : Z;
  list_of_set : list string -> list string
}.

(** The contract of [list(set(xs))]: the distinct elements of [xs], each
    once, in an order the language leaves open. *)
Definition set_order_ok (f : list string -> list string) : Prop :=
  forall xs, NoDup (f xs) /\ (forall x, In x (f xs) <-> In x xs).

Definition datetime_now (rt : Runtime) : datetime :=
  {| wall := now rt; tzinfo := None |}.

(** [datetime.fromisoformat(s.replace('Z', '+00:00'))]. *)
Definition parse_timestamp (rt : Runtime) (s : string) : option datetime :=
  fromisoformat rt (PyStr.replace "Z"%char "+00:00" s).

(** [t > datetime.now().replace(tzinfo=t.tzinfo) - timedelta(days=n)]. *)
Definition newer_than_days (rt : Runtime) (t : datetime) (n : Z) : option bool :=
  dt_gt t (minus_days (replace_tzinfo (datetime_now rt) (tzinfo t)) n).

(** A key of a JSON object: absent, null, or holding a value. *)
Inductive field (A : Type) : Type :=
| Absent
| Null
| Val (a : A).
Arguments Absent {A}.
Arguments Null {A}.
Arguments Val {A} a.

(** [d.get(key, default)]; the result [None] is Python's [None]. *)
Definition get_or {A : Type} (f : field A) (default : option A) : option A :=
  match f with
  | Absent => default
  | Null => None
  | Val a => Some a
  end.

(** [o or ''] for a string or [None]. *)
Definition or_empty (o : option string) : string :=
  match o with Some s => s | None => EmptyString end.

Definition or_zero (o : option Z) : Z :=
  match o with Some n => n | None => 0 end.

(* ===================================================================== *)
(** ** Raw records *)
(* ===================================================================== *)

Module User.
Record t := {
    name : field string;
    bio : field string;
    company : field string;
    location : field string;
    created_at : field string;
    public_repos : option Z;
    followers : option Z;
    following : option Z
  }.
End User.

Module Repo.
Record t := {
    name : string;
    description : option string;
    language : option string;
    stargazers_count : option Z;
    forks_count : option Z;
    size : option Z;
    topics : option (list string);
    updated_at : option string;
    fork : option bool
  }.
End Repo.

Module Event.
  (** [type] and [created_at] are [None] when the key is absent or null. *)
Record t := {
    type : option string;
    created_at : option string
  }.
End Event.

(* ===================================================================== *)
(** ** Dictionaries in insertion order, [sorted], [Counter] *)
(* ===================================================================== *)

(** [d[k] = d.get(k, 0) + w] on a dict kept in insertion order. *)
Fixpoint bump (k : string) (w : Z) (d : list (string * Z)) : list (string * Z) :=
  match d with
  | [] => [(k, w)]
  | (k', v) :: t =>
      if String.eqb k k' then (k', v + w) :: t else (k', v) :: bump k w t
  end.

(** One step of [sorted(..., key=lambda x: x[1], reverse=True)]: [x] goes
    before the first entry whose value is not larger, so equal values keep
    the order of the input. *)
Fixpoint insert_desc (x : string * Z) (l : list (string * Z)) : list (string * Z) :=
  match l with
  | [] => [x]
  | y :: t => if snd y <=? snd x then x :: y :: t else y :: insert_desc x t
  end.

Definition sorted_desc (l : list (string * Z)) : list (string * Z) :=
  fold_right insert_desc [] l.

(** [Counter(xs)]. *)
Definition Counter (xs : list string) : list (string * Z) :=
  fold_left (fun d x => bump x 1 d) xs [].

(** [[k for k, _ in c.most_common(n)]]. *)
Definition most_common (n : nat) (c : list (string * Z)) : list string :=
  map fst (firstn n (sorted_desc c)).

(** [list(dict.fromkeys(xs))]: first occurrences, in order. *)
Fixpoint fresh (seen xs : list string) : list string :=
  match xs with
  | [] => []
  | x :: t => if str_in x seen then fresh seen t else x :: fresh (x :: seen) t
  end.

Definition dict_fromkeys (xs : list string) : list string := fresh [] xs.

(** [any(kw in a or kw in b for kw in kws)]. *)
Definition any_keyword (kws : list string) (a b : string) : bool :=
  existsb (fun kw => PyStr.contains kw a || PyStr.contains kw b) kws.

Definition Qgtb (a b : Q) : bool :=
  match (a ?= b)%Q with Gt => true | _ => false end.

Definition Qltb (a b : Q) : bool :=
  match (a ?= b)%Q with Lt => true | _ => false end.

(** [int(q)]: truncation towards zero. *)
Definition py_int (q : Q) : Z := Z.quot (Qnum q) (Zpos (Qden q)).

(** [sum(1 for x in xs if p(x))]. *)
Definition count_if {A : Type} (p : A -> bool) (xs : list A) : Z :=
  Z.of_nat (List.length (filter p xs)).

(* ===================================================================== *)
(** ** GitHubAnalyzer._analyze_repositories *)
(* ===================================================================== *)

Module RepositoryAnalysis.
Record t := {
    total_stars : Z;
    total_forks : Z;
    avg_complexity : string;
    popular_topics : list string;
    frameworks_used : list string;
    project_types : list string;
    recent_activity : bool
  }.
End RepositoryAnalysis.

(** The variables the loop over [repos_data] updates. *)
Module RepoScan.
Record t := {
    total_stars : Z;
    total_forks : Z;
    recent_activity : bool;
    all_topics : list string;
    frameworks : list string;
    project_types : list string
  }.

Definition init : t :=
    {| total_stars := 0; total_forks := 0; recent_activity := false;
       all_topics := []; frameworks := []; project_types := [] |}.
End RepoScan.

(** The body of [if repo.get('updated_at'): try: ... except: pass]: whether
    this repository sets the flag. *)
Definition updated_recently (rt : Runtime) (repo : Repo.t) : bool :=
  match Repo.updated_at repo with
  | Some s =>
      if PyStr.truthy s then
        match parse_timestamp rt s with
        | Some updated =>
            match newer_than_days rt updated 180 with
            | Some true => true
            | _ => false
            end
        | None => false
        end
      else false
  | None => false
  end.

Definition when (b : bool) (label : string) : list string :=
  if b then [label] else [].

Definition repo_step (rt : Runtime) (st : RepoScan.t) (repo : Repo.t) : RepoScan.t :=
  let repo_name := PyStr.lower (Repo.name repo) in
  let repo_desc := PyStr.lower (or_empty (Repo.description repo)) in
  {| RepoScan.total_stars :=
       RepoScan.total_stars st + or_zero (Repo.stargazers_count repo);
     RepoScan.total_forks :=
       RepoScan.total_forks st + or_zero (Repo.forks_count repo);
     RepoScan.all_topics :=
       RepoScan.all_topics st ++
       match Repo.topics repo with Some ts => ts | None => [] end;
     RepoScan.frameworks :=
       RepoScan.frameworks st
       ++ when (any_keyword ["react"; "vue"; "angular"] repo_name repo_desc)
               "Frontend Framework"
       ++ when (any_keyword ["django"; "flask"; "fastapi"; "express"]
                            repo_name repo_desc)
               "Backend Framework";
     RepoScan.project_types :=
       RepoScan.project_types st
       ++ when (any_keyword ["ml"; "ai"; "neural"; "tensorflow"; "pytorch"]
                            repo_name repo_desc)
               "AI/ML"
       ++ when (any_keyword ["api"; "rest"; "graphql"] repo_name repo_desc)
               "API Development"
       ++ when (any_keyword ["mobile"; "android"; "ios"; "flutter"]
                            repo_name repo_desc)
               "Mobile Development";
     RepoScan.recent_activity :=
       if updated_recently rt repo then true else RepoScan.recent_activity st |}.

Definition repo_scan (rt : Runtime) (repos_data : list Repo.t) : RepoScan.t :=
  fold_left (repo_step rt) repos_data RepoScan.init.

(** [total_stars / max(len(repos_data), 1)]. *)
Definition avg_stars (total_stars : Z) (repos_data : list Repo.t) : Q :=
  (inject_Z total_stars / inject_Z (Z.max (Z.of_nat (List.length repos_data)) 1))%Q.

(** The [if]/[elif] on [avg_stars] and [total_forks]; the initial value
    of the key is ["intermediate"]. *)
Definition complexity_of (avg : Q) (total_forks : Z) : string :=
  if Qgtb avg 50 || (20 <? total_forks) then "advanced"
  else if Qltb avg 5 && (total_forks <? 3) then "beginner"
  else "intermediate".

Definition _analyze_repositories (rt : Runtime) (repos_data : list Repo.t)
  : RepositoryAnalysis.t :=
  let st := repo_scan rt repos_data in
  {| RepositoryAnalysis.total_stars := RepoScan.total_stars st;
     RepositoryAnalysis.total_forks := RepoScan.total_forks st;
     RepositoryAnalysis.avg_complexity :=
       complexity_of (avg_stars (RepoScan.total_stars st) repos_data)
                     (RepoScan.total_forks st);
     RepositoryAnalysis.popular_topics :=
       most_common 5 (Counter (RepoScan.all_topics st));
     RepositoryAnalysis.frameworks_used :=
       list_of_set rt (RepoScan.frameworks st);
     RepositoryAnalysis.project_types :=
       list_of_set rt (RepoScan.project_types st);
     RepositoryAnalysis.recent_activity := RepoScan.recent_activity st |}.

(* ===================================================================== *)
(** ** GitHubAnalyzer._analyze_activity_patterns *)
(* ===================================================================== *)

Module ActivityAnalysis.
Record t := {
    recent_activity_score : Z;
    activity_type : string;
    preferred_days : list string;
    commit_frequency : string;
    collaboration_level : string
  }.

  (** The record the function starts from and returns when there is no
      event. *)
Definition default : t :=
    {| recent_activity_score := 0; activity_type := "moderate";
       preferred_days := []; commit_frequency := "weekly";
       collaboration_level := "individual" |}.
End ActivityAnalysis.

Module EventScan.
Record t := { recent_events : Z; push_events : Z; pr_events : Z }.
Definition init : t := {| recent_events := 0; push_events := 0; pr_events := 0 |}.
End EventScan.

(** The test of the [try] block: the timestamp is there, parses, and is
    newer than thirty days.  Every exception is the [continue]. *)
Definition in_window (rt : Runtime) (event : Event.t) : bool :=
  match Event.created_at event with
  | Some s =>
      match parse_timestamp rt s with
      | Some event_date =>
          match newer_than_days rt event_date 30 with
          | Some true => true
          | _ => false
          end
      | None => false
      end
  | None => false
  end.

Definition event_step (rt : Runtime) (st : EventScan.t) (event : Event.t) : EventScan.t :=
  if in_window rt event then
    let recent := EventScan.recent_events st + 1 in
    match Event.type event with
    | Some ty =>
        if String.eqb ty "PushEvent" then
          {| EventScan.recent_events := recent;
             EventScan.push_events := EventScan.push_events st + 1;
             EventScan.pr_events := EventScan.pr_events st |}
        else if str_in ty ["PullRequestEvent"; "IssuesEvent"] then
          {| EventScan.recent_events := recent;
             EventScan.push_events := EventScan.push_events st;
             EventScan.pr_events := EventScan.pr_events st + 1 |}
        else
          {| EventScan.recent_events := recent;
             EventScan.push_events := EventScan.push_events st;
             EventScan.pr_events := EventScan.pr_events st |}
    | None =>
        {| EventScan.recent_events := recent;
           EventScan.push_events := EventScan.push_events st;
           EventScan.pr_events := EventScan.pr_events st |}
    end
  else st.

Definition event_scan (rt : Runtime) (events_data : list Event.t) : EventScan.t :=
  fold_left (event_step rt) events_data EventScan.init.

Definition activity_score_of (recent_events : Z) : Z := Z.min (recent_events * 3) 100.

Definition activity_type_of (recent_events : Z) : string :=
  if 20 <? recent_events then "very_active"
  else if 10 <? recent_events then "active"
  else if 3 <? recent_events then "moderate"
  else "low".

Definition collaboration_level_of (push_events pr_events : Z) : string :=
  if Qgtb (inject_Z pr_events) (inject_Z push_events * (3 # 10)) then "collaborative"
  else if 0 <? pr_events then "mixed"
  else "individual".

(** [repos_data] is a parameter of the source function that it never
    reads. *)
Definition _analyze_activity_patterns (rt : Runtime) (events_data : list Event.t)
    (repos_data : list Repo.t) : ActivityAnalysis.t :=
  match events_data with
  | [] => ActivityAnalysis.default
  | _ =>
      let st := event_scan rt events_data in
      {| ActivityAnalysis.recent_activity_score :=
           activity_score_of (EventScan.recent_events st);
         ActivityAnalysis.activity_type :=
           activity_type_of (EventScan.recent_events st);
         ActivityAnalysis.preferred_days := [];
         ActivityAnalysis.commit_frequency := "weekly";
         ActivityAnalysis.collaboration_level :=
           collaboration_level_of (EventScan.push_events st)
                                  (EventScan.pr_events st) |}
  end.

(* ===================================================================== *)
(** ** GitHubAnalyzer._calculate_expertise_level *)
(* ===================================================================== *)

(** The [factors] dict. *)
Module Factors.
Record t := {
    account_age : Z;
    repo_count : Z;
    followers : Q;
    activity : Q;
    complexity : Z
  }.

  (** [sum(factors.values())]. *)
Definition total (f : t) : Q :=
    (0 + inject_Z (account_age f) + inject_Z (repo_count f)
       + followers f + activity f + inject_Z (complexity f))%Q.
End Factors.

(** [(datetime.now().replace(tzinfo=created.tzinfo) - created).days]. *)
Definition account_days (rt : Runtime) (created : datetime) : option Z :=
  days_between (replace_tzinfo (datetime_now rt) (tzinfo created)) created.

(** [min(int(years * 10), 30)] with [years = days / 365]. *)
Definition age_points (days : Z) : Z :=
  Z.min (py_int (inject_Z days / 365 * 10)%Q) 30.

(** The [try] block of the account age; every exception gives 10. *)
Definition account_age_factor (rt : Runtime) (user_data : User.t) : Z :=
  match User.created_at user_data with
  | Val s =>
      match parse_timestamp rt s with
      | Some created =>
          match account_days rt created with
          | Some days => age_points days
          | None => 10
          end
      | None => 10
      end
  | _ => 10
  end.

(** [sum(repo.get('stargazers_count', 0) for repo in repos)]. *)
Definition sum_stars (repos : list Repo.t) : Z :=
  fold_left (fun acc repo => acc + or_zero (Repo.stargazers_count repo)) repos 0.

Definition expertise_factors (rt : Runtime) (user_data : User.t)
    (repos_data : list Repo.t) (activity_analysis : ActivityAnalysis.t) : Factors.t :=
  let repo_count := or_zero (User.public_repos user_data) in
  let followers := or_zero (User.followers user_data) in
  let total_stars := sum_stars (firstn 10 repos_data) in
  {| Factors.account_age := account_age_factor rt user_data;
     Factors.repo_count := Z.min (repo_count * 2) 25;
     Factors.followers := Qmin (inject_Z followers * (5 # 10)) 20;
     Factors.activity :=
       (inject_Z (ActivityAnalysis.recent_activity_score activity_analysis)
        * (15 # 100))%Q;
     Factors.complexity := Z.min (py_int (inject_Z total_stars * (2 # 10))%Q) 10 |}.

Definition expertise_tier (total_score : Q) : string :=
  if Qgtb total_score 70 then "expert"
  else if Qgtb total_score 40 then "intermediate"
  else if Qgtb total_score 15 then "beginner"
  else "newcomer".

Definition _calculate_expertise_level (rt : Runtime) (user_data : User.t)
    (repos_data : list Repo.t) (activity_analysis : ActivityAnalysis.t) : string :=
  expertise_tier
    (Factors.total (expertise_factors rt user_data repos_data activity_analysis)).

(* ===================================================================== *)
(** ** GitHubAnalyzer._extract_project_domains *)
(* ===================================================================== *)

(** The [if]/[elif] chain on one topic tag. *)
Definition topic_domains (topic : string) : list string :=
  let topic_lower := PyStr.lower topic in
  if str_in topic_lower ["machine-learning"; "artificial-intelligence"; "deep-learning"]
  then ["Data Science & AI"]
  else if str_in topic_lower ["web-development"; "frontend"; "backend"]
  then ["Web Development"]
  else if str_in topic_lower ["mobile"; "android"; "ios"]
  then ["Mobile Development"]
  else [].

(** What one repository appends to [domains]. *)
Definition repo_domains (repo : Repo.t) : list string :=
  let name := PyStr.lower (Repo.name repo) in
  let desc := PyStr.lower (or_empty (Repo.description repo)) in
  let topics := match Repo.topics repo with Some ts => ts | None => [] end in
  when (any_keyword ["web"; "website"; "frontend"; "backend"; "fullstack"] name desc)
       "Web Development"
  ++ when (any_keyword ["data"; "ml"; "ai"; "machine"; "neural"; "analysis"] name desc)
          "Data Science & AI"
  ++ when (any_keyword ["mobile"; "android"; "ios"; "app"; "flutter"; "react-native"]
                       name desc)
          "Mobile Development"
  ++ when (any_keyword ["docker"; "kubernetes"; "ci"; "cd"; "deploy"; "infrastructure"]
                       name desc)
          "DevOps & Infrastructure"
  ++ when (any_keyword ["game"; "unity"; "pygame"; "gaming"] name desc)
          "Game Development"
  ++ when (any_keyword ["blockchain"; "crypto"; "web3"; "smart"; "contract"] name desc)
          "Blockchain & Web3"
  ++ flat_map topic_domains topics.

Definition _extract_project_domains (repos_data : list Repo.t) : list string :=
  most_common 5 (Counter (flat_map repo_domains (firstn 15 repos_data))).

(* ===================================================================== *)
(** ** GitHubAnalyzer._analyze_collaboration_style *)
(* ===================================================================== *)

Definition is_fork (repo : Repo.t) : bool :=
  match Repo.fork repo with Some b => b | None => false end.

Definition is_collab_event (event : Event.t) : bool :=
  match Event.type event with
  | Some ty => str_in ty ["PullRequestEvent"; "IssuesEvent"; "ForkEvent"]
  | None => false
  end.

Definition collaboration_style_of (forked_repos original_repos collab_events : Z) : string :=
  if Qgtb (inject_Z forked_repos) (inject_Z original_repos * (5 # 10))
     || (5 <? collab_events)
  then "collaborative"
  else if (0 <? forked_repos) || (0 <? collab_events) then "mixed"
  else "independent".

Definition _analyze_collaboration_style (repos_data : list Repo.t)
    (events_data : list Event.t) : string :=
  let forked_repos := count_if is_fork repos_data in
  let original_repos := Z.of_nat (List.length repos_data) - forked_repos in
  let collab_events := count_if is_collab_event events_data in
  collaboration_style_of forked_repos original_repos collab_events.

(* ===================================================================== *)
(** ** The language ranking of get_user_profile *)
(* ===================================================================== *)

(** The dicts [languages] and [language_bytes]. *)
Module LangScan.
Record t := {
    languages : list (string * Z);
    language_bytes : list (string * Z)
  }.
Definition init : t := {| languages := []; language_bytes := [] |}.
End LangScan.

(** [(repo.get('stargazers_count', 0) + 1) * (repo.get('size', 1) + 1)]. *)
Definition weight (repo : Repo.t) : Z :=
  (or_zero (Repo.stargazers_count repo) + 1)
  * (match Repo.size repo with Some n => n | None => 1 end + 1).

(** [repo.get('language')] when it is truthy. *)
Definition language_of (repo : Repo.t) : option string :=
  match Repo.language repo with
  | Some l => if PyStr.truthy l then Some l else None
  | None => None
  end.

Definition lang_step (st : LangScan.t) (repo : Repo.t) : LangScan.t :=
  match language_of repo with
  | Some l =>
      {| LangScan.languages := bump l 1 (LangScan.languages st);
         LangScan.language_bytes := bump l (weight repo) (LangScan.language_bytes st) |}
  | None => st
  end.

Definition lang_scan (repos_data : list Repo.t) : LangScan.t :=
  fold_left lang_step repos_data LangScan.init.

Definition all_languages (repos_data : list Repo.t) : list string :=
  let st := lang_scan repos_data in
  let top_languages_by_count := firstn 8 (sorted_desc (LangScan.languages st)) in
  let top_languages_by_bytes := firstn 8 (sorted_desc (LangScan.language_bytes st)) in
  firstn 10
    (dict_fromkeys (map fst (top_languages_by_bytes ++ top_languages_by_count))).

(* ===================================================================== *)
(** ** The scored profile: the dict get_user_profile returns *)
(* ===================================================================== *)

Module Profile.
Record t := {
    username : string;
    name : option string;
    bio : option string;
    repos : Z;
    followers : Z;
    following : Z;
    languages : list string;
    company : option string;
    location : option string;
    created_at : option string;
    repository_count : Z;
    recent_repos : list string;
    repo_analysis : RepositoryAnalysis.t;
    activity_analysis : ActivityAnalysis.t;
    expertise_level : string;
    preferred_domains : list string;
    collaboration_style : string;
    recent_activity_score : Z;
    technology_diversity : Z;
    project_complexity_preference : string
  }.
End Profile.

(** The part of [get_user_profile] after the three fetches: from the raw
    user record, repository list and event list to the scored profile. *)
Definition analyze (rt : Runtime) (username : string) (user_data : User.t)
    (repos_data : list Repo.t) (events_data : list Event.t) : Profile.t :=
  let repo_analysis := _analyze_repositories rt (firstn 20 repos_data) in
  let activity_analysis := _analyze_activity_patterns rt events_data repos_data in
  let all_languages := all_languages repos_data in
  {| Profile.username := username;
     Profile.name := get_or (User.name user_data) (Some username);
     Profile.bio := get_or (User.bio user_data) (Some EmptyString);
     Profile.repos := or_zero (User.public_repos user_data);
     Profile.followers := or_zero (User.followers user_data);
     Profile.following := or_zero (User.following user_data);
     Profile.languages := all_languages;
     Profile.company := get_or (User.company user_data) (Some EmptyString);
     Profile.location := get_or (User.location user_data) (Some EmptyString);
     Profile.created_at := get_or (User.created_at user_data) (Some EmptyString);
     Profile.repository_count := Z.of_nat (List.length repos_data);
     Profile.recent_repos := map Repo.name (firstn 5 repos_data);
     Profile.repo_analysis := repo_analysis;
     Profile.activity_analysis := activity_analysis;
     Profile.expertise_level :=
       _calculate_expertise_level rt user_data repos_data activity_analysis;
     Profile.preferred_domains := _extract_project_domains repos_data;
     Profile.collaboration_style :=
       _analyze_collaboration_style repos_data events_data;
     Profile.recent_activity_score :=
       ActivityAnalysis.recent_activity_score activity_analysis;
     Profile.technology_diversity := Z.of_nat (List.length all_languages);
     Profile.project_complexity_preference :=
       RepositoryAnalysis.avg_complexity repo_analysis |}.

(* ===================================================================== *)
(** ** Exceptions, the platform's replies, get_user_profile *)
(* ===================================================================== *)

(** A computation that returns or raises [Exception(msg)]. *)
Inductive result (A : Type) : Type :=
| Ok (a : A)
| Raise (msg : string).
Arguments Ok {A} a.
Arguments Raise {A} msg.

Definition bind {A B : Type} (r : result A) (k : A -> result B) : result B :=
  match r with
  | Ok a => k a
  | Raise msg => Raise msg
  end.

Notation "x <- r ;; k" := (bind r (fun x => k))
  (at level 61, r at next level, right associativity).

(** One GET: the request or the decoding of its body raises, or it answers
    with a status and a body (read only under status 200). *)
Inductive reply (A : Type) : Type :=
| Fails (msg : string)
| Answer (status : Z) (body : A).
Arguments Fails {A} msg.
Arguments Answer {A} status body.

Record Replies := {
  user_reply : reply User.t;
  repos_reply : reply (list Repo.t);
  events_reply : reply (list Event.t)
}.

(** The listing requests: the body under status 200, else the empty list. *)
Definition listing {A : Type} (r : reply (list A)) : result (list A) :=
  match r with
  | Fails msg => Raise msg
  | Answer status body => Ok (if status =? 200 then body else [])
  end.

Definition fetch_user (username : string) (r : reply User.t) : result User.t :=
  match r with
  | Fails msg => Raise msg
  | Answer status body =>
      if status =? 404 then
        Raise ("GitHub user '" ++ username
               ++ "' not found. Please check the username and try again.")
      else if status =? 403 then
        Raise "GitHub API rate limit exceeded. Please try again in a few minutes."
      else if negb (status =? 200) then
        Raise ("GitHub API error: Unable to fetch profile (Status: "
               ++ PyStr.of_int status ++ ")")
      else Ok body
  end.

(** [except Exception as e: raise e] hands every exception on unchanged. *)
Definition get_user_profile (rt : Runtime) (github : string -> Replies)
    (username : string) : result Profile.t :=
  let r := github username in
  user_data <- fetch_user username (user_reply r) ;;
  repos_data <- listing (repos_reply r) ;;
  events_data <- listing (events_reply r) ;;
  Ok (analyze rt username user_data repos_data events_data).

(* ===================================================================== *)
(** ** AIAgentClient.call_agent and AgentService.analyze_github_profile *)
(* ===================================================================== *)

#[local] Set Warnings "-register-all".

(** A value of the configuration file, by its Python type. *)
Inductive config_value : Type :=
| CNull
| CBool (b : bool)
| CInt (n : Z)
| CFloat (q : Q)
| CStr (s : string)
| CList (items : list config_value)
| CMap (entries : list (string * config_value)).

(** [type(v).__name__]. *)
Definition type_name (v : config_value) : string :=
  match v with
  | CNull => "NoneType"
  | CBool _ => "bool"
  | CInt _ => "int"
  | CFloat _ => "float"
  | CStr _ => "str"
  | CList _ => "list"
  | CMap _ => "dict"
  end.

(** An entry of [config.agents], a [Dict[str, Any]]: its keys with their
    values. *)
Definition agent_config := list (string * config_value).

(** [d.get(key)] on such a dict: [None] when the key is absent. *)
Fixpoint config_get (d : list (string * config_value)) (key : string)
  : option config_value :=
  match d with
  | [] => None
  | (k, v) :: t => if String.eqb k key then Some v else config_get t key
  end.

(** [agent_config.get('parameters', {}).get(...)], evaluated for the
    temperature and for the token limit before anything else is done: the
    mapping the two settings are read from, or the AttributeError of calling
    [.get] on a value that is not a mapping. *)
Definition read_parameters (cfg : agent_config) : result (list (string * config_value)) :=
  match config_get cfg "parameters" with
  | None => Ok []
  | Some (CMap m) => Ok m
  | Some v => Raise ("'" ++ type_name v ++ "' object has no attribute 'get'")
  end.

(** What [model.generate_content] does: raise, or answer with a text. *)
Inductive generation : Type :=
| GenRaises (msg : string)
| GenText (text : string).

(** [_call_gemini]. *)
Definition _call_gemini (g : generation) : result string :=
  match g with
  | GenRaises msg => Raise msg
  | GenText text =>
      if PyStr.truthy text then Ok text else Raise "No response text generated"
  end.

(** The message [call_agent] raises in place of the model's. *)
Definition friendly_message (gemini_error : string) : string :=
  let low := PyStr.lower gemini_error in
  if PyStr.contains "API key" low || PyStr.contains "authentication" low then
    "AI service authentication failed. Please check the API key configuration."
  else if PyStr.contains "rate limit" low || PyStr.contains "quota" low then
    "AI service rate limit exceeded. Please try again in a few minutes."
  else if PyStr.contains "network" low || PyStr.contains "connection" low then
    "Unable to connect to AI service. Please check your internet connection and try again."
  else "AI service temporarily unavailable. Please try again later.".

(** [call_agent].  The settings are read first, and an exception there
    leaves through the outer [except], unchanged; then the model is called,
    if there is one ([model] is [None] when no API key is configured), and
    its exception is replaced by a message of the client's own.  The model
    sees the prompt and the settings, all functions of the configuration and
    the profile. *)
Definition call_agent (model : option (agent_config -> Profile.t -> generation))
    (cfg : agent_config) (profile_data : Profile.t) : result string :=
  _ <- read_parameters cfg ;;
  match model with
  | Some generate =>
      match _call_gemini (generate cfg profile_data) with
      | Ok text => Ok text
      | Raise gemini_error => Raise (friendly_message gemini_error)
      end
  | None =>
      Raise "AI service is not configured. Please check your Gemini API key configuration."
  end.

Module AnalysisResponse.
Record t := {
    success : bool;
    agent : string;
    recommendations : option string;
    profile : option Profile.t;
    error : option string
  }.
End AnalysisResponse.

(** The collaborators of the service: its agent table, the platform, the
    text generator. *)
Record Service := {
  agents : list (string * agent_config);
  github : string -> Replies;
  model : option (agent_config -> Profile.t -> generation)
}.

(** [agents.get(agent_name, {})]. *)
Fixpoint agents_get (agents : list (string * agent_config)) (agent_name : string)
  : agent_config :=
  match agents with
  | [] => []
  | (k, cfg) :: t => if String.eqb k agent_name then cfg else agents_get t agent_name
  end.

(** The checks at the head of the [try] block: the stripped username, or
    the exception raised. *)
Definition validate_username (username : string) : result string :=
  if negb (PyStr.truthy username) || negb (PyStr.truthy (PyStr.strip username)) then
    Raise "Username cannot be empty. Please enter a valid GitHub username."
  else
    let username := PyStr.strip username in
    if 39 <? Z.of_nat (String.length username) then
      Raise "Username is too long. GitHub usernames must be 39 characters or less."
    else if negb (PyStr.isalnum
                    (PyStr.replace "_"%char EmptyString (PyStr.replace "-"%char EmptyString username))) then
      Raise "Invalid username format. GitHub usernames can only contain letters, numbers, hyphens, and underscores."
    else Ok username.

(** The [try] block. *)
Definition analysis_steps (rt : Runtime) (svc : Service) (username agent_name : string)
  : result (string * Profile.t) :=
  username <- validate_username username ;;
  cfg <- match agents_get (agents svc) agent_name with
         | [] => Raise ("Agent " ++ agent_name ++ " not found in configuration")
         | cfg => Ok cfg
         end ;;
  profile <- get_user_profile rt (github svc) username ;;
  recommendations <- call_agent (model svc) cfg profile ;;
  Ok (recommendations, profile).

Definition analyze_github_profile (rt : Runtime) (svc : Service)
    (username agent_name : string) : AnalysisResponse.t :=
  match analysis_steps rt svc username agent_name with
  | Ok (recommendations, profile) =>
      {| AnalysisResponse.success := true;
         AnalysisResponse.agent := agent_name;
         AnalysisResponse.recommendations := Some recommendations;
         AnalysisResponse.profile := Some profile;
         AnalysisResponse.error := None |}
  | Raise msg =>
      {| AnalysisResponse.success := false;
         AnalysisResponse.agent := agent_name;
         AnalysisResponse.recommendations := None;
         AnalysisResponse.profile := None;
         AnalysisResponse.error := Some msg |}
  end.

(* ===================================================================== *)
(** ** A reference runtime *)
(* ===================================================================== *)

(** A concrete interpreter for the examples: timestamps of the platform's
    shape [YYYY-MM-DDTHH:MM:SS] with an optional [+HH:MM] or [-HH:MM]
    offset, and sets listed in first-insertion order. *)
Module Reference.

Definition digit (c : ascii) : option Z :=
    let n := PyStr.code c in
    if PyStr.between 48 57 n then Some (n - 48) else None.

  (** Reads [n] decimal digits. *)
Fixpoint number (n : nat) (acc : Z) (s : string) : option (Z * string) :=
    match n with
    | O => Some (acc, s)
    | S n' =>
        match s with
        | String c t =>
            match digit c with
            | Some d => number n' (acc * 10 + d) t
            | None => None
            end
        | EmptyString => None
        end
    end.

Definition expect (c : ascii) (s : string) : option string :=
    match s with
    | String d t => if Ascii.eqb c d then Some t else None
    | EmptyString => None
    end.

Definition leap (y : Z) : bool :=
    ((y mod 4 =? 0) && negb (y mod 100 =? 0)) || (y mod 400 =? 0).

Definition days_in_month (y m : Z) : Z :=
    if m =? 2 then (if leap y then 29 else 28)
    else if (m =? 4) || (m =? 6) || (m =? 9) || (m =? 11) then 30
    else 31.

  (** Days from 0001-01-01 to the given date of the proleptic Gregorian
      calendar. *)
Definition days_from_civil (y m d : Z) : Z :=
    let y' := if m <=? 2 then y - 1 else y in
    let era := y' / 400 in
    let yoe := y' - era * 400 in
    let mp := (m + 9) mod 12 in
    let doy := (153 * mp + 2) / 5 + d - 1 in
    era * 146097 + (yoe * 365 + yoe / 4 - yoe / 100 + doy) - 306.

Definition offset (s : string) : option (option Z) :=
    match s with
    | EmptyString => Some None
    | String sign t =>
        match number 2 0 t with
        | Some (hh, t1) =>
            match expect ":" t1 with
            | Some t2 =>
                match number 2 0 t2 with
                | Some (mm, EmptyString) =>
                    let us := (hh * 3600 + mm * 60) * 1000000 in
                    if (hh <? 24) && (mm <? 60) then
                      if Ascii.eqb sign "+" then Some (Some us)
                      else if Ascii.eqb sign "-" then Some (Some (- us))
                      else None
                    else None
                | _ => None
                end
            | None => None
            end
        | None => None
        end
    end.

Definition fromisoformat (s : string) : option datetime :=
    match number 4 0 s with
    | Some (y, s1) =>
    match expect "-" s1 with Some s2 =>
    match number 2 0 s2 with Some (m, s3) =>
    match expect "-" s3 with Some s4 =>
    match number 2 0 s4 with Some (d, s5) =>
    match expect "T" s5 with Some s6 =>
    match number 2 0 s6 with Some (hh, s7) =>
    match expect ":" s7 with Some s8 =>
    match number 2 0 s8 with Some (mi, s9) =>
    match expect ":" s9 with Some s10 =>
    match number 2 0 s10 with Some (ss, s11) =>
    match offset s11 with Some tz =>
      if (1 <=? y) && (1 <=? m) && (m <=? 12) && (1 <=? d)
         && (d <=? days_in_month y m) && (hh <? 24) && (mi <? 60) && (ss <? 60)
      then Some {| wall := days_from_civil y m d * day_us
                           + (hh * 3600 + mi * 60 + ss) * 1000000;
                   tzinfo := tz |}
      else None
    | None => None end | None => None end | None => None end | None => None end
    | None => None end | None => None end | None => None end | None => None end
    | None => None end | None => None end | None => None end | None => None end.

  (** The clock reads [stamp], a timestamp this parser accepts (else the
      first representable instant). *)
Definition runtime_at (stamp : string) (order : list string -> list string) : Runtime :=
    Build_Runtime fromisoformat
      (match fromisoformat stamp with Some d => wall d | None => 0 end)
      order.

End Reference.

(* ===================================================================== *)
(** ** The specification's wording, for comparison with the code *)
(* ===================================================================== *)

(** [sum(xs)]. *)
Definition Zsum (xs : list Z) : Z := fold_right Z.add 0 xs.

Module SpecWords.

  (** Section 4.5 as worded: the five factors, each capped, none
      truncated; [days] is the account age in whole days when the creation
      timestamp parses. *)
Definition expertise_total (days : option Z) (public_repos followers : Z)
      (activity_score stars_of_first_10 : Z) : Q :=
    ((match days with
      | Some d => Qmin (inject_Z d / 365 * 10) 30
      | None => 10
      end)
     + Qmin (inject_Z public_repos * 2) 25
     + Qmin (inject_Z followers * (5 # 10)) 20
     + inject_Z activity_score * (15 # 100)
     + Qmin (inject_Z stars_of_first_10 * (2 # 10)) 10)%Q.

  (** Section 4.6 as worded.  The languages of the repositories, each once,
      in order of first appearance. *)
Definition languages_seen (repos : list Repo.t) : list string :=
    dict_fromkeys
      (flat_map (fun r => match language_of r with Some l => [l] | None => [] end)
                repos).

Definition has_language (l : string) (r : Repo.t) : bool :=
    match language_of r with Some l' => String.eqb l' l | None => false end.

  (** The weighted score of a language: the sum of [(stars+1)*(size+1)]
      over its repositories. *)
Definition total_weight (repos : list Repo.t) (l : string) : Z :=
    Zsum (map weight (filter (has_language l) repos)).

  (** The raw count of a language: the number of its repositories. *)
Definition repo_count (repos : list Repo.t) (l : string) : Z :=
    count_if (has_language l) repos.

  (** One ranking: by descending score, capped at eight. *)
Definition ranked (score : string -> Z) (langs : list string) : list string :=
    map fst (firstn 8 (sorted_desc (map (fun l => (l, score l)) langs))).

  (** The two rankings, weighted one first, merged by first-seen-order
      deduplication, capped at ten. *)
Definition top_languages (repos : list Repo.t) : list string :=
    firstn 10
      (dict_fromkeys
         (ranked (total_weight repos) (languages_seen repos)
          ++ ranked (repo_count repos) (languages_seen repos))).

End SpecWords.

(** A timestamp that is there and does not parse. *)
Definition malformed (rt : Runtime) (stamp : option string) : bool :=
  match stamp with
  | Some s => match parse_timestamp rt s with Some _ => false | None => true end
  | None => false
  end.

(** A profile with the two set-built lists emptied: what does not depend on
    the iteration order of a set. *)
Definition without_set_lists (p : Profile.t) : Profile.t :=
  let a := Profile.repo_analysis p in
  {| Profile.username := Profile.username p;
     Profile.name := Profile.name p;
     Profile.bio := Profile.bio p;
     Profile.repos := Profile.repos p;
     Profile.followers := Profile.followers p;
     Profile.following := Profile.following p;
     Profile.languages := Profile.languages p;
     Profile.company := Profile.company p;
     Profile.location := Profile.location p;
     Profile.created_at := Profile.created_at p;
     Profile.repository_count := Profile.repository_count p;
     Profile.recent_repos := Profile.recent_repos p;
     Profile.repo_analysis :=
       {| RepositoryAnalysis.total_stars := RepositoryAnalysis.total_stars a;
          RepositoryAnalysis.total_forks := RepositoryAnalysis.total_forks a;
          RepositoryAnalysis.avg_complexity := RepositoryAnalysis.avg_complexity a;
          RepositoryAnalysis.popular_topics := RepositoryAnalysis.popular_topics a;
          RepositoryAnalysis.frameworks_used := [];
          RepositoryAnalysis.project_types := [];
          RepositoryAnalysis.recent_activity := RepositoryAnalysis.recent_activity a |};
     Profile.activity_analysis := Profile.activity_analysis p;
     Profile.expertise_level := Profile.expertise_level p;
     Profile.preferred_domains := Profile.preferred_domains p;
     Profile.collaboration_style := Profile.collaboration_style p;
     Profile.recent_activity_score := Profile.recent_activity_score p;
     Profile.technology_diversity := Profile.technology_diversity p;
     Profile.project_complexity_preference := Profile.project_complexity_preference p |}.

(** Two runtimes that differ at most in the iteration order of sets. *)
Definition same_clock_and_parser (rt1 rt2 : Runtime) : Prop :=
  now rt1 = now rt2 /\ forall s, fromisoformat rt1 s = fromisoformat rt2 s.

(** A second admissible iteration order: last insertion first. *)
Definition reversed_order (xs : list string) : list string := rev (dict_fromkeys xs).

Fixpoint all_space (s : string) : bool :=
  match s with
  | EmptyString => true
  | String c t => PyStr.isspace_char c && all_space t
  end.

(** The window counts of the event loop, read off the list. *)
Definition is_push (e : Event.t) : bool :=
  match Event.type e with Some ty => String.eqb ty "PushEvent" | None => false end.

Definition is_pr_or_issue (e : Event.t) : bool :=
  match Event.type e with
  | Some ty => str_in ty ["PullRequestEvent"; "IssuesEvent"]
  | None => false
  end.

(* ===================================================================== *)
(** ** Sample data *)
(* ===================================================================== *)

Module Sample.

Definition rt : Runtime := Reference.runtime_at "2024-06-01T00:00:00" dict_fromkeys.

Definition rt_reversed : Runtime :=
    Reference.runtime_at "2024-06-01T00:00:00" reversed_order.

Definition user (created : string) (public_repos followers : Z) : User.t :=
    {| User.name := Val "The Octocat"; User.bio := Null;
       User.company := Absent; User.location := Absent;
       User.created_at := Val created;
       User.public_repos := Some public_repos;
       User.followers := Some followers;
       User.following := Some 0 |}.

Definition repo (name : string) (description language : option string)
      (stars forks : Z) (forked : bool) (updated : string) : Repo.t :=
    {| Repo.name := name; Repo.description := description;
       Repo.language := language;
       Repo.stargazers_count := Some stars; Repo.forks_count := Some forks;
       Repo.size := Some 10; Repo.topics := Some [];
       Repo.updated_at := Some updated; Repo.fork := Some forked |}.

Definition event (type created : string) : Event.t :=
    {| Event.type := Some type; Event.created_at := Some created |}.

  (** A repository whose name and description name a frontend and a
      backend framework. *)
Definition fullstack : Repo.t :=
    repo "react-dashboard" (Some "A Django REST backend") (Some "Python")
         3 1 false "2024-05-20T08:00:00Z".

Definition plain (stars : Z) (forked : bool) : Repo.t :=
    repo "notes" None (Some "Go") stars 0 forked "2020-01-01T00:00:00Z".

Definition replies (u : User.t) (rs : list Repo.t) (es : list Event.t) : Replies :=
    {| user_reply := Answer 200 u; repos_reply := Answer 200 rs;
       events_reply := Answer 200 es |}.

Definition service (u : User.t) (rs : list Repo.t) (es : list Event.t)
      (g : generation) : Service :=
    {| agents := [("hackathon_recommender",
                   [("name", CStr "Hackathon Project Recommender")])];
       github := fun _ => replies u rs es;
       model := Some (fun _ _ => g) |}.

End Sample.
(* ===================================================================== *)
(** ** Reading a tally loop off its input *)
(* ===================================================================== *)

(** One round of a loop that adds [w x] under the key of [x], when it has
    one: the shape of both language dicts. *)
Definition tally_step {A : Type} (key : A -> option string) (w : A -> Z)
    (d : list (string * Z)) (x : A) : list (string * Z) :=
  match key x with
  | Some k => bump k (w x) d
  | None => d
  end.

Definition keys_of {A : Type} (key : A -> option string) (xs : list A) : list string :=
  flat_map (fun x => match key x with Some k => [k] | None => [] end) xs.

Definition has_key {A : Type} (key : A -> option string) (k : string) (x : A) : bool :=
  match key x with Some k' => String.eqb k' k | None => false end.

Definition total_for {A : Type} (key : A -> option string) (w : A -> Z)
    (xs : list A) (k : string) : Z :=
  Zsum (map w (filter (has_key key k) xs)).

(* ===================================================================== *)
(** ** AgentConfig, AgentService.__init__ and the endpoints *)
(* ===================================================================== *)

(** What opening the configuration file and [yaml.safe_load] give: an
    exception, a document that is not a mapping (an empty file loads as
    [None]), or a mapping with its [agents] and [config] keys. *)
Inductive config_file : Type :=
| Unreadable (msg : string)
| NotMapping
| Mapping (agents : field (list (string * agent_config)))
          (config : field (list (string * string))).

Module AgentConfig.

Record t := {
  agents : list (string * agent_config);
  config : option (list (string * string))
}.

(** The table of the [except] branch. *)
Definition default_agents : list (string * agent_config) :=
  [("hackathon_recommender",
    [("name", CStr "Hackathon Project Recommender");
     ("description",
      CStr "Analyzes GitHub profiles to recommend personalized hackathon projects")])].

Definition fallback : t := {| agents := default_agents; config := Some [] |}.

(** [load_config].  [data.get] on a document that is not a mapping raises,
    and so does [len(self.agents)] in the log line when the [agents] key
    holds null; every exception ends in the [except] branch. *)
Definition load_config (file : config_file) : t :=
  match file with
  | Unreadable _ => fallback
  | NotMapping => fallback
  | Mapping Null _ => fallback
  | Mapping Absent c => {| agents := []; config := get_or c (Some []) |}
  | Mapping (Val a) c => {| agents := a; config := get_or c (Some []) |}
  end.

End AgentConfig.

(** [AgentService.__init__]: the loaded agent table with the two clients. *)
Definition AgentService_init (file : config_file) (platform : string -> Replies)
    (generator : option (agent_config -> Profile.t -> generation)) : Service :=
  {| agents := AgentConfig.agents (AgentConfig.load_config file);
     github := platform;
     model := generator |}.

(** The body of a POST to [/analyze]; [agent] is [None] when the request
    leaves the field out. *)
Module AnalysisRequest.
Record t := { username : string; agent : option string }.
End AnalysisRequest.

Definition analyze_profile (rt : Runtime) (svc : Service) (request : AnalysisRequest.t)
  : AnalysisResponse.t :=
  analyze_github_profile rt svc (AnalysisRequest.username request)
    (match AnalysisRequest.agent request with
     | Some a => a
     | None => "hackathon_recommender"
     end).

(** [list_agents]: the keys of the agent table. *)
Definition list_agents (svc : Service) : list string := map fst (agents svc).

(* ===================================================================== *)
(** ** Vocabulary for the statements about the code *)
(* ===================================================================== *)

(** The characters of an accepted username. *)
Definition name_char (c : ascii) : bool :=
  PyStr.isalnum_char c || Ascii.eqb c "-" || Ascii.eqb c "_".

(** The [parameters] of an agent can be read: the key is absent, or holds a
    mapping. *)
Definition parameters_readable (cfg : agent_config) : Prop :=
  config_get cfg "parameters" = None
  \/ exists m, config_get cfg "parameters" = Some (CMap m).

(** The [parameters] key holds [v], which is not a mapping. *)
Definition parameters_hold (cfg : agent_config) (v : config_value) : Prop :=
  config_get cfg "parameters" = Some v /\ forall m, v <> CMap m.

(** The text of the AttributeError raised by [v.get]. *)
Definition no_get (v : config_value) : string :=
  "'" ++ type_name v ++ "' object has no attribute 'get'".

(** The messages [call_agent] raises of its own. *)
Definition agent_messages : list string :=
  ["AI service authentication failed. Please check the API key configuration.";
   "AI service rate limit exceeded. Please try again in a few minutes.";
   "Unable to connect to AI service. Please check your internet connection and try again.";
   "AI service temporarily unavailable. Please try again later.";
   "AI service is not configured. Please check your Gemini API key configuration."].

(** Occurrences of [x] in [xs]. *)
Definition occurrences (x : string) (xs : list string) : Z :=
  count_if (String.eqb x) xs.

(** The topic tags the repository loop collects. *)
Definition topics_of (repos : list Repo.t) : list string :=
  flat_map (fun r => match Repo.topics r with Some ts => ts | None => [] end) repos.

Definition domain_labels : list string :=
  ["Web Development"; "Data Science & AI"; "Mobile Development";
   "DevOps & Infrastructure"; "Game Development"; "Blockchain & Web3"].

(** [any(kw in repo_name or kw in repo_desc for kw in kws)] on the
    lower-cased name and description of a repository. *)
Definition detects (kws : list string) (repo : Repo.t) : bool :=
  any_keyword kws (PyStr.lower (Repo.name repo))
              (PyStr.lower (or_empty (Repo.description repo))).

(** The order [sorted(..., reverse=True)] leaves its entries in. *)
Definition descending (a b : string * Z) : Prop := snd b <= snd a.

(* ===================================================================== *)
(** ** The language ranking as the specification words it *)
(* ===================================================================== *)

(** Section 4.6 read on its own: nothing here refers to the functions that
    model the code. *)
Module LanguageSpec.

(** The language of a repository: the key is present and its value is a
    non-empty string. *)
Definition language (r : Repo.t) : option string :=
  match Repo.language r with
  | Some (String c s) => Some (String c s)
  | _ => None
  end.

Definition stars (r : Repo.t) : Z :=
  match Repo.stargazers_count r with Some n => n | None => 0 end.

Definition size (r : Repo.t) : Z :=
  match Repo.size r with Some n => n | None => 1 end.

Definition uses (l : string) (r : Repo.t) : bool :=
  match language r with Some l' => String.eqb l l' | None => false end.

(** The first occurrences of a list, in order. *)
Fixpoint distinct (xs : list string) : list string :=
  match xs with
  | [] => []
  | x :: t => x :: filter (fun y => negb (String.eqb y x)) (distinct t)
  end.

(** The languages of the repositories, each once, in order of first
    appearance. *)
Definition languages (repos : list Repo.t) : list string :=
  distinct (flat_map (fun r => match language r with Some l => [l] | None => [] end)
                     repos).

(** Each repository contributes [(stars+1)*(size+1)] to its language. *)
Definition weighted_score (repos : list Repo.t) (l : string) : Z :=
  fold_right (fun r acc => if uses l r then (stars r + 1) * (size r + 1) + acc else acc)
             0 repos.

(** Each repository contributes one to its language. *)
Definition count_score (repos : list Repo.t) (l : string) : Z :=
  fold_right (fun r acc => if uses l r then 1 + acc else acc) 0 repos.

(** The position of the first occurrence of [x]. *)
Fixpoint index (x : string) (l : list string) : nat :=
  match l with
  | [] => O
  | y :: t => if String.eqb x y then O else S (index x t)
  end.

(** [a] comes before [b] in a ranking: its score is larger, or the scores
    are equal and [a] appeared first. *)
Definition outranks (score : string -> Z) (langs : list string) (a b : string) : Prop :=
  score b < score a \/ (score a = score b /\ (index a langs < index b langs)%nat).

(** [R] is the ranking of [langs] by [score]. *)
Definition is_ranking (score : string -> Z) (langs R : list string) : Prop :=
  Permutation R langs /\ StronglySorted (outranks score langs) R.

(** Each ranking cut to eight, the weighted one first, deduplicated in
    first-seen order, cut to ten. *)
Definition merged (by_weight by_count : list string) : list string :=
  firstn 10 (distinct (firstn 8 by_weight ++ firstn 8 by_count)).

End LanguageSpec.

(** Sixteen repositories in twelve languages: eight starred ones in a
    language each, then four languages with two unstarred repositories
    each. *)
Definition polyglot : list Repo.t :=
  let starred l n := Sample.repo l None (Some l) n 0 false "2024-05-20T08:00:00Z" in
  let bare l := Sample.repo l None (Some l) 0 0 false "2024-05-20T08:00:00Z" in
  [starred "Ada" 3; starred "C" 9; starred "Dart" 1; starred "Elm" 9;
   starred "Go" 5; starred "Java" 2; starred "Lua" 7; starred "Nim" 4;
   bare "Perl"; bare "Perl"; bare "Ruby"; bare "Ruby";
   bare "Scala"; bare "Scala"; bare "Zig"; bare "Zig"].


(** The two rankings of [polyglot]. *)
Definition polyglot_by_weight : list string :=
  ["C"; "Elm"; "Lua"; "Go"; "Nim"; "Ada"; "Java"; "Dart"; "Perl"; "Ruby"; "Scala"; "Zig"].

Definition polyglot_by_count : list string :=
  ["Perl"; "Ruby"; "Scala"; "Zig"; "Ada"; "C"; "Dart"; "Elm"; "Go"; "Java"; "Lua"; "Nim"].

(* ===================================================================== *)
(** ** Basic facts: comparisons, counting, summing *)
(* ===================================================================== *)

Lemma Qgtb_true (a b : Q) : Qgtb a b = true <-> (b < a)%Q.
Proof.
  unfold Qgtb. rewrite (Qgt_alt a b).
  destruct (a ?= b)%Q; split; congruence.
Qed.

Lemma Qgtb_false (a b : Q) : Qgtb a b = false <-> (a <= b)%Q.
Proof.
  rewrite <- not_true_iff_false, Qgtb_true. split.
  - apply Qnot_lt_le.
  - apply Qle_not_lt.
Qed.

Lemma Qltb_true (a b : Q) : Qltb a b = true <-> (a < b)%Q.
Proof.
  unfold Qltb. rewrite (Qlt_alt a b).
  destruct (a ?= b)%Q; split; congruence.
Qed.

Lemma Qltb_false (a b : Q) : Qltb a b = false <-> (b <= a)%Q.
Proof.
  rewrite <- not_true_iff_false, Qltb_true. split.
  - apply Qnot_lt_le.
  - apply Qle_not_lt.
Qed.

Lemma count_if_nil {A : Type} (p : A -> bool) : count_if p [] = 0.
Proof. reflexivity. Qed.

Lemma count_if_cons {A : Type} (p : A -> bool) (x : A) (xs : list A) :
  count_if p (x :: xs) = (if p x then 1 else 0) + count_if p xs.
Proof.
  unfold count_if. simpl. destruct (p x); simpl List.length; lia.
Qed.

Lemma count_if_nonneg {A : Type} (p : A -> bool) (xs : list A) : 0 <= count_if p xs.
Proof. unfold count_if. lia. Qed.

Lemma count_if_le_length {A : Type} (p : A -> bool) (xs : list A) :
  count_if p xs <= Z.of_nat (List.length xs).
Proof.
  unfold count_if. apply inj_le. apply filter_length_le.
Qed.

Lemma count_if_ext {A : Type} (p q : A -> bool) (xs : list A) :
  (forall x, p x = q x) -> count_if p xs = count_if q xs.
Proof.
  intros E. induction xs as [|x xs IH].
  - reflexivity.
  - rewrite !count_if_cons, IH, E. reflexivity.
Qed.

Lemma Zsum_app (xs ys : list Z) : Zsum (xs ++ ys) = Zsum xs + Zsum ys.
Proof.
  induction xs as [|x xs IH]; simpl.
  - reflexivity.
  - rewrite IH. lia.
Qed.

Lemma sum_stars_from (repos : list Repo.t) (acc : Z) :
  fold_left (fun a repo => a + or_zero (Repo.stargazers_count repo)) repos acc
  = acc + Zsum (map (fun repo => or_zero (Repo.stargazers_count repo)) repos).
Proof.
  revert acc. induction repos as [|r repos IH]; intros acc; simpl.
  - lia.
  - rewrite IH. lia.
Qed.

Lemma sum_stars_Zsum (repos : list Repo.t) :
  sum_stars repos = Zsum (map (fun repo => or_zero (Repo.stargazers_count repo)) repos).
Proof. unfold sum_stars. rewrite sum_stars_from. lia. Qed.

(* ===================================================================== *)
(** ** The repository loop, field by field *)
(* ===================================================================== *)

Section RepoLoop.

Variable rt : Runtime.

Lemma repo_scan_total_stars (repos : list Repo.t) (st : RepoScan.t) :
    RepoScan.total_stars (fold_left (repo_step rt) repos st)
    = RepoScan.total_stars st
      + Zsum (map (fun repo => or_zero (Repo.stargazers_count repo)) repos).
Proof.
    revert st. induction repos as [|r repos IH]; intros st; simpl.
    - lia.
    - rewrite IH. simpl. lia.
Qed.

Lemma repo_scan_total_forks (repos : list Repo.t) (st : RepoScan.t) :
    RepoScan.total_forks (fold_left (repo_step rt) repos st)
    = RepoScan.total_forks st
      + Zsum (map (fun repo => or_zero (Repo.forks_count repo)) repos).
Proof.
    revert st. induction repos as [|r repos IH]; intros st; simpl.
    - lia.
    - rewrite IH. simpl. lia.
Qed.

Lemma repo_scan_recent (repos : list Repo.t) (st : RepoScan.t) :
    RepoScan.recent_activity (fold_left (repo_step rt) repos st)
    = RepoScan.recent_activity st || existsb (updated_recently rt) repos.
Proof.
    revert st. induction repos as [|r repos IH]; intros st; simpl.
    - now rewrite orb_false_r.
    - rewrite IH. simpl.
      destruct (updated_recently rt r), (RepoScan.recent_activity st); reflexivity.
Qed.

End RepoLoop.

Lemma most_common_length (n : nat) (c : list (string * Z)) :
  (List.length (most_common n c) <= n)%nat.
Proof.
  unfold most_common. rewrite length_map. apply firstn_le_length.
Qed.

(* ===================================================================== *)
(** ** The event loop, counter by counter *)
(* ===================================================================== *)

Lemma event_step_counts (rt : Runtime) (st : EventScan.t) (e : Event.t) :
  event_step rt st e
  = {| EventScan.recent_events :=
         EventScan.recent_events st + (if in_window rt e then 1 else 0);
       EventScan.push_events :=
         EventScan.push_events st + (if in_window rt e && is_push e then 1 else 0);
       EventScan.pr_events :=
         EventScan.pr_events st
         + (if in_window rt e && is_pr_or_issue e then 1 else 0) |}.
Proof.
  unfold event_step, is_push, is_pr_or_issue. destruct st as [r p q].
  cbn [EventScan.recent_events EventScan.push_events EventScan.pr_events].
  destruct (in_window rt e); cbn [andb].
  - destruct (Event.type e) as [ty|].
    + destruct (String.eqb ty "PushEvent") eqn:P.
      * apply String.eqb_eq in P. subst ty.
        change (str_in "PushEvent" ["PullRequestEvent"; "IssuesEvent"]) with false.
        f_equal; cbv iota; lia.
      * destruct (str_in ty ["PullRequestEvent"; "IssuesEvent"]); f_equal; cbv iota; lia.
    + f_equal; cbv iota; lia.
  - f_equal; cbv iota; lia.
Qed.

Lemma event_scan_from (rt : Runtime) (events : list Event.t) (st : EventScan.t) :
  fold_left (event_step rt) events st
  = {| EventScan.recent_events :=
         EventScan.recent_events st + count_if (in_window rt) events;
       EventScan.push_events :=
         EventScan.push_events st
         + count_if (fun e => in_window rt e && is_push e) events;
       EventScan.pr_events :=
         EventScan.pr_events st
         + count_if (fun e => in_window rt e && is_pr_or_issue e) events |}.
Proof.
  revert st. induction events as [|e events IH]; intros st.
  - cbn [fold_left]. rewrite !count_if_nil, !Z.add_0_r. now destruct st.
  - cbn [fold_left]. rewrite IH, !count_if_cons, event_step_counts.
    cbn [EventScan.recent_events EventScan.push_events EventScan.pr_events].
    f_equal; lia.
Qed.

Lemma event_scan_counts (rt : Runtime) (events : list Event.t) :
  event_scan rt events
  = {| EventScan.recent_events := count_if (in_window rt) events;
       EventScan.push_events := count_if (fun e => in_window rt e && is_push e) events;
       EventScan.pr_events :=
         count_if (fun e => in_window rt e && is_pr_or_issue e) events |}.
Proof. unfold event_scan. now rewrite event_scan_from. Qed.

Lemma activity_score_range (recent_events : Z) :
  0 <= recent_events -> 0 <= activity_score_of recent_events <= 100.
Proof. unfold activity_score_of. lia. Qed.

Lemma activity_score_in_range (rt : Runtime) (events : list Event.t) (repos : list Repo.t) :
  0 <= ActivityAnalysis.recent_activity_score (_analyze_activity_patterns rt events repos)
    <= 100.
Proof.
  destruct events as [|e events].
  - simpl. lia.
  - unfold _analyze_activity_patterns.
    cbv beta iota zeta. unfold ActivityAnalysis.recent_activity_score.
    rewrite event_scan_counts. simpl EventScan.recent_events.
    apply activity_score_range, count_if_nonneg.
Qed.

Lemma complexity_of_cases (avg : Q) (forks : Z) :
  (complexity_of avg forks = "advanced" <-> (50 < avg)%Q \/ 20 < forks)
  /\ (complexity_of avg forks = "beginner"
      <-> ~ ((50 < avg)%Q \/ 20 < forks) /\ (avg < 5)%Q /\ forks < 3)
  /\ (complexity_of avg forks = "intermediate"
      <-> ~ ((50 < avg)%Q \/ 20 < forks) /\ ~ ((avg < 5)%Q /\ forks < 3)).
Proof.
  unfold complexity_of.
  destruct (Qgtb avg 50) eqn:A;
    [apply Qgtb_true in A | apply Qgtb_false in A];
  (destruct (20 <? forks) eqn:F;
    [apply Z.ltb_lt in F | apply Z.ltb_ge in F]);
  (destruct (Qltb avg 5) eqn:B;
    [apply Qltb_true in B | apply Qltb_false in B]);
  (destruct (forks <? 3) eqn:G;
    [apply Z.ltb_lt in G | apply Z.ltb_ge in G]);
  simpl; intuition (try discriminate; try lia; try lra).
Qed.

Lemma collaboration_style_cases (forked original collab : Z) :
  let style := collaboration_style_of forked original collab in
  let mostly_forks := ((inject_Z original * (1 # 2) < inject_Z forked)%Q \/ 5 < collab) in
  (style = "collaborative" <-> mostly_forks)
  /\ (style = "mixed" <-> ~ mostly_forks /\ (0 < forked \/ 0 < collab))
  /\ (style = "independent" <-> ~ mostly_forks /\ ~ (0 < forked \/ 0 < collab)).
Proof.
  unfold collaboration_style_of. cbv zeta.
  destruct (Qgtb (inject_Z forked) (inject_Z original * (5 # 10))) eqn:A;
    [apply Qgtb_true in A | apply Qgtb_false in A];
  (destruct (5 <? collab) eqn:C;
    [apply Z.ltb_lt in C | apply Z.ltb_ge in C]);
  (destruct (0 <? forked) eqn:F;
    [apply Z.ltb_lt in F | apply Z.ltb_ge in F]);
  (destruct (0 <? collab) eqn:D;
    [apply Z.ltb_lt in D | apply Z.ltb_ge in D]);
  simpl; intuition (try discriminate; try lia; try lra).
Qed.

(* ===================================================================== *)
(** ** C1: the analysis of a user with no repository and no event *)
(* ===================================================================== *)

(** C1, as amended.  For every user record, the analysis of an empty
    repository list and an empty event list returns a profile (the fetch
    wrapper returns it without raising) whose activity tier is "moderate",
    whose complexity tier and project_complexity_preference are "beginner"
    (zero average stars and zero forks fall under the beginner rule, which
    overwrites the initial "intermediate"), and whose collaboration_style is
    "independent". *)
Theorem C1_empty_input :
  forall (rt : Runtime) (username : string) (user_data : User.t),
    let p := analyze rt username user_data [] [] in
    get_user_profile rt (fun _ => Sample.replies user_data [] []) username = Ok p
    /\ ActivityAnalysis.activity_type (Profile.activity_analysis p) = "moderate"
    /\ RepositoryAnalysis.avg_complexity (Profile.repo_analysis p) = "beginner"
    /\ Profile.project_complexity_preference p = "beginner"
    /\ Profile.collaboration_style p = "independent".
Proof.
  intros rt username user_data p. repeat split; reflexivity.
Qed.

(** C1 as stated fails: on empty input the complexity tier is not
    "intermediate". *)
Lemma C1_intermediate_fails :
  RepositoryAnalysis.avg_complexity
    (Profile.repo_analysis
       (analyze Sample.rt "octocat" (Sample.user "2019-06-03T00:00:00Z" 40 100) [] []))
  <> "intermediate".
Proof. intros H. vm_compute in H. discriminate H. Qed.

(* ===================================================================== *)
(** ** C3: the complexity tier *)
(* ===================================================================== *)

(** C3.  For every repository sequence, with the totals being the sums of
    the star and fork counts and avg_stars = total_stars / max(count, 1),
    the complexity tier is "advanced" exactly when avg_stars > 50 or
    total_forks > 20; otherwise "beginner" exactly when avg_stars < 5 and
    total_forks < 3; otherwise "intermediate".  The comparisons are strict:
    ten repositories with 501 stars in total are "advanced", and an average
    of exactly 50 (with at most 20 forks) is "intermediate". *)
Theorem C3_complexity_tier :
  forall (rt : Runtime) (repos : list Repo.t),
    let a := _analyze_repositories rt repos in
    let total_stars := RepositoryAnalysis.total_stars a in
    let total_forks := RepositoryAnalysis.total_forks a in
    let avg := avg_stars total_stars repos in
    let tier := RepositoryAnalysis.avg_complexity a in
    let advanced := (50 < avg)%Q \/ 20 < total_forks in
    let small := (avg < 5)%Q /\ total_forks < 3 in
    total_stars = Zsum (map (fun r => or_zero (Repo.stargazers_count r)) repos)
    /\ total_forks = Zsum (map (fun r => or_zero (Repo.forks_count r)) repos)
    /\ (avg == inject_Z total_stars / inject_Z (Z.max (Z.of_nat (List.length repos)) 1))%Q
    /\ (tier = "advanced" <-> advanced)
    /\ (tier = "beginner" <-> ~ advanced /\ small)
    /\ (tier = "intermediate" <-> ~ advanced /\ ~ small)
    /\ (List.length repos = 10%nat -> total_stars = 501 -> tier = "advanced")
    /\ ((avg == 50)%Q -> total_forks <= 20 -> tier = "intermediate").
Proof.
  intros rt repos a total_stars total_forks avg tier advanced small.
  assert (Ht : tier = complexity_of avg total_forks) by reflexivity.
  destruct (complexity_of_cases avg total_forks) as (Ha & Hb & Hi).
  rewrite <- Ht in Ha, Hb, Hi.
  split; [|split; [|split; [|split; [|split; [|split; [|split]]]]]].
  - subst total_stars a. unfold _analyze_repositories, repo_scan.
    cbn [RepositoryAnalysis.total_stars]. now rewrite repo_scan_total_stars.
  - subst total_forks a. unfold _analyze_repositories, repo_scan.
    cbn [RepositoryAnalysis.total_forks]. now rewrite repo_scan_total_forks.
  - reflexivity.
  - exact Ha.
  - exact Hb.
  - exact Hi.
  - intros Hlen Hstars. apply Ha. left.
    subst avg. unfold avg_stars. rewrite Hlen, Hstars. reflexivity.
  - intros Havg Hforks. apply Hi. subst advanced small. split.
    + intros [H | H]; [rewrite Havg in H; discriminate H | lia].
    + intros [H _]. rewrite Havg in H. discriminate H.
Qed.

Lemma C3_complexity_tier_witness :
  RepositoryAnalysis.avg_complexity
    (_analyze_repositories Sample.rt
       (Sample.plain 501 false :: repeat (Sample.plain 0 false) 9)) = "advanced"
  /\ RepositoryAnalysis.avg_complexity
       (_analyze_repositories Sample.rt
          (Sample.plain 500 false :: repeat (Sample.plain 0 false) 9)) = "intermediate".
Proof.
  split.
  - destruct (C3_complexity_tier Sample.rt
                (Sample.plain 501 false :: repeat (Sample.plain 0 false) 9))
      as (_ & _ & _ & _ & _ & _ & H & _).
    apply H; reflexivity.
  - destruct (C3_complexity_tier Sample.rt
                (Sample.plain 500 false :: repeat (Sample.plain 0 false) 9))
      as (_ & _ & _ & _ & _ & _ & _ & H).
    apply H; [reflexivity | vm_compute; discriminate].
Defined.

(* ===================================================================== *)
(** ** C4: the activity analysis *)
(* ===================================================================== *)

Lemma newer_than_days_spec (rt : Runtime) (t : datetime) (n : Z) :
  newer_than_days rt t n = Some (now rt - n * day_us <? wall t).
Proof.
  unfold newer_than_days, dt_gt, minus_days, replace_tzinfo, datetime_now.
  cbn [wall tzinfo]. destruct (tzinfo t) as [o|]; f_equal.
  destruct (Z.ltb_spec (now rt - n * day_us - o) (wall t - o));
    destruct (Z.ltb_spec (now rt - n * day_us) (wall t)); try reflexivity; lia.
Qed.

Lemma in_window_spec (rt : Runtime) (e : Event.t) :
  in_window rt e = true
  <-> exists s d, Event.created_at e = Some s /\ parse_timestamp rt s = Some d
                  /\ now rt - 30 * day_us < wall d.
Proof.
  unfold in_window. split.
  - destruct (Event.created_at e) as [s|]; [|discriminate].
    destruct (parse_timestamp rt s) as [d|] eqn:P; [|discriminate].
    rewrite newer_than_days_spec.
    destruct (Z.ltb_spec (now rt - 30 * day_us) (wall d)); [|discriminate].
    intros _. now exists s, d.
  - intros (s & d & -> & -> & H). rewrite newer_than_days_spec.
    apply Z.ltb_lt in H. now rewrite H.
Qed.

Lemma activity_type_cases (n : Z) :
  (20 < n -> activity_type_of n = "very_active")
  /\ (10 < n <= 20 -> activity_type_of n = "active")
  /\ (3 < n <= 10 -> activity_type_of n = "moderate")
  /\ (n <= 3 -> activity_type_of n = "low").
Proof.
  unfold activity_type_of.
  destruct (Z.ltb_spec 20 n), (Z.ltb_spec 10 n), (Z.ltb_spec 3 n);
    repeat split; intros; try reflexivity; lia.
Qed.

Lemma collaboration_level_cases (push pr : Z) :
  let busy := (inject_Z push * (3 # 10) < inject_Z pr)%Q in
  (busy -> collaboration_level_of push pr = "collaborative")
  /\ (~ busy -> 0 < pr -> collaboration_level_of push pr = "mixed")
  /\ (~ busy -> pr <= 0 -> collaboration_level_of push pr = "individual").
Proof.
  unfold collaboration_level_of. cbv zeta.
  destruct (Qgtb (inject_Z pr) (inject_Z push * (3 # 10))) eqn:A;
    [apply Qgtb_true in A | apply Qgtb_false in A];
  (destruct (Z.ltb_spec 0 pr));
  repeat split; intros; try reflexivity; try lia; try contradiction;
  exfalso; lra.
Qed.

(** C4.  For every non-empty event sequence, with recent_event_count the
    number of events whose timestamp parses and is newer than thirty days
    before the reference instant, and push_events and pr_events the push
    events and the pull-request or issue events among those: the score is
    min(recent_event_count * 3, 100); the tier is "very_active" above 20,
    "active" above 10, "moderate" above 3, else "low"; the collaboration
    level is "collaborative" if pr_events > push_events * 0.3, else "mixed"
    if pr_events > 0, else "individual". *)
Theorem C4_activity_patterns :
  forall (rt : Runtime) (events : list Event.t) (repos : list Repo.t),
    events <> [] ->
    let a := _analyze_activity_patterns rt events repos in
    let recent_event_count := count_if (in_window rt) events in
    let push_events := count_if (fun e => in_window rt e && is_push e) events in
    let pr_events := count_if (fun e => in_window rt e && is_pr_or_issue e) events in
    let tier := ActivityAnalysis.activity_type a in
    let level := ActivityAnalysis.collaboration_level a in
    let busy := (inject_Z push_events * (3 # 10) < inject_Z pr_events)%Q in
    (forall e, in_window rt e = true
               <-> exists s d, Event.created_at e = Some s
                               /\ parse_timestamp rt s = Some d
                               /\ now rt - 30 * day_us < wall d)
    /\ ActivityAnalysis.recent_activity_score a = Z.min (recent_event_count * 3) 100
    /\ (20 < recent_event_count -> tier = "very_active")
    /\ (10 < recent_event_count <= 20 -> tier = "active")
    /\ (3 < recent_event_count <= 10 -> tier = "moderate")
    /\ (recent_event_count <= 3 -> tier = "low")
    /\ (busy -> level = "collaborative")
    /\ (~ busy -> 0 < pr_events -> level = "mixed")
    /\ (~ busy -> pr_events <= 0 -> level = "individual").
Proof.
  intros rt events repos Hne a n push pr tier level busy.
  assert (Ha : a = {| ActivityAnalysis.recent_activity_score := activity_score_of n;
                      ActivityAnalysis.activity_type := activity_type_of n;
                      ActivityAnalysis.preferred_days := [];
                      ActivityAnalysis.commit_frequency := "weekly";
                      ActivityAnalysis.collaboration_level :=
                        collaboration_level_of push pr |}).
  { subst a. unfold _analyze_activity_patterns.
    destruct events as [|e events]; [contradiction|].
    now rewrite event_scan_counts. }
  subst tier level. rewrite Ha. cbn [ActivityAnalysis.recent_activity_score
    ActivityAnalysis.activity_type ActivityAnalysis.collaboration_level].
  destruct (activity_type_cases n) as (T1 & T2 & T3 & T4).
  destruct (collaboration_level_cases push pr) as (L1 & L2 & L3).
  split; [exact (in_window_spec rt)|].
  repeat split; assumption.
Qed.

Lemma C4_activity_patterns_witness :
  let events := [Sample.event "PushEvent" "2024-05-30T12:00:00Z";
                 Sample.event "IssuesEvent" "2024-05-21T09:30:00Z";
                 Sample.event "PushEvent" "not a timestamp";
                 Sample.event "PushEvent" "2023-01-01T00:00:00Z"] in
  let a := _analyze_activity_patterns Sample.rt events [] in
  events <> []
  /\ ActivityAnalysis.recent_activity_score a = 6
  /\ ActivityAnalysis.activity_type a = "low"
  /\ ActivityAnalysis.collaboration_level a = "collaborative".
Proof.
  intros events a.
  assert (Hne : events <> []) by discriminate.
  destruct (C4_activity_patterns Sample.rt events [] Hne)
    as (_ & Hs & _ & _ & _ & Hlow & Hbusy & _).
  split; [exact Hne|]. subst a. split; [|split].
  - rewrite Hs. reflexivity.
  - apply Hlow. vm_compute. discriminate.
  - apply Hbusy. reflexivity.
Defined.

(* ===================================================================== *)
(** ** C5: the collaboration style *)
(* ===================================================================== *)

(** C5.  For every repository sequence and event sequence, with
    forked_count the repositories flagged as forks, original_count the
    rest, and collab_events the fork, pull-request and issue events: the
    style is "collaborative" if forked_count > original_count * 0.5 or
    collab_events > 5, else "mixed" if forked_count > 0 or collab_events > 0,
    else "independent"; ten repositories with six forks are "collaborative"
    whatever the events. *)
Theorem C5_collaboration_style :
  forall (repos : list Repo.t) (events : list Event.t),
    let forked_count := count_if is_fork repos in
    let original_count := Z.of_nat (List.length repos) - forked_count in
    let collab_events := count_if is_collab_event events in
    let style := _analyze_collaboration_style repos events in
    let mostly_forks :=
      (inject_Z original_count * (1 # 2) < inject_Z forked_count)%Q
      \/ 5 < collab_events in
    (forall r, is_fork r = true <-> Repo.fork r = Some true)
    /\ (forall e, is_collab_event e = true
                  <-> exists ty, Event.type e = Some ty
                                 /\ (ty = "PullRequestEvent" \/ ty = "IssuesEvent"
                                     \/ ty = "ForkEvent"))
    /\ (style = "collaborative" <-> mostly_forks)
    /\ (style = "mixed" <-> ~ mostly_forks /\ (0 < forked_count \/ 0 < collab_events))
    /\ (style = "independent"
        <-> ~ mostly_forks /\ ~ (0 < forked_count \/ 0 < collab_events))
    /\ (List.length repos = 10%nat -> forked_count = 6 -> style = "collaborative").
Proof.
  intros repos events forked original collab style mostly.
  destruct (collaboration_style_cases forked original collab) as (Hc & Hm & Hi).
  split; [|split; [|split; [|split; [|split]]]].
  - intros r. unfold is_fork. destruct (Repo.fork r) as [[|]|]; split; congruence.
  - intros e. unfold is_collab_event. destruct (Event.type e) as [ty|].
    + unfold str_in. cbn [existsb]. rewrite !orb_true_iff, !String.eqb_eq. split.
      * intros H. exists ty. intuition congruence.
      * intros (ty' & E & H). injection E as ->. intuition congruence.
    + split; [discriminate | intros (ty & E & _); discriminate].
  - exact Hc.
  - exact Hm.
  - exact Hi.
  - intros Hlen Hforked. apply Hc. left.
    subst original. rewrite Hlen, Hforked. reflexivity.
Qed.

Lemma C5_collaboration_style_witness :
  _analyze_collaboration_style
    (repeat (Sample.plain 1 true) 6 ++ repeat (Sample.plain 1 false) 4) []
  = "collaborative".
Proof.
  destruct (C5_collaboration_style
              (repeat (Sample.plain 1 true) 6 ++ repeat (Sample.plain 1 false) 4) [])
    as (_ & _ & _ & _ & _ & H).
  apply H; reflexivity.
Defined.

(* ===================================================================== *)
(** ** C6: the caps *)
(* ===================================================================== *)

(** C6.  For every input the profile has at most 10 languages, at most 5
    popular topics, at most 5 preferred domains, and a recent activity
    score between 0 and 100. *)
Theorem C6_cap_invariants :
  forall (rt : Runtime) (username : string) (user_data : User.t)
         (repos_data : list Repo.t) (events_data : list Event.t),
    let p := analyze rt username user_data repos_data events_data in
    (List.length (Profile.languages p) <= 10)%nat
    /\ (List.length (RepositoryAnalysis.popular_topics (Profile.repo_analysis p)) <= 5)%nat
    /\ (List.length (Profile.preferred_domains p) <= 5)%nat
    /\ 0 <= Profile.recent_activity_score p <= 100
    /\ Profile.technology_diversity p = Z.of_nat (List.length (Profile.languages p)).
Proof.
  intros rt username user_data repos_data events_data p.
  split; [|split; [|split; [|split]]].
  - apply firstn_le_length.
  - apply most_common_length.
  - apply most_common_length.
  - apply activity_score_in_range.
  - reflexivity.
Qed.

(* ===================================================================== *)
(** ** C2: the expertise tier *)
(* ===================================================================== *)

Lemma account_days_spec (rt : Runtime) (created : datetime) :
  account_days rt created = Some ((now rt - wall created) / day_us).
Proof.
  unfold account_days, days_between, replace_tzinfo, datetime_now.
  cbn [wall tzinfo]. destruct (tzinfo created) as [o|]; f_equal; f_equal; lia.
Qed.

Lemma age_points_quot (days : Z) :
  age_points days = Z.min (Z.quot (days * 10) 365) 30.
Proof.
  unfold age_points, py_int. cbn [Qnum Qden Qmult Qdiv Qinv inject_Z].
  f_equal. f_equal. lia.
Qed.

Lemma py_int_fifth (n : Z) : py_int (inject_Z n * (2 # 10)) = Z.quot n 5.
Proof.
  unfold py_int. cbn [Qnum Qden Qmult inject_Z].
  change (Z.pos (1 * 10)) with (5 * 2).
  apply Z.quot_mul_cancel_r; discriminate.
Qed.

Lemma account_age_parsed (rt : Runtime) (user_data : User.t) (s : string)
    (created : datetime) :
  User.created_at user_data = Val s ->
  parse_timestamp rt s = Some created ->
  account_age_factor rt user_data
  = Z.min (Z.quot ((now rt - wall created) / day_us * 10) 365) 30.
Proof.
  intros Hc Hp. unfold account_age_factor.
  now rewrite Hc, Hp, account_days_spec, age_points_quot.
Qed.

Lemma account_age_fallback (rt : Runtime) (user_data : User.t) :
  (forall s, User.created_at user_data = Val s -> parse_timestamp rt s = None) ->
  account_age_factor rt user_data = 10.
Proof.
  intros H. unfold account_age_factor.
  destruct (User.created_at user_data) as [| |s]; try reflexivity.
  now rewrite (H s eq_refl).
Qed.

Lemma expertise_tier_cases (q : Q) :
  (expertise_tier q = "expert" <-> (70 < q)%Q)
  /\ (expertise_tier q = "intermediate" <-> (40 < q)%Q /\ (q <= 70)%Q)
  /\ (expertise_tier q = "beginner" <-> (15 < q)%Q /\ (q <= 40)%Q)
  /\ (expertise_tier q = "newcomer" <-> (q <= 15)%Q).
Proof.
  unfold expertise_tier.
  destruct (Qgtb q 70) eqn:A; [apply Qgtb_true in A | apply Qgtb_false in A];
  (destruct (Qgtb q 40) eqn:B; [apply Qgtb_true in B | apply Qgtb_false in B]);
  (destruct (Qgtb q 15) eqn:C; [apply Qgtb_true in C | apply Qgtb_false in C]);
  intuition (try discriminate; try lra).
Qed.

Lemma Qgtb_Qeq (p q c : Q) : (p == q)%Q -> Qgtb p c = Qgtb q c.
Proof. intros E. unfold Qgtb. now rewrite E. Qed.

Lemma expertise_tier_Qeq (p q : Q) : (p == q)%Q -> expertise_tier p = expertise_tier q.
Proof.
  intros E. unfold expertise_tier.
  now rewrite (Qgtb_Qeq p q 70 E), (Qgtb_Qeq p q 40 E), (Qgtb_Qeq p q 15 E).
Qed.

(** C2, as amended.  The expertise tier maps, with strict comparisons
    (above 70 "expert", above 40 "intermediate", above 15 "beginner", else
    "newcomer"), the sum of five factors: min(trunc(days / 365 * 10), 30)
    for an account of [days] whole days, or exactly 10 when the creation
    timestamp is missing or does not parse; min(public_repos * 2, 25);
    min(followers * 0.5, 20); activity_score * 0.15; and
    min(trunc(stars_of_first_10_repos * 0.2), 10).  The account-age and star
    factors are truncated to integers before they are capped.  A sum of
    exactly 70 is "intermediate", a sum of 71 is "expert", and the five-year
    account with 40 repositories, 100 followers, activity score 60 and 30
    stars totals 90 and is "expert". *)
Theorem C2_expertise_tier :
  forall (rt : Runtime) (user_data : User.t) (repos_data : list Repo.t)
         (activity_analysis : ActivityAnalysis.t),
    let age := account_age_factor rt user_data in
    let public_repos := or_zero (User.public_repos user_data) in
    let followers := or_zero (User.followers user_data) in
    let score := ActivityAnalysis.recent_activity_score activity_analysis in
    let stars :=
      Zsum (map (fun r => or_zero (Repo.stargazers_count r)) (firstn 10 repos_data)) in
    let total :=
      (inject_Z age + inject_Z (Z.min (public_repos * 2) 25)
       + Qmin (inject_Z followers * (5 # 10)) 20
       + inject_Z score * (15 # 100)
       + inject_Z (Z.min (Z.quot stars 5) 10))%Q in
    let tier := _calculate_expertise_level rt user_data repos_data activity_analysis in
    (forall s created,
        User.created_at user_data = Val s ->
        parse_timestamp rt s = Some created ->
        age = Z.min (Z.quot ((now rt - wall created) / day_us * 10) 365) 30)
    /\ ((forall s, User.created_at user_data = Val s -> parse_timestamp rt s = None) ->
        age = 10)
    /\ (tier = "expert" <-> (70 < total)%Q)
    /\ (tier = "intermediate" <-> (40 < total)%Q /\ (total <= 70)%Q)
    /\ (tier = "beginner" <-> (15 < total)%Q /\ (total <= 40)%Q)
    /\ (tier = "newcomer" <-> (total <= 15)%Q)
    /\ ((total == 70)%Q -> tier = "intermediate")
    /\ ((total == 71)%Q -> tier = "expert")
    /\ (forall s created,
           User.created_at user_data = Val s ->
           parse_timestamp rt s = Some created ->
           1825 <= (now rt - wall created) / day_us <= 1827 ->
           public_repos = 40 -> followers = 100 -> score = 60 -> stars = 30 ->
           (total == 90)%Q /\ tier = "expert").
Proof.
  intros rt user_data repos_data activity_analysis
         age public_repos followers score stars total tier.
  assert (Ht : tier = expertise_tier total).
  { subst tier. unfold _calculate_expertise_level. apply expertise_tier_Qeq.
    unfold Factors.total, expertise_factors.
    cbn [Factors.account_age Factors.repo_count Factors.followers
         Factors.activity Factors.complexity].
    rewrite py_int_fifth, sum_stars_Zsum. subst total. fold age. fold stars.
    rewrite Qplus_0_l. reflexivity. }
  destruct (expertise_tier_cases total) as (He & Hi & Hb & Hn).
  rewrite <- Ht in He, Hi, Hb, Hn.
  split; [|split; [|split; [|split; [|split; [|split; [|split; [|split]]]]]]].
  - intros s created Hc Hp. now apply account_age_parsed with (s := s).
  - apply account_age_fallback.
  - exact He.
  - exact Hi.
  - exact Hb.
  - exact Hn.
  - intros E. apply Hi. rewrite E. split; reflexivity || discriminate.
  - intros E. apply He. rewrite E. reflexivity.
  - intros s created Hc Hp Hdays Hr Hf Hs Hst.
    assert (Hage : age = 30).
    { subst age. rewrite (account_age_parsed rt user_data s created Hc Hp).
      set (d := (now rt - wall created) / day_us) in *.
      rewrite Z.quot_div_nonneg by lia.
      assert (30 <= d * 10 / 365) by (apply Z.div_le_lower_bound; lia).
      lia. }
    assert (E : (total == 90)%Q).
    { subst total. rewrite Hage, Hr, Hf, Hs, Hst. reflexivity. }
    split; [exact E|]. apply He. rewrite E. reflexivity.
Qed.

Lemma C2_expertise_tier_witness :
  let user_data := Sample.user "2019-06-03T00:00:00Z" 40 100 in
  let repos_data := repeat (Sample.plain 3 false) 12 in
  let activity_analysis :=
    {| ActivityAnalysis.recent_activity_score := 60;
       ActivityAnalysis.activity_type := "active";
       ActivityAnalysis.preferred_days := [];
       ActivityAnalysis.commit_frequency := "weekly";
       ActivityAnalysis.collaboration_level := "mixed" |} in
  _calculate_expertise_level Sample.rt user_data repos_data activity_analysis = "expert"
  /\ account_age_factor Sample.rt (Sample.user "yesterday" 40 100) = 10.
Proof.
  intros user_data repos_data activity_analysis. split.
  - destruct (C2_expertise_tier Sample.rt user_data repos_data activity_analysis)
      as (_ & _ & _ & _ & _ & _ & _ & _ & H).
    apply (H "2019-06-03T00:00:00Z"
             {| wall := 63695116800000000; tzinfo := Some 0 |});
      try reflexivity.
    vm_compute. split; discriminate.
  - destruct (C2_expertise_tier Sample.rt (Sample.user "yesterday" 40 100) []
                ActivityAnalysis.default) as (_ & H & _).
    apply H. intros s E. injection E as <-. reflexivity.
Defined.

(** C2 as stated fails: for an account of 566 days with nothing else, the
    code's account-age factor is trunc(15.5...) = 15 and the tier is
    "newcomer", while the untruncated sum of the stated formula is above 15
    and maps to "beginner". *)
Lemma C2_untruncated_formula_fails :
  let user_data := Sample.user "2022-11-13T00:00:00Z" 0 0 in
  (exists created,
      parse_timestamp Sample.rt "2022-11-13T00:00:00Z" = Some created
      /\ account_days Sample.rt created = Some 566)
  /\ _calculate_expertise_level Sample.rt user_data [] ActivityAnalysis.default
     = "newcomer"
  /\ expertise_tier (SpecWords.expertise_total (Some 566) 0 0 0 0) = "beginner".
Proof.
  intros user_data. split; [|split].
  - eexists. split; reflexivity.
  - reflexivity.
  - reflexivity.
Qed.

(* ===================================================================== *)
(** ** Insertion-ordered dicts *)
(* ===================================================================== *)

Lemma str_in_In (x : string) (xs : list string) : str_in x xs = true <-> In x xs.
Proof.
  unfold str_in. rewrite existsb_exists. split.
  - intros (y & Hy & E). apply String.eqb_eq in E. now subst.
  - intros H. exists x. split; [exact H | apply String.eqb_refl].
Qed.

Lemma str_in_ext (x : string) (s1 s2 : list string) :
  (forall y, In y s1 <-> In y s2) -> str_in x s1 = str_in x s2.
Proof.
  intros H. apply eq_true_iff_eq. now rewrite !str_in_In.
Qed.

Lemma fresh_ext (xs s1 s2 : list string) :
  (forall y, In y s1 <-> In y s2) -> fresh s1 xs = fresh s2 xs.
Proof.
  revert s1 s2. induction xs as [|x xs IH]; intros s1 s2 H; simpl.
  - reflexivity.
  - rewrite (str_in_ext x s1 s2 H). destruct (str_in x s2).
    + now apply IH.
    + f_equal. apply IH. intros y. simpl. now rewrite H.
Qed.

Lemma fresh_In (xs seen : list string) (x : string) :
  In x (fresh seen xs) <-> In x xs /\ ~ In x seen.
Proof.
  revert seen. induction xs as [|y xs IH]; intros seen; simpl.
  - tauto.
  - destruct (str_in y seen) eqn:S.
    + apply str_in_In in S. rewrite IH. split.
      * tauto.
      * intros [[-> | H] N]; [contradiction | tauto].
    + assert (N : ~ In y seen) by (rewrite <- str_in_In, S; discriminate).
      simpl. rewrite IH. simpl. split.
      * intros [-> | [H1 H2]]; tauto.
      * intros [[-> | H] N']; [now left|].
        destruct (string_dec y x) as [-> | D]; [now left | right; tauto].
Qed.

Lemma fresh_NoDup (xs seen : list string) : NoDup (fresh seen xs).
Proof.
  revert seen. induction xs as [|y xs IH]; intros seen; simpl.
  - constructor.
  - destruct (str_in y seen).
    + apply IH.
    + constructor; [|apply IH]. rewrite fresh_In. simpl. tauto.
Qed.

Lemma dict_fromkeys_In (xs : list string) (x : string) :
  In x (dict_fromkeys xs) <-> In x xs.
Proof. unfold dict_fromkeys. rewrite fresh_In. simpl. tauto. Qed.

Lemma bump_absent (k : string) (w : Z) (d : list (string * Z)) :
  ~ In k (map fst d) -> bump k w d = (d ++ [(k, w)])%list.
Proof.
  induction d as [|[k' v] d IH]; simpl; intros N.
  - reflexivity.
  - destruct (String.eqb_spec k k') as [-> | D].
    + exfalso. apply N. now left.
    + f_equal. apply IH. tauto.
Qed.

Lemma bump_keys_present (k : string) (w : Z) (d : list (string * Z)) :
  In k (map fst d) -> map fst (bump k w d) = map fst d.
Proof.
  induction d as [|[k' v] d IH]; simpl; intros H.
  - contradiction.
  - destruct (String.eqb_spec k k') as [-> | D]; simpl.
    + reflexivity.
    + f_equal. apply IH. destruct H as [E | H]; [congruence | exact H].
Qed.

Section Tally.

Context {A : Type} (key : A -> option string) (w : A -> Z).

  (** What the entry [kv] of the dict becomes after the rounds for [xs]. *)
Let grown (xs : list A) (kv : string * Z) : string * Z :=
    (fst kv, snd kv + total_for key w xs (fst kv)).

Lemma total_for_skip (x : A) (xs : list A) (k : string) :
    has_key key k x = false -> total_for key w (x :: xs) k = total_for key w xs k.
  Proof. intros H. unfold total_for. simpl. now rewrite H. Qed.

Lemma total_for_hit (x : A) (xs : list A) (k : string) :
    has_key key k x = true -> total_for key w (x :: xs) k = w x + total_for key w xs k.
  Proof. intros H. unfold total_for. simpl. now rewrite H. Qed.

Lemma grown_other (x : A) (xs : list A) (k : string) (d : list (string * Z)) :
    key x = Some k -> ~ In k (map fst d) -> map (grown (x :: xs)) d = map (grown xs) d.
Proof.
    intros Hk N. apply map_ext_in. intros [k' v] Hin. unfold grown. simpl.
    rewrite total_for_skip; [reflexivity|].
    unfold has_key. rewrite Hk. apply String.eqb_neq. intros ->.
    apply N. apply in_map_iff. now exists (k', v).
Qed.

Lemma grown_bump (x : A) (xs : list A) (k : string) (d : list (string * Z)) :
    key x = Some k -> NoDup (map fst d) -> In k (map fst d) ->
    map (grown xs) (bump k (w x) d) = map (grown (x :: xs)) d.
Proof.
    intros Hk. induction d as [|[k' v] d IH]; simpl; intros ND Hin.
    - contradiction.
    - inversion ND as [|? ? Hfresh ND']; subst.
      destruct (String.eqb_spec k k') as [-> | D]; simpl.
      + f_equal.
        * unfold grown. simpl. rewrite total_for_hit.
          -- f_equal. lia.
          -- unfold has_key. rewrite Hk. apply String.eqb_refl.
        * symmetry. now apply grown_other with (k := k').
      + f_equal.
        * unfold grown. simpl. rewrite total_for_skip; [reflexivity|].
          unfold has_key. rewrite Hk. now apply String.eqb_neq.
        * apply IH; [exact ND'|]. destruct Hin as [E | H]; [congruence | exact H].
Qed.

Lemma tally_from (xs : list A) (d : list (string * Z)) :
    NoDup (map fst d) ->
    fold_left (tally_step key w) xs d
    = (map (grown xs) d
       ++ map (fun k => (k, total_for key w xs k))
              (fresh (map fst d) (keys_of key xs)))%list.
Proof.
    revert d. induction xs as [|x xs IH]; intros d ND.
    - simpl. rewrite app_nil_r. rewrite <- (map_id d) at 1. apply map_ext.
      intros [k v]. unfold grown, total_for. simpl. f_equal. lia.
    - cbn [fold_left]. unfold tally_step at 2.
      destruct (key x) as [k|] eqn:Hk.
      + destruct (in_dec string_dec k (map fst d)) as [Hin | Hout].
        * rewrite IH by (now rewrite bump_keys_present).
          rewrite bump_keys_present by exact Hin.
          rewrite grown_bump by assumption. f_equal.
          unfold keys_of. simpl. rewrite Hk. simpl.
          apply str_in_In in Hin. rewrite Hin. fold (keys_of key xs).
          apply map_ext_in. intros k' Hk'. f_equal. symmetry.
          apply total_for_skip. unfold has_key. rewrite Hk.
          apply String.eqb_neq. intros ->.
          apply fresh_In in Hk'. apply str_in_In in Hin. tauto.
        * rewrite (bump_absent k (w x) d Hout).
          rewrite IH.
          2:{ rewrite map_app. simpl. apply NoDup_app_remove_l with (l := []).
              simpl. apply NoDup_rev in ND. rewrite <- (rev_involutive (map fst d ++ [k])%list).
              apply NoDup_rev. rewrite rev_app_distr. simpl. constructor.
              - rewrite <- in_rev. exact Hout.
              - exact ND. }
          rewrite map_app, <- app_assoc. f_equal.
          { symmetry. now apply grown_other with (k := k). }
          unfold keys_of. simpl flat_map. rewrite Hk. simpl app. simpl fresh.
          assert (S : str_in k (map fst d) = false).
          { apply not_true_iff_false. now rewrite str_in_In. }
          rewrite S. fold (keys_of key xs). simpl. f_equal.
          -- unfold grown. simpl. rewrite total_for_hit.
             ++ reflexivity.
             ++ unfold has_key. rewrite Hk. apply String.eqb_refl.
          -- rewrite map_app. simpl.
             rewrite (fresh_ext (keys_of key xs) (map fst d ++ [k])%list (k :: map fst d)).
             2:{ intros y. rewrite in_app_iff. simpl. tauto. }
             apply map_ext_in. intros k' Hk'. f_equal. symmetry.
             apply total_for_skip. unfold has_key. rewrite Hk.
             apply String.eqb_neq. intros ->.
             apply fresh_In in Hk'. simpl in Hk'. tauto.
      + rewrite IH by exact ND. f_equal.
        * apply map_ext. intros [k v]. unfold grown. simpl. f_equal. f_equal.
          symmetry. apply total_for_skip. unfold has_key. now rewrite Hk.
        * unfold keys_of. simpl. rewrite Hk. simpl. fold (keys_of key xs).
          apply map_ext. intros k. f_equal. symmetry.
          apply total_for_skip. unfold has_key. now rewrite Hk.
Qed.

Lemma tally_spec (xs : list A) :
    fold_left (tally_step key w) xs []
    = map (fun k => (k, total_for key w xs k)) (dict_fromkeys (keys_of key xs)).
  Proof. rewrite tally_from by constructor. reflexivity. Qed.

End Tally.

(* ===================================================================== *)
(** ** C7: the language ranking *)
(* ===================================================================== *)

Lemma lang_scan_from (repos : list Repo.t) (st : LangScan.t) :
  fold_left lang_step repos st
  = {| LangScan.languages :=
         fold_left (tally_step language_of (fun _ => 1)) repos (LangScan.languages st);
       LangScan.language_bytes :=
         fold_left (tally_step language_of weight) repos (LangScan.language_bytes st) |}.
Proof.
  revert st. induction repos as [|r repos IH]; intros st.
  - now destruct st.
  - cbn [fold_left]. rewrite IH. unfold lang_step, tally_step.
    now destruct (language_of r).
Qed.

Lemma total_for_ones {A : Type} (key : A -> option string) (xs : list A) (k : string) :
  total_for key (fun _ => 1) xs k = count_if (has_key key k) xs.
Proof.
  unfold total_for, count_if.
  induction (filter (has_key key k) xs) as [|y ys IH].
  - reflexivity.
  - cbn [map Zsum fold_right List.length]. fold (Zsum (map (fun _ : A => 1) ys)).
    rewrite IH. lia.
Qed.

Lemma lang_scan_languages (repos : list Repo.t) :
  LangScan.languages (lang_scan repos)
  = map (fun l => (l, SpecWords.repo_count repos l)) (SpecWords.languages_seen repos).
Proof.
  unfold lang_scan. rewrite lang_scan_from. cbn [LangScan.languages LangScan.init].
  rewrite tally_spec. apply map_ext. intros l. f_equal. apply total_for_ones.
Qed.

Lemma lang_scan_language_bytes (repos : list Repo.t) :
  LangScan.language_bytes (lang_scan repos)
  = map (fun l => (l, SpecWords.total_weight repos l)) (SpecWords.languages_seen repos).
Proof.
  unfold lang_scan. rewrite lang_scan_from.
  cbn [LangScan.language_bytes LangScan.init]. now rewrite tally_spec.
Qed.

Lemma In_firstn {A : Type} (n : nat) (l : list A) (x : A) : In x (firstn n l) -> In x l.
Proof.
  intros H. rewrite <- (firstn_skipn n l). apply in_or_app. now left.
Qed.

Lemma insert_desc_In (x z : string * Z) (zs : list (string * Z)) :
  In x (insert_desc z zs) <-> x = z \/ In x zs.
Proof.
  induction zs as [|u us IH]; simpl.
  - intuition.
  - destruct (snd u <=? snd z); simpl; rewrite ?IH; intuition.
Qed.

Lemma sorted_desc_In (x : string * Z) (xs : list (string * Z)) :
  In x (sorted_desc xs) <-> In x xs.
Proof.
  unfold sorted_desc. induction xs as [|y ys IH]; simpl.
  - tauto.
  - rewrite insert_desc_In, IH. intuition.
Qed.

Lemma ranked_In (score : string -> Z) (langs : list string) (l : string) :
  In l (SpecWords.ranked score langs) -> In l langs.
Proof.
  unfold SpecWords.ranked. intros H.
  apply in_map_iff in H. destruct H as ([l' v] & El & H). simpl in El. subst l'.
  apply In_firstn in H. rewrite sorted_desc_In in H.
  apply in_map_iff in H. destruct H as (l' & El & H).
  now injection El as -> _.
Qed.

Lemma insert_desc_perm (x : string * Z) (l : list (string * Z)) :
  Permutation (insert_desc x l) (x :: l).
Proof.
  induction l as [|y t IH]; simpl.
  - reflexivity.
  - destruct (snd y <=? snd x); [reflexivity|].
    rewrite IH. apply perm_swap.
Qed.

Lemma sorted_desc_perm (l : list (string * Z)) : Permutation (sorted_desc l) l.
Proof.
  unfold sorted_desc. induction l as [|x l IH]; simpl.
  - reflexivity.
  - rewrite insert_desc_perm. now constructor.
Qed.

Lemma all_languages_spec (repos : list Repo.t) :
  all_languages repos = SpecWords.top_languages repos.
Proof.
  unfold all_languages, SpecWords.top_languages, SpecWords.ranked.
  cbv zeta. rewrite lang_scan_languages, lang_scan_language_bytes.
  now rewrite map_app.
Qed.

Lemma language_of_spec (r : Repo.t) : language_of r = LanguageSpec.language r.
Proof.
  unfold language_of, LanguageSpec.language.
  destruct (Repo.language r) as [[|c s]|]; reflexivity.
Qed.

Lemma filter_filter_absorb {A : Type} (f g : A -> bool) (l : list A) :
  (forall x, f x = true -> g x = true) ->
  filter f (filter g l) = filter f l.
Proof.
  intros H. induction l as [|x l IH]; simpl.
  - reflexivity.
  - destruct (g x) eqn:G; simpl.
    + now rewrite IH.
    + rewrite IH. destruct (f x) eqn:F; [|reflexivity].
      apply H in F. congruence.
Qed.

Lemma fresh_distinct (xs seen : list string) :
  fresh seen xs = filter (fun y => negb (str_in y seen)) (LanguageSpec.distinct xs).
Proof.
  revert seen. induction xs as [|x xs IH]; intros seen.
  - reflexivity.
  - cbn [fresh LanguageSpec.distinct filter].
    destruct (str_in x seen) eqn:S; cbn [negb].
    + rewrite IH. symmetry. apply filter_filter_absorb.
      intros y Hy. destruct (String.eqb_spec y x) as [-> | _]; [|reflexivity].
      rewrite S in Hy. discriminate.
    + f_equal. rewrite IH.
      rewrite <- (filter_filter_absorb
                    (fun y => negb (str_in y (x :: seen)))
                    (fun y => negb (String.eqb y x))).
      * apply filter_ext_in. intros y Hy. apply filter_In in Hy. destruct Hy as [_ Hy].
        unfold str_in. cbn [existsb].
        destruct (String.eqb y x); [discriminate | reflexivity].
      * intros y Hy. unfold str_in in Hy. cbn [existsb] in Hy.
        destruct (String.eqb y x); [discriminate | reflexivity].
Qed.

Lemma dict_fromkeys_distinct (xs : list string) :
  dict_fromkeys xs = LanguageSpec.distinct xs.
Proof.
  unfold dict_fromkeys. rewrite fresh_distinct.
  induction (LanguageSpec.distinct xs) as [|y ys IH]; [reflexivity|].
  cbn [filter str_in existsb negb]. f_equal. exact IH.
Qed.

Lemma languages_seen_spec (repos : list Repo.t) :
  SpecWords.languages_seen repos = LanguageSpec.languages repos.
Proof.
  unfold SpecWords.languages_seen, LanguageSpec.languages.
  rewrite dict_fromkeys_distinct. f_equal.
  apply flat_map_ext. intros r. now rewrite language_of_spec.
Qed.

Lemma has_language_uses (l : string) (r : Repo.t) :
  SpecWords.has_language l r = LanguageSpec.uses l r.
Proof.
  unfold SpecWords.has_language, LanguageSpec.uses. rewrite language_of_spec.
  destruct (LanguageSpec.language r); [apply String.eqb_sym | reflexivity].
Qed.

Lemma weight_spec (r : Repo.t) :
  weight r = (LanguageSpec.stars r + 1) * (LanguageSpec.size r + 1).
Proof.
  unfold weight, LanguageSpec.stars, LanguageSpec.size, or_zero.
  destruct (Repo.stargazers_count r); reflexivity.
Qed.

Lemma total_weight_spec (repos : list Repo.t) (l : string) :
  SpecWords.total_weight repos l = LanguageSpec.weighted_score repos l.
Proof.
  unfold SpecWords.total_weight, LanguageSpec.weighted_score.
  induction repos as [|r repos IH].
  - reflexivity.
  - cbn [filter fold_right]. rewrite has_language_uses, <- IH.
    destruct (LanguageSpec.uses l r); [|reflexivity].
    cbn [map]. unfold Zsum at 1. cbn [fold_right]. now rewrite weight_spec.
Qed.

Lemma repo_count_spec (repos : list Repo.t) (l : string) :
  SpecWords.repo_count repos l = LanguageSpec.count_score repos l.
Proof.
  unfold SpecWords.repo_count, LanguageSpec.count_score.
  induction repos as [|r repos IH].
  - reflexivity.
  - rewrite count_if_cons, has_language_uses, IH. cbn [fold_right].
    destruct (LanguageSpec.uses l r); lia.
Qed.

(** *** Positions in a list without repetition *)

Lemma index_app_absent (x : string) (pre l : list string) :
  ~ In x pre ->
  LanguageSpec.index x (pre ++ l)%list = (List.length pre + LanguageSpec.index x l)%nat.
Proof.
  induction pre as [|y pre IH]; intros N.
  - reflexivity.
  - cbn [app LanguageSpec.index List.length].
    destruct (String.eqb_spec x y) as [-> | _].
    + elim N. now left.
    + rewrite IH; [reflexivity|]. intros H. apply N. now right.
Qed.

Lemma NoDup_positions (pre l : list string) :
  NoDup (pre ++ l) ->
  StronglySorted
    (fun a b => (LanguageSpec.index a (pre ++ l) < LanguageSpec.index b (pre ++ l))%nat) l.
Proof.
  revert pre. induction l as [|x l IH]; intros pre ND.
  - constructor.
  - constructor.
    + specialize (IH (pre ++ [x])%list). rewrite <- app_assoc in IH. apply IH, ND.
    + apply Forall_forall. intros y Hy.
      assert (Nx : ~ In x pre).
      { intros H. apply NoDup_remove_2 in ND. apply ND, in_or_app. now left. }
      assert (Ny : ~ In y pre).
      { intros H. apply NoDup_app_remove_r in ND as ND1.
        clear IH. revert ND. induction pre as [|z pre IHp]; [destruct H|].
        cbn [app]. intros ND. apply NoDup_cons_iff in ND. destruct ND as [Nz ND].
        destruct H as [-> | H].
        - apply Nz, in_or_app. right. now right.
        - apply IHp; try assumption.
          + intros Hx. apply Nx. now right.
          + now apply NoDup_cons_iff in ND1. }
      assert (Nxy : y <> x).
      { intros ->. apply NoDup_remove_2 in ND. apply ND, in_or_app. now right. }
      rewrite !index_app_absent by assumption.
      cbn [LanguageSpec.index]. rewrite String.eqb_refl.
      destruct (String.eqb_spec y x); [contradiction | lia].
Qed.

(** *** The sort is stable *)

Section Stable.
Variable before : string -> string -> Prop.

Let earlier (a b : string * Z) : Prop := before (fst a) (fst b).
Let above (a b : string * Z) : Prop :=
  snd b < snd a \/ (snd a = snd b /\ before (fst a) (fst b)).

Lemma insert_desc_stable (x : string * Z) (l : list (string * Z)) :
  StronglySorted above l -> Forall (earlier x) l ->
  StronglySorted above (insert_desc x l).
Proof.
  induction l as [|y t IH]; intros S F.
  - repeat constructor.
  - cbn [insert_desc]. inversion S as [|? ? St Ft]; subst.
    inversion F as [|? ? Ey Et]; subst.
    destruct (Z.leb_spec (snd y) (snd x)) as [L | L].
    + constructor; [exact S|]. constructor.
      * unfold above. destruct (Z.eq_dec (snd x) (snd y)) as [E | N].
        -- right. now split.
        -- left. lia.
      * rewrite Forall_forall in Ft, Et |- *. intros z Hz.
        specialize (Ft z Hz). specialize (Et z Hz). unfold above in *.
        destruct (Z.eq_dec (snd x) (snd z)) as [E | N].
        -- right. now split.
        -- left. lia.
    + constructor; [now apply IH|].
      rewrite Forall_forall in Ft |- *. intros z Hz.
      apply insert_desc_In in Hz. destruct Hz as [-> | Hz].
      * left. exact L.
      * now apply Ft.
Qed.

Lemma sorted_desc_stable (l : list (string * Z)) :
  StronglySorted earlier l -> StronglySorted above (sorted_desc l).
Proof.
  unfold sorted_desc. induction l as [|x l IH]; intros S.
  - constructor.
  - cbn [fold_right]. inversion S as [|? ? Sl Fl]; subst.
    apply insert_desc_stable; [now apply IH|].
    rewrite Forall_forall in Fl |- *. intros z Hz. apply Fl.
    fold (sorted_desc l) in Hz. rewrite sorted_desc_In in Hz. exact Hz.
Qed.

End Stable.

Lemma StronglySorted_map_on {A B : Type} (R : B -> B -> Prop) (R' : A -> A -> Prop)
    (f : A -> B) (l : list A) :
  (forall a b, In a l -> In b l -> R' a b -> R (f a) (f b)) ->
  StronglySorted R' l -> StronglySorted R (map f l).
Proof.
  intros H S. induction S as [|a l S IH F].
  - constructor.
  - cbn [map]. constructor.
    + apply IH. intros x y Hx Hy. apply H; now right.
    + rewrite Forall_forall in F. apply Forall_forall. intros y Hy.
      apply in_map_iff in Hy. destruct Hy as (b & <- & Hb).
      apply H; [now left | now right | now apply F].
Qed.

Lemma StronglySorted_pairs {A B : Type} (R : A -> A -> Prop) (f : A -> B) (l : list A) :
  StronglySorted R l ->
  StronglySorted (fun a b : A * B => R (fst a) (fst b)) (map (fun x => (x, f x)) l).
Proof.
  intros S. induction S as [|a l S IH F].
  - constructor.
  - cbn [map]. constructor; [exact IH|].
    rewrite Forall_forall in F. apply Forall_forall. intros y Hy.
    apply in_map_iff in Hy. destruct Hy as (b & <- & Hb). cbn [fst]. now apply F.
Qed.

(** The keys of the sorted dict are the ranking of the specification. *)
Lemma sorted_keys_ranking (score : string -> Z) (langs : list string) :
  NoDup langs ->
  LanguageSpec.is_ranking score langs
    (map fst (sorted_desc (map (fun l => (l, score l)) langs))).
Proof.
  intros ND. split.
  - apply perm_trans with (map fst (map (fun l => (l, score l)) langs)).
    + apply Permutation_map, sorted_desc_perm.
    + rewrite map_map. cbn [fst]. now rewrite map_id.
  - apply StronglySorted_map_on
      with (R' := fun a b : string * Z =>
                    snd b < snd a
                    \/ (snd a = snd b
                        /\ (LanguageSpec.index (fst a) langs
                            < LanguageSpec.index (fst b) langs)%nat)).
    + intros a b Ha Hb H.
      apply sorted_desc_In, in_map_iff in Ha. destruct Ha as (x & <- & _).
      apply sorted_desc_In, in_map_iff in Hb. destruct Hb as (y & <- & _).
      exact H.
    + apply (sorted_desc_stable
               (fun a b => (LanguageSpec.index a langs < LanguageSpec.index b langs)%nat)).
      apply (StronglySorted_pairs
               (fun a b => (LanguageSpec.index a langs < LanguageSpec.index b langs)%nat)
               score).
      apply (NoDup_positions [] langs ND).
Qed.

(** A list has one ranking at most. *)
Lemma sorted_permutation_unique {A : Type} (R : A -> A -> Prop) (l l' : list A) :
  (forall a b, R a b -> R b a -> False) ->
  Permutation l l' -> StronglySorted R l -> StronglySorted R l' -> l = l'.
Proof.
  intros Asym. revert l'. induction l as [|x t IH]; intros l' P S S'.
  - apply Permutation_nil in P. now subst.
  - destruct l' as [|y t'].
    + apply Permutation_sym, Permutation_nil in P. discriminate.
    + inversion S as [|? ? St Ft]; subst. inversion S' as [|? ? St' Ft']; subst.
      rewrite Forall_forall in Ft, Ft'.
      assert (E : x = y).
      { assert (Hx : In x (y :: t')) by (apply (Permutation_in _ P); now left).
        assert (Hy : In y (x :: t))
          by (apply (Permutation_in _ (Permutation_sym P)); now left).
        destruct Hx as [Hx | Hx]; [now symmetry|].
        destruct Hy as [Hy | Hy]; [exact Hy|].
        elim (Asym x y); [now apply Ft | now apply Ft']. }
      subst y. f_equal. apply IH; try assumption.
      now apply Permutation_cons_inv in P.
Qed.

Lemma ranking_unique (score : string -> Z) (langs R R' : list string) :
  LanguageSpec.is_ranking score langs R -> LanguageSpec.is_ranking score langs R' ->
  R = R'.
Proof.
  intros [P S] [P' S'].
  apply (sorted_permutation_unique (LanguageSpec.outranks score langs)); try assumption.
  - unfold LanguageSpec.outranks. intros a b [H | [E H]] [H' | [E' H']]; lia.
  - apply perm_trans with langs; [exact P | now apply Permutation_sym].
Qed.

Lemma distinct_NoDup (xs : list string) : NoDup (LanguageSpec.distinct xs).
Proof. rewrite <- dict_fromkeys_distinct. apply fresh_NoDup. Qed.

Lemma all_languages_merged (repos : list Repo.t) :
  let langs := LanguageSpec.languages repos in
  let ranking score := map fst (sorted_desc (map (fun l => (l, score l)) langs)) in
  all_languages repos
  = LanguageSpec.merged (ranking (LanguageSpec.weighted_score repos))
                        (ranking (LanguageSpec.count_score repos)).
Proof.
  intros langs ranking. rewrite all_languages_spec.
  unfold SpecWords.top_languages, SpecWords.ranked, LanguageSpec.merged, ranking, langs.
  rewrite dict_fromkeys_distinct, languages_seen_spec, !firstn_map.
  do 3 f_equal.
  - do 3 f_equal. apply map_ext. intros l. now rewrite total_weight_spec.
  - do 3 f_equal. apply map_ext. intros l. now rewrite repo_count_spec.
Qed.

(** C7.  For every repository sequence there is one ranking of its
    languages by total weight, each repository contributing
    [(stars+1)*(size+1)] to its language, and one ranking by repository
    count (larger score first, equal scores in order of first appearance),
    and the language list the code builds is the one the specification
    describes: each ranking cut to 8 entries, the weighted one put first,
    the concatenation deduplicated in first-seen order and cut to 10
    entries.  The profile's [languages] field is that list; it has no
    repetition and holds only languages of the repositories. *)
Theorem C7_language_ranking :
  forall (repos_data : list Repo.t),
    let langs := LanguageSpec.languages repos_data in
    exists by_weight by_count : list string,
      (forall R, LanguageSpec.is_ranking (LanguageSpec.weighted_score repos_data) langs R
                 <-> R = by_weight)
      /\ (forall R, LanguageSpec.is_ranking (LanguageSpec.count_score repos_data) langs R
                    <-> R = by_count)
      /\ all_languages repos_data = LanguageSpec.merged by_weight by_count
      /\ (forall rt username user_data events_data,
             Profile.languages (analyze rt username user_data repos_data events_data)
             = LanguageSpec.merged by_weight by_count)
      /\ NoDup (all_languages repos_data)
      /\ (forall l, In l (all_languages repos_data) ->
                    exists r, In r repos_data /\ Repo.language r = Some l).
Proof.
  intros repos_data langs.
  set (ranking score := map fst (sorted_desc (map (fun l => (l, score l)) langs))).
  assert (ND : NoDup langs) by apply distinct_NoDup.
  assert (E : all_languages repos_data
              = LanguageSpec.merged (ranking (LanguageSpec.weighted_score repos_data))
                                    (ranking (LanguageSpec.count_score repos_data)))
    by apply all_languages_merged.
  exists (ranking (LanguageSpec.weighted_score repos_data)),
         (ranking (LanguageSpec.count_score repos_data)).
  split; [|split; [|split; [exact E | split; [intros; exact E | split]]]].
  - intros R. split.
    + intros H. eapply ranking_unique; [exact H|].
      now apply sorted_keys_ranking.
    + intros ->. now apply sorted_keys_ranking.
  - intros R. split.
    + intros H. eapply ranking_unique; [exact H|].
      now apply sorted_keys_ranking.
    + intros ->. now apply sorted_keys_ranking.
  - unfold all_languages. cbv zeta.
    set (merged := dict_fromkeys _).
    assert (NDm : NoDup merged) by apply fresh_NoDup.
    rewrite <- (firstn_skipn 10 merged) in NDm.
    now apply NoDup_app_remove_r in NDm.
  - intros l Hl. rewrite all_languages_spec in Hl. unfold SpecWords.top_languages in Hl.
    apply In_firstn in Hl. rewrite dict_fromkeys_In in Hl.
    assert (Hseen : In l (SpecWords.languages_seen repos_data)).
    { apply in_app_or in Hl. destruct Hl as [H | H]; eapply ranked_In; exact H. }
    unfold SpecWords.languages_seen in Hseen. rewrite dict_fromkeys_In in Hseen.
    apply in_flat_map in Hseen. destruct Hseen as (r & Hr & Hin).
    exists r. split; [exact Hr|].
    unfold language_of in Hin. destruct (Repo.language r) as [l'|]; [|contradiction].
    destruct (PyStr.truthy l'); [|contradiction].
    destruct Hin as [-> | []]. reflexivity.
Qed.

Ltac outranked :=
  unfold LanguageSpec.outranks;
  first [ left; vm_compute; reflexivity
        | right; split; [vm_compute; reflexivity | vm_compute; lia] ].

Ltac ranked_list :=
  repeat first [ apply SSorted_nil | apply SSorted_cons
               | apply Forall_nil | apply Forall_cons ];
  outranked.

Lemma polyglot_languages :
  LanguageSpec.languages polyglot
  = ["Ada"; "C"; "Dart"; "Elm"; "Go"; "Java"; "Lua"; "Nim"; "Perl"; "Ruby"; "Scala"; "Zig"].
Proof. vm_compute. reflexivity. Qed.

Lemma polyglot_weight_ranking :
  LanguageSpec.is_ranking (LanguageSpec.weighted_score polyglot)
    (LanguageSpec.languages polyglot) polyglot_by_weight.
Proof.
  split.
  - rewrite polyglot_languages. unfold polyglot_by_weight.
    apply NoDup_Permutation.
    + repeat constructor; simpl; intuition discriminate.
    + rewrite <- polyglot_languages. apply distinct_NoDup.
    + intros x. simpl. tauto.
  - unfold polyglot_by_weight. ranked_list.
Qed.

Lemma polyglot_count_ranking :
  LanguageSpec.is_ranking (LanguageSpec.count_score polyglot)
    (LanguageSpec.languages polyglot) polyglot_by_count.
Proof.
  split.
  - rewrite polyglot_languages. unfold polyglot_by_count.
    apply NoDup_Permutation.
    + repeat constructor; simpl; intuition discriminate.
    + rewrite <- polyglot_languages. apply distinct_NoDup.
    + intros x. simpl. tauto.
  - unfold polyglot_by_count. ranked_list.
Qed.

Lemma C7_language_ranking_witness :
  all_languages polyglot
  = ["C"; "Elm"; "Lua"; "Go"; "Nim"; "Ada"; "Java"; "Dart"; "Perl"; "Ruby"].
Proof.
  destruct (C7_language_ranking polyglot) as (W & C & HW & HC & E & _).
  rewrite E.
  rewrite <- (proj1 (HW polyglot_by_weight) polyglot_weight_ranking).
  rewrite <- (proj1 (HC polyglot_by_count) polyglot_count_ranking).
  reflexivity.
Defined.


(* ===================================================================== *)
(** ** C8: records with malformed timestamps *)
(* ===================================================================== *)

Lemma existsb_filter {A : Type} (f g : A -> bool) (xs : list A) :
  (forall x, f x = true -> g x = true) ->
  existsb f (filter g xs) = existsb f xs.
Proof.
  intros H. induction xs as [|x xs IH]; simpl.
  - reflexivity.
  - destruct (g x) eqn:G; simpl.
    + now rewrite IH.
    + rewrite IH. destruct (f x) eqn:F; [|reflexivity].
      apply H in F. congruence.
Qed.

Lemma count_if_filter {A : Type} (f g : A -> bool) (xs : list A) :
  (forall x, f x = true -> g x = true) ->
  count_if f (filter g xs) = count_if f xs.
Proof.
  intros H. induction xs as [|x xs IH].
  - reflexivity.
  - cbn [filter]. destruct (g x) eqn:G.
    + now rewrite !count_if_cons, IH.
    + rewrite count_if_cons, IH. destruct (f x) eqn:F; [|lia].
      apply H in F. congruence.
Qed.

Lemma updated_recently_spec (rt : Runtime) (repo : Repo.t) :
  fromisoformat rt EmptyString = None ->
  updated_recently rt repo = true
  <-> exists s updated, Repo.updated_at repo = Some s
                        /\ parse_timestamp rt s = Some updated
                        /\ now rt - 180 * day_us < wall updated.
Proof.
  intros Hempty. unfold updated_recently. split.
  - destruct (Repo.updated_at repo) as [s|]; [|discriminate].
    destruct (PyStr.truthy s); [|discriminate].
    destruct (parse_timestamp rt s) as [d|] eqn:P; [|discriminate].
    rewrite newer_than_days_spec.
    destruct (Z.ltb_spec (now rt - 180 * day_us) (wall d)); [|discriminate].
    intros _. now exists s, d.
  - intros (s & d & -> & P & H).
    destruct s as [|c s].
    + unfold parse_timestamp in P. simpl in P. congruence.
    + cbn [PyStr.truthy]. rewrite P, newer_than_days_spec.
      apply Z.ltb_lt in H. now rewrite H.
Qed.

Lemma updated_recently_well_formed (rt : Runtime) (repo : Repo.t) :
  updated_recently rt repo = true -> negb (malformed rt (Repo.updated_at repo)) = true.
Proof.
  unfold updated_recently, malformed.
  destruct (Repo.updated_at repo) as [s|]; [|discriminate].
  destruct (PyStr.truthy s); [|discriminate].
  now destruct (parse_timestamp rt s).
Qed.

Lemma in_window_well_formed (rt : Runtime) (e : Event.t) :
  in_window rt e = true -> negb (malformed rt (Event.created_at e)) = true.
Proof.
  unfold in_window, malformed.
  destruct (Event.created_at e) as [s|]; [|discriminate].
  now destruct (parse_timestamp rt s).
Qed.

Lemma recent_activity_existsb (rt : Runtime) (repos : list Repo.t) :
  RepositoryAnalysis.recent_activity (_analyze_repositories rt repos)
  = existsb (updated_recently rt) repos.
Proof.
  unfold _analyze_repositories, repo_scan.
  cbn [RepositoryAnalysis.recent_activity]. now rewrite repo_scan_recent.
Qed.

(** C8.  The analysis is a total function of any input, and a record whose
    timestamp does not parse takes no part in the time windows while every
    other record does.  For a parser that rejects the empty string, as
    [datetime.fromisoformat] does: the recent-activity flag is true exactly when some
    repository's [updated_at] parses and is newer than 180 days before the
    reference instant, and is the same with the malformed repositories
    removed, though their stars are still summed; the three counters of the
    event loop are the same with the malformed events removed, and the
    recent count is the number of events whose timestamp parses and is
    newer than 30 days. *)
Theorem C8_malformed_timestamps :
  forall (rt : Runtime) (repos : list Repo.t) (events : list Event.t),
    fromisoformat rt EmptyString = None ->
    let a := _analyze_repositories rt repos in
    let repo_ok := fun r => negb (malformed rt (Repo.updated_at r)) in
    let event_ok := fun e => negb (malformed rt (Event.created_at e)) in
    (RepositoryAnalysis.recent_activity a = true
     <-> exists repo s updated,
           In repo repos /\ Repo.updated_at repo = Some s
           /\ parse_timestamp rt s = Some updated
           /\ now rt - 180 * day_us < wall updated)
    /\ RepositoryAnalysis.recent_activity a
       = RepositoryAnalysis.recent_activity (_analyze_repositories rt (filter repo_ok repos))
    /\ RepositoryAnalysis.total_stars a
       = Zsum (map (fun r => or_zero (Repo.stargazers_count r)) repos)
    /\ event_scan rt events = event_scan rt (filter event_ok events)
    /\ EventScan.recent_events (event_scan rt events) = count_if (in_window rt) events
    /\ (forall e, in_window rt e = true
                  <-> exists s d, Event.created_at e = Some s
                                  /\ parse_timestamp rt s = Some d
                                  /\ now rt - 30 * day_us < wall d).
Proof.
  intros rt repos events Hempty a repo_ok event_ok.
  split; [|split; [|split; [|split; [|split]]]].
  - subst a. rewrite recent_activity_existsb, existsb_exists. split.
    + intros (repo & Hin & H). apply (updated_recently_spec rt repo Hempty) in H.
      destruct H as (s & d & H1 & H2 & H3). now exists repo, s, d.
    + intros (repo & s & d & Hin & H1 & H2 & H3). exists repo. split; [exact Hin|].
      apply (updated_recently_spec rt repo Hempty). now exists s, d.
  - subst a. rewrite !recent_activity_existsb. symmetry.
    apply existsb_filter. apply updated_recently_well_formed.
  - subst a. unfold _analyze_repositories, repo_scan.
    cbn [RepositoryAnalysis.total_stars]. now rewrite repo_scan_total_stars.
  - rewrite !event_scan_counts. f_equal; symmetry; apply count_if_filter;
      intros e H; apply in_window_well_formed;
      try (apply andb_true_iff in H; destruct H as [H _]); exact H.
  - now rewrite event_scan_counts.
  - apply in_window_spec.
Qed.

Lemma C8_malformed_timestamps_witness :
  let repos := [Sample.repo "scratch" None None 2 0 false "last tuesday";
                Sample.fullstack] in
  fromisoformat Sample.rt EmptyString = None
  /\ RepositoryAnalysis.recent_activity (_analyze_repositories Sample.rt repos) = true
  /\ RepositoryAnalysis.total_stars (_analyze_repositories Sample.rt repos) = 5.
Proof.
  intros repos.
  assert (Hempty : fromisoformat Sample.rt EmptyString = None) by reflexivity.
  destruct (C8_malformed_timestamps Sample.rt repos [] Hempty) as (Hflag & _ & Hstars & _).
  split; [exact Hempty|]. split.
  - apply Hflag.
    exists Sample.fullstack, "2024-05-20T08:00:00Z",
           {| wall := 63851788800000000; tzinfo := Some 0 |}.
    split; [right; left; reflexivity|].
    split; [reflexivity|]. split; [reflexivity|]. reflexivity.
  - rewrite Hstars. reflexivity.
Defined.

(* ===================================================================== *)
(** ** C9: what the result depends on *)
(* ===================================================================== *)

Lemma fold_left_ext {A B : Type} (f g : A -> B -> A) (xs : list B) (a : A) :
  (forall a x, f a x = g a x) -> fold_left f xs a = fold_left g xs a.
Proof.
  intros H. revert a. induction xs as [|x xs IH]; intros a; simpl.
  - reflexivity.
  - now rewrite H, IH.
Qed.

Section SameClockAndParser.

Variables rt1 rt2 : Runtime.
Hypothesis same : same_clock_and_parser rt1 rt2.

Lemma parse_timestamp_same (s : string) :
    parse_timestamp rt1 s = parse_timestamp rt2 s.
  Proof. unfold parse_timestamp. apply same. Qed.

Lemma newer_than_days_same (t : datetime) (n : Z) :
    newer_than_days rt1 t n = newer_than_days rt2 t n.
Proof.
    rewrite !newer_than_days_spec. destruct same as [E _]. now rewrite E.
Qed.

Lemma updated_recently_same (repo : Repo.t) :
    updated_recently rt1 repo = updated_recently rt2 repo.
Proof.
    unfold updated_recently. destruct (Repo.updated_at repo) as [s|]; [|reflexivity].
    rewrite parse_timestamp_same.
    destruct (parse_timestamp rt2 s); [|reflexivity].
    now rewrite newer_than_days_same.
Qed.

Lemma in_window_same (e : Event.t) : in_window rt1 e = in_window rt2 e.
Proof.
    unfold in_window. destruct (Event.created_at e) as [s|]; [|reflexivity].
    rewrite parse_timestamp_same.
    destruct (parse_timestamp rt2 s); [|reflexivity].
    now rewrite newer_than_days_same.
Qed.

Lemma repo_scan_same (repos : list Repo.t) : repo_scan rt1 repos = repo_scan rt2 repos.
Proof.
    unfold repo_scan. apply fold_left_ext. intros st repo.
    unfold repo_step. now rewrite updated_recently_same.
Qed.

Lemma activity_patterns_same (events : list Event.t) (repos : list Repo.t) :
    _analyze_activity_patterns rt1 events repos
    = _analyze_activity_patterns rt2 events repos.
Proof.
    unfold _analyze_activity_patterns. destruct events as [|e events]; [reflexivity|].
    assert (E : event_scan rt1 (e :: events) = event_scan rt2 (e :: events)).
    { unfold event_scan. apply fold_left_ext. intros st ev.
      unfold event_step. now rewrite in_window_same. }
    now rewrite E.
Qed.

Lemma account_age_factor_same (user_data : User.t) :
    account_age_factor rt1 user_data = account_age_factor rt2 user_data.
Proof.
    unfold account_age_factor. destruct (User.created_at user_data) as [| |s];
      try reflexivity.
    rewrite parse_timestamp_same. destruct (parse_timestamp rt2 s); [|reflexivity].
    rewrite !account_days_spec. destruct same as [E _]. now rewrite E.
Qed.

Lemma expertise_level_same (user_data : User.t) (repos : list Repo.t)
      (a : ActivityAnalysis.t) :
    _calculate_expertise_level rt1 user_data repos a
    = _calculate_expertise_level rt2 user_data repos a.
Proof.
    unfold _calculate_expertise_level, expertise_factors.
    now rewrite account_age_factor_same.
Qed.

Lemma analyze_same_but_sets (username : string) (user_data : User.t)
      (repos : list Repo.t) (events : list Event.t) :
    without_set_lists (analyze rt1 username user_data repos events)
    = without_set_lists (analyze rt2 username user_data repos events).
Proof.
    unfold without_set_lists, analyze, _analyze_repositories. cbv zeta.
    cbn [Profile.username Profile.name Profile.bio Profile.repos Profile.followers
         Profile.following Profile.languages Profile.company Profile.location
         Profile.created_at Profile.repository_count Profile.recent_repos
         Profile.repo_analysis Profile.activity_analysis Profile.expertise_level
         Profile.preferred_domains Profile.collaboration_style
         Profile.recent_activity_score Profile.technology_diversity
         Profile.project_complexity_preference
         RepositoryAnalysis.total_stars RepositoryAnalysis.total_forks
         RepositoryAnalysis.avg_complexity RepositoryAnalysis.popular_topics
         RepositoryAnalysis.recent_activity].
    now rewrite repo_scan_same, activity_patterns_same, expertise_level_same.
Qed.

Lemma analyze_same (username : string) (user_data : User.t)
      (repos : list Repo.t) (events : list Event.t) :
    (forall xs, list_of_set rt1 xs = list_of_set rt2 xs) ->
    analyze rt1 username user_data repos events
    = analyze rt2 username user_data repos events.
Proof.
    intros Hset. unfold analyze, _analyze_repositories. cbv zeta.
    now rewrite repo_scan_same, activity_patterns_same, expertise_level_same, !Hset.
Qed.

End SameClockAndParser.

Lemma set_orders_permuted (f g : list string -> list string) (xs : list string) :
  set_order_ok f -> set_order_ok g -> Permutation (f xs) (g xs).
Proof.
  intros Hf Hg. destruct (Hf xs) as [Nf If], (Hg xs) as [Ng Ig].
  apply NoDup_Permutation; try assumption.
  intros x. now rewrite If, Ig.
Qed.

Lemma dict_fromkeys_order_ok : set_order_ok dict_fromkeys.
Proof.
  intros xs. split.
  - apply fresh_NoDup.
  - intros x. apply dict_fromkeys_In.
Qed.

Lemma reversed_order_ok : set_order_ok reversed_order.
Proof.
  intros xs. unfold reversed_order. split.
  - apply NoDup_rev, fresh_NoDup.
  - intros x. rewrite <- in_rev. apply dict_fromkeys_In.
Qed.

(** C9, as amended.  For a fixed reference instant and timestamp parser,
    two invocations on the same raw input agree on every field other than
    [frameworks_used] and [project_types]; those two lists are free of
    duplicates and hold the same elements in both results, in the order in
    which the interpreter running the invocation iterates a set; when that
    order is the same for both invocations the two results are equal in
    every field. *)
Theorem C9_determinism_up_to_set_order :
  forall (rt1 rt2 : Runtime) (username : string) (user_data : User.t)
         (repos_data : list Repo.t) (events_data : list Event.t),
    same_clock_and_parser rt1 rt2 ->
    set_order_ok (list_of_set rt1) ->
    set_order_ok (list_of_set rt2) ->
    let p1 := analyze rt1 username user_data repos_data events_data in
    let p2 := analyze rt2 username user_data repos_data events_data in
    let a1 := Profile.repo_analysis p1 in
    let a2 := Profile.repo_analysis p2 in
    without_set_lists p1 = without_set_lists p2
    /\ Permutation (RepositoryAnalysis.frameworks_used a1)
                   (RepositoryAnalysis.frameworks_used a2)
    /\ Permutation (RepositoryAnalysis.project_types a1)
                   (RepositoryAnalysis.project_types a2)
    /\ NoDup (RepositoryAnalysis.frameworks_used a1)
    /\ NoDup (RepositoryAnalysis.project_types a1)
    /\ ((forall xs, list_of_set rt1 xs = list_of_set rt2 xs) -> p1 = p2).
Proof.
  intros rt1 rt2 username user_data repos_data events_data Hsame H1 H2 p1 p2 a1 a2.
  split; [|split; [|split; [|split; [|split]]]].
  - now apply analyze_same_but_sets.
  - subst a1 a2 p1 p2. unfold analyze, _analyze_repositories. cbv zeta.
    cbn [Profile.repo_analysis RepositoryAnalysis.frameworks_used].
    rewrite (repo_scan_same rt1 rt2 Hsame). now apply set_orders_permuted.
  - subst a1 a2 p1 p2. unfold analyze, _analyze_repositories. cbv zeta.
    cbn [Profile.repo_analysis RepositoryAnalysis.project_types].
    rewrite (repo_scan_same rt1 rt2 Hsame). now apply set_orders_permuted.
  - apply H1.
  - apply H1.
  - now apply analyze_same.
Qed.

Lemma C9_determinism_up_to_set_order_witness :
  let u := Sample.user "2019-06-03T00:00:00Z" 40 100 in
  same_clock_and_parser Sample.rt Sample.rt_reversed
  /\ set_order_ok (list_of_set Sample.rt)
  /\ set_order_ok (list_of_set Sample.rt_reversed)
  /\ without_set_lists (analyze Sample.rt "octocat" u [Sample.fullstack] [])
     = without_set_lists (analyze Sample.rt_reversed "octocat" u [Sample.fullstack] [])
  /\ analyze Sample.rt "octocat" u [Sample.fullstack] []
     = analyze Sample.rt "octocat" u [Sample.fullstack] [].
Proof.
  intros u.
  assert (S : same_clock_and_parser Sample.rt Sample.rt_reversed)
    by (split; reflexivity).
  assert (S' : same_clock_and_parser Sample.rt Sample.rt) by (split; reflexivity).
  split; [exact S|]. split; [exact dict_fromkeys_order_ok|].
  split; [exact reversed_order_ok|]. split.
  - apply (C9_determinism_up_to_set_order Sample.rt Sample.rt_reversed "octocat" u
             [Sample.fullstack] [] S dict_fromkeys_order_ok reversed_order_ok).
  - apply (C9_determinism_up_to_set_order Sample.rt Sample.rt "octocat" u
             [Sample.fullstack] [] S' dict_fromkeys_order_ok dict_fromkeys_order_ok).
    reflexivity.
Defined.

(** C9 as stated fails: two interpreters that both meet the contract of
    [list(set(...))], with the same clock and the same parser, list the two
    detected frameworks of the same input in different orders. *)
Lemma C9_set_order_observable :
  let u := Sample.user "2019-06-03T00:00:00Z" 40 100 in
  let p1 := analyze Sample.rt "octocat" u [Sample.fullstack] [] in
  let p2 := analyze Sample.rt_reversed "octocat" u [Sample.fullstack] [] in
  same_clock_and_parser Sample.rt Sample.rt_reversed
  /\ set_order_ok (list_of_set Sample.rt)
  /\ set_order_ok (list_of_set Sample.rt_reversed)
  /\ RepositoryAnalysis.frameworks_used (Profile.repo_analysis p1)
     = ["Frontend Framework"; "Backend Framework"]
  /\ RepositoryAnalysis.frameworks_used (Profile.repo_analysis p2)
     = ["Backend Framework"; "Frontend Framework"]
  /\ p1 <> p2.
Proof.
  intros u p1 p2.
  split; [split; reflexivity|]. split; [exact dict_fromkeys_order_ok|].
  split; [exact reversed_order_ok|].
  assert (F1 : RepositoryAnalysis.frameworks_used (Profile.repo_analysis p1)
               = ["Frontend Framework"; "Backend Framework"]) by reflexivity.
  assert (F2 : RepositoryAnalysis.frameworks_used (Profile.repo_analysis p2)
               = ["Backend Framework"; "Frontend Framework"]) by reflexivity.
  split; [exact F1|]. split; [exact F2|].
  intros E. rewrite E, F2 in F1. discriminate F1.
Qed.

(* ===================================================================== *)
(** ** C10: the response of the service *)
(* ===================================================================== *)

Lemma lstrip_all_space (s : string) : all_space s = true -> PyStr.lstrip s = EmptyString.
Proof.
  induction s as [|c s IH]; simpl.
  - reflexivity.
  - destruct (PyStr.isspace_char c); simpl; [exact IH | discriminate].
Qed.

Lemma strip_all_space (s : string) : all_space s = true -> PyStr.strip s = EmptyString.
Proof.
  intros H. unfold PyStr.strip. now rewrite lstrip_all_space.
Qed.

Lemma occurs_replace (c old : ascii) (s : string) :
  c <> old -> PyStr.occurs c s -> PyStr.occurs c (PyStr.replace old EmptyString s).
Proof.
  intros D. induction s as [|d s IH]; simpl.
  - tauto.
  - intros [-> | H].
    + destruct (Ascii.eqb_spec c old) as [E | _]; [contradiction | now left].
    + destruct (Ascii.eqb d old); simpl; [now apply IH | right; now apply IH].
Qed.

Lemma all_alnum_occurs (c : ascii) (s : string) :
  PyStr.occurs c s -> PyStr.isalnum_char c = false -> PyStr.all_alnum s = false.
Proof.
  intros H Hc. induction s as [|d s IH]; simpl in *.
  - contradiction.
  - destruct H as [-> | H].
    + now rewrite Hc.
    + rewrite (IH H). apply andb_false_r.
Qed.

Lemma isalnum_occurs (c : ascii) (s : string) :
  PyStr.occurs c s -> PyStr.isalnum_char c = false -> PyStr.isalnum s = false.
Proof.
  intros H Hc. destruct s as [|d s]; [reflexivity|].
  unfold PyStr.isalnum. now apply all_alnum_occurs with (c := c).
Qed.

Lemma validate_username_Ok (username name : string) :
  validate_username username = Ok name -> name = PyStr.strip username.
Proof.
  unfold validate_username.
  destruct (negb (PyStr.truthy username) || negb (PyStr.truthy (PyStr.strip username)));
    [discriminate|].
  destruct (39 <? Z.of_nat (String.length (PyStr.strip username))); [discriminate|].
  destruct (negb (PyStr.isalnum _)); [discriminate|].
  congruence.
Qed.

Lemma validate_username_empty (username : string) :
  PyStr.strip username = EmptyString -> exists msg, validate_username username = Raise msg.
Proof.
  intros E. unfold validate_username. rewrite E. cbn [PyStr.truthy negb].
  rewrite orb_true_r. eauto.
Qed.

Lemma validate_username_long (username : string) :
  39 < Z.of_nat (String.length (PyStr.strip username)) ->
  exists msg, validate_username username = Raise msg.
Proof.
  intros H. unfold validate_username.
  destruct (negb (PyStr.truthy username) || negb (PyStr.truthy (PyStr.strip username)));
    [eauto|].
  apply Z.ltb_lt in H. rewrite H. eauto.
Qed.

Lemma validate_username_bad_char (username : string) (c : ascii) :
  PyStr.occurs c (PyStr.strip username) ->
  c <> "-"%char -> c <> "_"%char -> PyStr.isalnum_char c = false ->
  exists msg, validate_username username = Raise msg.
Proof.
  intros Hocc H1 H2 Hc. unfold validate_username.
  destruct (negb (PyStr.truthy username) || negb (PyStr.truthy (PyStr.strip username)));
    [eauto|].
  destruct (39 <? Z.of_nat (String.length (PyStr.strip username))); [eauto|].
  rewrite (isalnum_occurs c); [simpl; eauto | | exact Hc].
  apply occurs_replace; [exact H2|]. now apply occurs_replace.
Qed.

Lemma response_of_Raise (rt : Runtime) (svc : Service) (username agent_name msg : string) :
  analysis_steps rt svc username agent_name = Raise msg ->
  analyze_github_profile rt svc username agent_name
  = {| AnalysisResponse.success := false;
       AnalysisResponse.agent := agent_name;
       AnalysisResponse.recommendations := None;
       AnalysisResponse.profile := None;
       AnalysisResponse.error := Some msg |}.
Proof. intros H. unfold analyze_github_profile. now rewrite H. Qed.

Lemma response_of_invalid (rt : Runtime) (svc : Service) (username agent_name : string) :
  (exists msg, validate_username username = Raise msg) ->
  AnalysisResponse.success (analyze_github_profile rt svc username agent_name) = false.
Proof.
  intros (msg & H).
  rewrite (response_of_Raise rt svc username agent_name msg); [reflexivity|].
  unfold analysis_steps. now rewrite H.
Qed.

(** C10, as amended.  For every request the service returns an
    AnalysisResponse for the requested agent, and a response with
    success=False carries an error message and leaves recommendations and
    profile unset.  The response has success=False when the username is
    empty or consists of whitespace, or when the username with its
    surrounding whitespace stripped is longer than 39 characters or contains
    a character that is neither alphanumeric nor a hyphen nor an
    underscore, and when the fetch or the recommendation step raises, with
    the message of the exception as the error. *)
Theorem C10_analysis_response :
  forall (rt : Runtime) (svc : Service) (username agent_name : string),
    let r := analyze_github_profile rt svc username agent_name in
    let stripped := PyStr.strip username in
    AnalysisResponse.agent r = agent_name
    /\ (AnalysisResponse.success r = false ->
        exists msg, AnalysisResponse.error r = Some msg
                    /\ AnalysisResponse.recommendations r = None
                    /\ AnalysisResponse.profile r = None)
    /\ (all_space username = true -> AnalysisResponse.success r = false)
    /\ (39 < Z.of_nat (String.length stripped) -> AnalysisResponse.success r = false)
    /\ ((exists c, PyStr.occurs c stripped /\ c <> "-"%char /\ c <> "_"%char
                   /\ PyStr.isalnum_char c = false) ->
        AnalysisResponse.success r = false)
    /\ (forall msg,
           validate_username username = Ok stripped ->
           agents_get (agents svc) agent_name <> [] ->
           get_user_profile rt (github svc) stripped = Raise msg ->
           AnalysisResponse.success r = false
           /\ AnalysisResponse.error r = Some msg)
    /\ (forall profile msg,
           validate_username username = Ok stripped ->
           agents_get (agents svc) agent_name <> [] ->
           get_user_profile rt (github svc) stripped = Ok profile ->
           call_agent (model svc) (agents_get (agents svc) agent_name) profile
           = Raise msg ->
           AnalysisResponse.success r = false
           /\ AnalysisResponse.error r = Some msg).
Proof.
  intros rt svc username agent_name r stripped.
  split; [|split; [|split; [|split; [|split; [|split]]]]].
  - subst r. unfold analyze_github_profile.
    destruct (analysis_steps rt svc username agent_name) as [[? ?]|]; reflexivity.
  - subst r. unfold analyze_github_profile.
    destruct (analysis_steps rt svc username agent_name) as [[? ?]|msg]; simpl.
    + discriminate.
    + intros _. now exists msg.
  - intros H. apply response_of_invalid, validate_username_empty.
    now apply strip_all_space.
  - intros H. now apply response_of_invalid, validate_username_long.
  - intros (c & Hocc & H1 & H2 & Hc).
    apply response_of_invalid. now apply validate_username_bad_char with (c := c).
  - intros msg Hv Hcfg Hfetch. subst r.
    rewrite (response_of_Raise rt svc username agent_name msg); [now split|].
    unfold analysis_steps. rewrite Hv. cbn [bind].
    destruct (agents_get (agents svc) agent_name) as [|e cfg]; [contradiction|].
    cbn [bind]. now rewrite Hfetch.
  - intros profile msg Hv Hcfg Hfetch Hcall. subst r.
    rewrite (response_of_Raise rt svc username agent_name msg); [now split|].
    unfold analysis_steps. rewrite Hv. cbn [bind].
    destruct (agents_get (agents svc) agent_name) as [|e cfg]; [contradiction|].
    cbn [bind]. rewrite Hfetch. cbn [bind]. now rewrite Hcall.
Qed.

Lemma C10_analysis_response_witness :
  let u := Sample.user "2019-06-03T00:00:00Z" 40 100 in
  let ok := Sample.service u [] [] (GenText "Five ideas") in
  let gone :=
    {| agents := agents ok;
       github := fun _ => {| user_reply := Answer 404 u;
                             repos_reply := Answer 200 [];
                             events_reply := Answer 200 [] |};
       model := model ok |} in
  let quota := Sample.service u [] [] (GenRaises "429 Quota exceeded") in
  let agent_name := "hackathon_recommender" in
  AnalysisResponse.success (analyze_github_profile Sample.rt ok "   " agent_name) = false
  /\ AnalysisResponse.success
       (analyze_github_profile Sample.rt ok
          "a123456789b123456789c123456789d123456789" agent_name) = false
  /\ AnalysisResponse.success
       (analyze_github_profile Sample.rt ok "octo cat" agent_name) = false
  /\ AnalysisResponse.error (analyze_github_profile Sample.rt gone "octocat" agent_name)
     = Some "GitHub user 'octocat' not found. Please check the username and try again."
  /\ AnalysisResponse.error (analyze_github_profile Sample.rt quota "octocat" agent_name)
     = Some "AI service rate limit exceeded. Please try again in a few minutes.".
Proof.
  intros u ok gone quota agent_name.
  split; [|split; [|split; [|split]]].
  - destruct (C10_analysis_response Sample.rt ok "   " agent_name)
      as (_ & _ & H & _).
    apply H. reflexivity.
  - destruct (C10_analysis_response Sample.rt ok
                "a123456789b123456789c123456789d123456789" agent_name)
      as (_ & _ & _ & H & _).
    apply H. reflexivity.
  - destruct (C10_analysis_response Sample.rt ok "octo cat" agent_name)
      as (_ & _ & _ & _ & H & _).
    apply H. exists " "%char.
    split; [vm_compute; tauto|]. repeat split; discriminate || reflexivity.
  - destruct (C10_analysis_response Sample.rt gone "octocat" agent_name)
      as (_ & _ & _ & _ & _ & H & _).
    apply H; [reflexivity | discriminate | reflexivity].
  - destruct (C10_analysis_response Sample.rt quota "octocat" agent_name)
      as (_ & _ & _ & _ & _ & _ & H).
    apply (H (analyze Sample.rt "octocat" u [] []));
      [reflexivity | discriminate | reflexivity | reflexivity].
Defined.

(** C10 as stated fails: a username that contains a space, which is
    neither a letter, a digit, a hyphen nor an underscore, and a username
    of 40 characters are both accepted when the offending characters are
    surrounding whitespace, because the checks run on the stripped name. *)
Lemma C10_padded_username_accepted :
  let u := Sample.user "2019-06-03T00:00:00Z" 40 100 in
  let svc := Sample.service u [] [] (GenText "Five ideas") in
  let long := " a123456789b123456789c123456789d12345678" in
  PyStr.occurs " "%char " octocat"
  /\ PyStr.isalnum_char " "%char = false
  /\ AnalysisResponse.success
       (analyze_github_profile Sample.rt svc " octocat" "hackathon_recommender") = true
  /\ String.length long = 40%nat
  /\ AnalysisResponse.success
       (analyze_github_profile Sample.rt svc long "hackathon_recommender") = true.
Proof.
  intros u svc long.
  split; [left; reflexivity|]. repeat split; reflexivity.
Qed.

(* ===================================================================== *)
(** ** Usernames the service accepts *)
(* ===================================================================== *)

Lemma alnum_not_space (c : ascii) :
  PyStr.isalnum_char c = true -> PyStr.isspace_char c = false.
Proof.
  destruct c as [[] [] [] [] [] [] [] []]; vm_compute; intros H;
    reflexivity || discriminate H.
Qed.

Lemma name_char_not_space (c : ascii) :
  name_char c = true -> PyStr.isspace_char c = false.
Proof.
  unfold name_char. rewrite !orb_true_iff. intros [[H | H] | H].
  - now apply alnum_not_space.
  - apply Ascii.eqb_eq in H. now subst.
  - apply Ascii.eqb_eq in H. now subst.
Qed.

Lemma strip_without_space (s : string) :
  (forall c, PyStr.occurs c s -> PyStr.isspace_char c = false) -> PyStr.strip s = s.
Proof.
  intros H. unfold PyStr.strip.
  assert (L : PyStr.lstrip s = s).
  { destruct s as [|c s]; [reflexivity|]. simpl.
    now rewrite (H c (or_introl eq_refl)). }
  rewrite L. clear L. induction s as [|c s IH]; [reflexivity|].
  simpl. rewrite IH by (intros d Hd; apply H; now right).
  destruct s as [|d s]; [|reflexivity].
  now rewrite (H c (or_introl eq_refl)).
Qed.

Lemma replace_empty_occurs (old c : ascii) (s : string) :
  PyStr.occurs c (PyStr.replace old EmptyString s) <-> PyStr.occurs c s /\ c <> old.
Proof.
  induction s as [|d s IH]; simpl.
  - tauto.
  - destruct (Ascii.eqb_spec d old) as [-> | D]; simpl; rewrite IH.
    + split; [tauto|]. intros [[<- | H] N]; [contradiction | tauto].
    + split.
      * intros [<- | [H N]]; [split; [now left | exact D] | tauto].
      * tauto.
Qed.

Lemma all_alnum_spec (s : string) :
  PyStr.all_alnum s = true <-> forall c, PyStr.occurs c s -> PyStr.isalnum_char c = true.
Proof.
  induction s as [|d s IH]; simpl.
  - split; [intros _ c [] | reflexivity].
  - rewrite andb_true_iff, IH. split.
    + intros [Hd H] c [<- | Hc]; [exact Hd | now apply H].
    + intros H. split; [apply H; now left | intros c Hc; apply H; now right].
Qed.

Lemma isalnum_spec (s : string) :
  PyStr.isalnum s = true
  <-> (exists c, PyStr.occurs c s)
      /\ forall c, PyStr.occurs c s -> PyStr.isalnum_char c = true.
Proof.
  destruct s as [|d s].
  - simpl. split; [discriminate | intros [[c []] _]].
  - unfold PyStr.isalnum. rewrite all_alnum_spec. split.
    + intros H. split; [exists d; now left | exact H].
    + tauto.
Qed.

Lemma name_char_cases (c : ascii) :
  name_char c = true
  <-> PyStr.isalnum_char c = true \/ c = "-"%char \/ c = "_"%char.
Proof.
  unfold name_char. rewrite !orb_true_iff, !Ascii.eqb_eq. tauto.
Qed.

Lemma bare_name_alnum (s : string) :
  PyStr.isalnum (PyStr.replace "_" EmptyString (PyStr.replace "-" EmptyString s)) = true
  <-> (forall c, PyStr.occurs c s -> name_char c = true)
      /\ exists c, PyStr.occurs c s /\ PyStr.isalnum_char c = true.
Proof.
  rewrite isalnum_spec. split.
  - intros [(c & Hc) H]. split.
    + intros d Hd. apply name_char_cases.
      destruct (ascii_dec d "-") as [-> | D1]; [tauto|].
      destruct (ascii_dec d "_") as [-> | D2]; [tauto|].
      left. apply H. rewrite !replace_empty_occurs. tauto.
    + exists c. split; [|now apply H].
      rewrite !replace_empty_occurs in Hc. tauto.
  - intros [Hall (c & Hc & Ha)]. split.
    + exists c. rewrite !replace_empty_occurs. repeat split; try exact Hc;
        intros ->; discriminate Ha.
    + intros d Hd. rewrite !replace_empty_occurs in Hd.
      destruct Hd as [[Hd D1] D2].
      apply Hall, name_char_cases in Hd. tauto.
Qed.

Lemma validate_username_spec (username name : string) :
  validate_username username = Ok name
  <-> name = PyStr.strip username
      /\ (String.length name <= 39)%nat
      /\ (forall c, PyStr.occurs c name -> name_char c = true)
      /\ exists c, PyStr.occurs c name /\ PyStr.isalnum_char c = true.
Proof.
  unfold validate_username.
  destruct (PyStr.isalnum _) eqn:A.
  - apply bare_name_alnum in A. destruct A as [Hall Hex].
    assert (T : PyStr.truthy (PyStr.strip username) = true).
    { destruct Hex as (c & Hc & _). now destruct (PyStr.strip username). }
    assert (U : PyStr.truthy username = true).
    { destruct username; [discriminate T | reflexivity]. }
    rewrite T, U. cbn [negb orb].
    destruct (Z.ltb_spec 39 (Z.of_nat (String.length (PyStr.strip username)))).
    + split; [discriminate|]. intros (-> & L & _). lia.
    + split.
      * intros E. injection E as <-. repeat split; try assumption. lia.
      * intros (-> & _). reflexivity.
  - assert (N : ~ ((forall c, PyStr.occurs c (PyStr.strip username) -> name_char c = true)
                   /\ exists c, PyStr.occurs c (PyStr.strip username)
                                /\ PyStr.isalnum_char c = true)).
    { rewrite <- bare_name_alnum, A. discriminate. }
    split.
    + destruct (negb (PyStr.truthy username) || negb (PyStr.truthy (PyStr.strip username)));
        [discriminate|].
      destruct (39 <? Z.of_nat (String.length (PyStr.strip username))); discriminate.
    + intros (-> & _ & H1 & H2). exfalso. apply N. now split.
Qed.

(** X1.  The username check accepts exactly the names that, once the
    surrounding whitespace is stripped, have at most 39 characters, all of
    them alphanumeric, hyphens or underscores, and at least one of them
    alphanumeric; it hands on the stripped name.  A name made only of
    hyphens and underscores is rejected. *)
Theorem X1_accepted_usernames :
  forall (username name : string),
    (validate_username username = Ok name
     <-> name = PyStr.strip username
         /\ (String.length name <= 39)%nat
         /\ (forall c, PyStr.occurs c name -> name_char c = true)
         /\ exists c, PyStr.occurs c name /\ PyStr.isalnum_char c = true)
    /\ ((forall c, PyStr.occurs c (PyStr.strip username) ->
                   c = "-"%char \/ c = "_"%char) ->
        exists msg, validate_username username = Raise msg).
Proof.
  intros username name. split; [apply validate_username_spec|].
  intros H. destruct (validate_username username) as [n|msg] eqn:V; [|eauto].
  apply validate_username_spec in V. destruct V as (-> & _ & _ & (c & Hc & Ha)).
  destruct (H c Hc) as [-> | ->]; discriminate Ha.
Qed.

Lemma X1_accepted_usernames_witness :
  exists msg, validate_username " -_- " = Raise msg.
Proof.
  destruct (X1_accepted_usernames " -_- " EmptyString) as [_ H].
  apply H. vm_compute. intuition (subst; auto).
Defined.

(** X2.  An accepted name holds no whitespace and passes the check again
    unchanged: validating is idempotent. *)
Theorem X2_validation_idempotent :
  forall (username name : string),
    validate_username username = Ok name ->
    validate_username name = Ok name
    /\ PyStr.strip name = name
    /\ forall c, PyStr.occurs c name -> PyStr.isspace_char c = false.
Proof.
  intros username name V. apply validate_username_spec in V.
  destruct V as (E & L & Hall & Hex).
  assert (S : forall c, PyStr.occurs c name -> PyStr.isspace_char c = false).
  { intros c Hc. now apply name_char_not_space, Hall. }
  assert (St : PyStr.strip name = name) by now apply strip_without_space.
  split; [|split; assumption].
  apply validate_username_spec. rewrite St. repeat split; assumption.
Qed.

Lemma X2_validation_idempotent_witness :
  validate_username "  octo-cat_1 " = Ok "octo-cat_1"
  /\ validate_username "octo-cat_1" = Ok "octo-cat_1".
Proof.
  assert (V : validate_username "  octo-cat_1 " = Ok "octo-cat_1") by reflexivity.
  split; [exact V|].
  apply (X2_validation_idempotent "  octo-cat_1 " "octo-cat_1" V).
Defined.

(* ===================================================================== *)
(** ** The fetch, the generator client and the service *)
(* ===================================================================== *)

Lemma get_user_profile_Ok (rt : Runtime) (platform : string -> Replies)
    (username : string) (p : Profile.t) :
  get_user_profile rt platform username = Ok p
  <-> exists user_data sr rs se es,
        user_reply (platform username) = Answer 200 user_data
        /\ repos_reply (platform username) = Answer sr rs
        /\ events_reply (platform username) = Answer se es
        /\ p = analyze rt username user_data
                 (if sr =? 200 then rs else []) (if se =? 200 then es else []).
Proof.
  unfold get_user_profile, fetch_user, listing. cbv zeta.
  destruct (platform username) as [ur rr er]. cbn [user_reply repos_reply events_reply].
  split.
  - destruct ur as [m|st ud]; [discriminate|].
    destruct (Z.eqb_spec st 404); [discriminate|].
    destruct (Z.eqb_spec st 403); [discriminate|].
    destruct (Z.eqb_spec st 200) as [-> |]; [|discriminate].
    cbn [negb bind].
    destruct rr as [m|sr rs]; [discriminate|].
    destruct er as [m|se es]; [discriminate|].
    cbn [bind]. intros E. injection E as <-.
    now exists ud, sr, rs, se, es.
  - intros (ud & sr & rs & se & es & -> & -> & -> & ->). reflexivity.
Qed.

Lemma get_user_profile_username (rt : Runtime) (platform : string -> Replies)
    (username : string) (p : Profile.t) :
  get_user_profile rt platform username = Ok p -> Profile.username p = username.
Proof.
  intros H. apply get_user_profile_Ok in H.
  destruct H as (ud & sr & rs & se & es & _ & _ & _ & ->). reflexivity.
Qed.

(** X3.  The profile fetch succeeds exactly when the user request answers
    200 and neither listing request raises; the status of a listing never
    fails it, a listing that does not answer 200 counts as empty, and the
    profile carries the requested username. *)
Theorem X3_fetch_outcome :
  forall (rt : Runtime) (platform : string -> Replies) (username : string),
    (forall p,
        get_user_profile rt platform username = Ok p
        <-> exists user_data sr rs se es,
              user_reply (platform username) = Answer 200 user_data
              /\ repos_reply (platform username) = Answer sr rs
              /\ events_reply (platform username) = Answer se es
              /\ p = analyze rt username user_data
                       (if sr =? 200 then rs else []) (if se =? 200 then es else []))
    /\ (forall p, get_user_profile rt platform username = Ok p ->
                  Profile.username p = username)
    /\ (forall status body,
           user_reply (platform username) = Answer status body -> status <> 200 ->
           exists msg, get_user_profile rt platform username = Raise msg).
Proof.
  intros rt platform username. split; [|split].
  - intros p. apply get_user_profile_Ok.
  - intros p. apply get_user_profile_username.
  - intros status body H N.
    destruct (get_user_profile rt platform username) as [p|msg] eqn:G; [|eauto].
    apply get_user_profile_Ok in G.
    destruct G as (ud & sr & rs & se & es & G & _). congruence.
Qed.

Lemma X3_fetch_outcome_witness :
  let u := Sample.user "2019-06-03T00:00:00Z" 40 100 in
  let platform := fun _ : string =>
    {| user_reply := Answer 500 u; repos_reply := Answer 200 [];
       events_reply := Answer 200 [] |} in
  exists msg, get_user_profile Sample.rt platform "octocat" = Raise msg.
Proof.
  intros u platform.
  destruct (X3_fetch_outcome Sample.rt platform "octocat") as (_ & _ & H).
  apply (H 500 u); [reflexivity | discriminate].
Defined.

Lemma lower_char_not_upper (c : ascii) :
  PyStr.between 65 90 (PyStr.code (PyStr.lower_char c)) = false.
Proof.
  destruct c as [[] [] [] [] [] [] [] []]; vm_compute; reflexivity.
Qed.

Lemma lower_no_upper (s : string) (c : ascii) :
  PyStr.occurs c (PyStr.lower s) -> PyStr.between 65 90 (PyStr.code c) = false.
Proof.
  induction s as [|d s IH]; simpl.
  - tauto.
  - intros [<- | H]; [apply lower_char_not_upper | now apply IH].
Qed.

Lemma prefix_head (a : ascii) (rest hay : string) :
  prefix (String a rest) hay = true -> PyStr.occurs a hay.
Proof.
  destruct hay as [|b hay]; simpl; [discriminate|].
  destruct (ascii_dec a b) as [-> | _]; [now left | discriminate].
Qed.

Lemma contains_head (a : ascii) (rest hay : string) :
  PyStr.contains (String a rest) hay = true -> PyStr.occurs a hay.
Proof.
  induction hay as [|b hay IH].
  - simpl. discriminate.
  - cbn [PyStr.contains]. destruct (prefix (String a rest) (String b hay)) eqn:P.
    + intros _. now apply prefix_head with (rest := rest).
    + intros H. right. now apply IH.
Qed.

Lemma api_key_never_found (e : string) : PyStr.contains "API key" (PyStr.lower e) = false.
Proof.
  destruct (PyStr.contains "API key" (PyStr.lower e)) eqn:C; [|reflexivity].
  apply contains_head, lower_no_upper in C. discriminate C.
Qed.

(** X4.  The test for "API key" in the lower-cased model error can never
    hold, since the needle has capital letters: the authentication message
    is raised exactly when the lower-cased error contains "authentication",
    and an error that only mentions the API key gets the message of its
    first other match, or the generic one. *)
Theorem X4_api_key_test_is_dead :
  forall (gemini_error : string),
    PyStr.contains "API key" (PyStr.lower gemini_error) = false
    /\ (friendly_message gemini_error
        = "AI service authentication failed. Please check the API key configuration."
        <-> PyStr.contains "authentication" (PyStr.lower gemini_error) = true).
Proof.
  intros e. split; [apply api_key_never_found|].
  unfold friendly_message. cbv zeta. rewrite api_key_never_found. cbn [orb].
  destruct (PyStr.contains "authentication" (PyStr.lower e)).
  - tauto.
  - split; [|discriminate].
    destruct (_ || _); [discriminate|]. destruct (_ || _); discriminate.
Qed.

Lemma friendly_message_fixed (e : string) : In (friendly_message e) agent_messages.
Proof.
  unfold friendly_message, agent_messages. cbv zeta.
  destruct (_ || _); [now left|].
  destruct (_ || _); [right; now left|].
  destruct (_ || _); [right; right; now left | right; right; right; now left].
Qed.

Lemma read_parameters_cases (cfg : agent_config) :
  (parameters_readable cfg /\ exists m, read_parameters cfg = Ok m)
  \/ (exists v, parameters_hold cfg v /\ read_parameters cfg = Raise (no_get v)).
Proof.
  unfold read_parameters, parameters_readable, parameters_hold, no_get.
  destruct (config_get cfg "parameters") as [v|].
  - destruct v; try (right; eexists; split; [split; [reflexivity | discriminate]
                                             | reflexivity]).
    left. split; [right|]; eauto.
  - left. split; [now left | eauto].
Qed.

Lemma readable_or_held (cfg : agent_config) (v : config_value) :
  parameters_readable cfg -> parameters_hold cfg v -> False.
Proof.
  intros [N | (m & M)] [H D]; [congruence|].
  rewrite M in H. injection H as <-. now apply (D m).
Qed.

Lemma call_agent_unreadable (generator : option (agent_config -> Profile.t -> generation))
    (cfg : agent_config) (p : Profile.t) (v : config_value) :
  parameters_hold cfg v -> call_agent generator cfg p = Raise (no_get v).
Proof.
  intros H. unfold call_agent.
  destruct (read_parameters_cases cfg) as [[R _] | (v' & [H' _] & E)].
  - destruct (readable_or_held cfg v R H).
  - rewrite E. cbn [bind]. destruct H as [H _]. congruence.
Qed.

Lemma call_agent_readable (generator : option (agent_config -> Profile.t -> generation))
    (cfg : agent_config) (p : Profile.t) :
  parameters_readable cfg ->
  call_agent generator cfg p
  = match generator with
    | Some generate =>
        match _call_gemini (generate cfg p) with
        | Ok text => Ok text
        | Raise gemini_error => Raise (friendly_message gemini_error)
        end
    | None =>
        Raise "AI service is not configured. Please check your Gemini API key configuration."
    end.
Proof.
  intros R. unfold call_agent.
  destruct (read_parameters_cases cfg) as [[_ (m & E)] | (v & H & _)].
  - now rewrite E.
  - destruct (readable_or_held cfg v R H).
Qed.

Lemma call_agent_Ok (generator : option (agent_config -> Profile.t -> generation))
    (cfg : agent_config) (p : Profile.t) (text : string) :
  call_agent generator cfg p = Ok text
  <-> parameters_readable cfg
      /\ text <> EmptyString
      /\ exists generate, generator = Some generate /\ generate cfg p = GenText text.
Proof.
  split.
  - intros H. destruct (read_parameters_cases cfg) as [[R _] | (v & Hv & _)].
    + split; [exact R|]. rewrite (call_agent_readable generator cfg p R) in H.
      unfold _call_gemini in H.
      destruct generator as [generate|]; [|discriminate].
      destruct (generate cfg p) as [m|t] eqn:G; [discriminate|].
      destruct t as [|c t]; [discriminate|]. cbn [PyStr.truthy] in H.
      injection H as <-. split; [discriminate|]. now exists generate.
    + rewrite (call_agent_unreadable generator cfg p v Hv) in H. discriminate.
  - intros (R & N & generate & -> & G).
    rewrite (call_agent_readable _ cfg p R), G. unfold _call_gemini.
    destruct text; [contradiction | reflexivity].
Qed.

(** X5.  The generator client returns only a non-empty text the model
    produced.  When the agent's [parameters] are absent or a mapping, every
    failure is reported by one of five fixed messages: the text of the
    model's own exception never reaches the caller, and an empty answer
    counts as a failure.  When [parameters] holds anything else, reading the
    settings raises an AttributeError, which leaves the client unchanged,
    before the model is consulted and even when none is configured. *)
Theorem X5_call_agent_outcomes :
  forall (generator : option (agent_config -> Profile.t -> generation))
         (cfg : agent_config) (profile_data : Profile.t),
    (forall text,
        call_agent generator cfg profile_data = Ok text
        <-> parameters_readable cfg
            /\ text <> EmptyString
            /\ exists generate, generator = Some generate
                                /\ generate cfg profile_data = GenText text)
    /\ (forall msg, call_agent generator cfg profile_data = Raise msg ->
                    (parameters_readable cfg /\ In msg agent_messages)
                    \/ (exists v, parameters_hold cfg v /\ msg = no_get v))
    /\ (forall v, parameters_hold cfg v ->
                  call_agent generator cfg profile_data = Raise (no_get v))
    /\ (forall generate, parameters_readable cfg ->
                         generator = Some generate ->
                         generate cfg profile_data = GenText EmptyString ->
                         call_agent generator cfg profile_data
                         = Raise "AI service temporarily unavailable. Please try again later.").
Proof.
  intros generator cfg p. split; [|split; [|split]].
  - intros text. apply call_agent_Ok.
  - intros msg H. destruct (read_parameters_cases cfg) as [[R _] | (v & Hv & _)].
    + left. split; [exact R|]. rewrite (call_agent_readable generator cfg p R) in H.
      destruct generator as [generate|].
      * destruct (_call_gemini (generate cfg p)); [discriminate|].
        injection H as <-. apply friendly_message_fixed.
      * injection H as <-. unfold agent_messages. simpl. tauto.
    + right. exists v. split; [exact Hv|].
      rewrite (call_agent_unreadable generator cfg p v Hv) in H. congruence.
  - intros v. apply call_agent_unreadable.
  - intros generate R -> G. rewrite (call_agent_readable _ cfg p R), G. reflexivity.
Qed.

Lemma X5_call_agent_outcomes_witness :
  let p := analyze Sample.rt "octocat" (Sample.user "2019-06-03T00:00:00Z" 40 100) [] [] in
  call_agent (Some (fun _ _ => GenText EmptyString)) [] p
  = Raise "AI service temporarily unavailable. Please try again later."
  /\ call_agent None [("parameters", CStr "fast")] p
     = Raise "'str' object has no attribute 'get'".
Proof.
  intros p. split.
  - destruct (X5_call_agent_outcomes (Some (fun _ _ => GenText EmptyString)) [] p)
      as (_ & _ & _ & Hempty).
    apply (Hempty (fun _ _ => GenText EmptyString)); [now left | reflexivity | reflexivity].
  - destruct (X5_call_agent_outcomes None [("parameters", CStr "fast")] p)
      as (_ & _ & Hattr & _).
    apply (Hattr (CStr "fast")). split; [reflexivity | discriminate].
Defined.

Lemma analysis_steps_Ok (rt : Runtime) (svc : Service) (username agent_name : string)
    (text : string) (p : Profile.t) :
  analysis_steps rt svc username agent_name = Ok (text, p)
  <-> validate_username username = Ok (PyStr.strip username)
      /\ agents_get (agents svc) agent_name <> []
      /\ get_user_profile rt (github svc) (PyStr.strip username) = Ok p
      /\ call_agent (model svc) (agents_get (agents svc) agent_name) p = Ok text.
Proof.
  unfold analysis_steps. split.
  - destruct (validate_username username) as [n|m] eqn:V; [|discriminate].
    assert (En := validate_username_Ok _ _ V). subst n. cbn [bind].
    destruct (agents_get (agents svc) agent_name) as [|e cfg] eqn:A; [discriminate|].
    cbn [bind].
    destruct (get_user_profile rt (github svc) (PyStr.strip username)) as [q|m] eqn:G;
      [|discriminate].
    cbn [bind]. destruct (call_agent (model svc) (e :: cfg) q) as [t|m] eqn:C;
      [|discriminate].
    cbn [bind]. intros E. injection E as <- <-.
    repeat split; try reflexivity; try assumption. discriminate.
  - intros (V & A & G & C). rewrite V. cbn [bind].
    destruct (agents_get (agents svc) agent_name) as [|e cfg]; [contradiction|].
    cbn [bind]. rewrite G. cbn [bind]. rewrite C. reflexivity.
Qed.

(** X6.  A response has success=True exactly when the username is accepted,
    the agent has a non-empty configuration whose [parameters] are absent or
    a mapping, the fetch returns a profile, and a generator is configured
    and answers a non-empty text; it then carries that text and that
    profile, whose username is the stripped one, and no error.  An agent
    whose [parameters] hold anything but a mapping never succeeds: when the
    username is accepted and the profile fetched, the response carries the
    AttributeError text, whatever the generator is. *)
Theorem X6_success_response :
  forall (rt : Runtime) (svc : Service) (username agent_name : string),
    let r := analyze_github_profile rt svc username agent_name in
    let stripped := PyStr.strip username in
    let cfg := agents_get (agents svc) agent_name in
    (AnalysisResponse.success r = true
     <-> exists text p,
           validate_username username = Ok stripped
           /\ cfg <> []
           /\ get_user_profile rt (github svc) stripped = Ok p
           /\ parameters_readable cfg
           /\ text <> EmptyString
           /\ exists generate, model svc = Some generate
                               /\ generate cfg p = GenText text)
    /\ (AnalysisResponse.success r = true ->
        exists text p,
          r = {| AnalysisResponse.success := true;
                 AnalysisResponse.agent := agent_name;
                 AnalysisResponse.recommendations := Some text;
                 AnalysisResponse.profile := Some p;
                 AnalysisResponse.error := None |}
          /\ text <> EmptyString
          /\ Profile.username p = stripped)
    /\ (forall v, parameters_hold cfg v ->
                  AnalysisResponse.success r = false
                  /\ forall p, validate_username username = Ok stripped ->
                               get_user_profile rt (github svc) stripped = Ok p ->
                               r = {| AnalysisResponse.success := false;
                                      AnalysisResponse.agent := agent_name;
                                      AnalysisResponse.recommendations := None;
                                      AnalysisResponse.profile := None;
                                      AnalysisResponse.error := Some (no_get v) |}).
Proof.
  intros rt svc username agent_name r stripped cfg.
  assert (S : AnalysisResponse.success r = true ->
              exists text p, analysis_steps rt svc username agent_name = Ok (text, p)
                             /\ r = {| AnalysisResponse.success := true;
                                       AnalysisResponse.agent := agent_name;
                                       AnalysisResponse.recommendations := Some text;
                                       AnalysisResponse.profile := Some p;
                                       AnalysisResponse.error := None |}).
  { subst r. unfold analyze_github_profile.
    destruct (analysis_steps rt svc username agent_name) as [[text p]|m];
      [|discriminate].
    intros _. now exists text, p. }
  split; [split | split].
  - intros H. destruct (S H) as (text & p & E & _).
    apply analysis_steps_Ok in E. destruct E as (V & A & G & C).
    apply call_agent_Ok in C. now exists text, p.
  - intros (text & p & V & A & G & C). subst r. unfold analyze_github_profile.
    apply call_agent_Ok in C.
    now rewrite (proj2 (analysis_steps_Ok rt svc username agent_name text p)
                       (conj V (conj A (conj G C)))).
  - intros H. destruct (S H) as (text & p & E & Er).
    exists text, p. split; [exact Er|].
    apply analysis_steps_Ok in E. destruct E as (_ & _ & G & C).
    split.
    + now apply call_agent_Ok in C.
    + now apply get_user_profile_username in G.
  - intros v Hv. split.
    + apply not_true_is_false. intros E.
      destruct (S E) as (text & p & St & _).
      apply analysis_steps_Ok in St. destruct St as (_ & _ & _ & C).
      fold cfg in C. rewrite (call_agent_unreadable _ cfg p v Hv) in C. discriminate.
    + intros p V G. subst r. apply response_of_Raise. unfold analysis_steps.
      rewrite V. cbn [bind]. fold cfg.
      assert (C := call_agent_unreadable (model svc) cfg p v Hv).
      destruct cfg as [|e c] eqn:A.
      { destruct Hv as [Hv _]. discriminate. }
      cbn [bind]. fold stripped. rewrite G. cbn [bind]. now rewrite C.
Qed.

Lemma X6_success_response_witness :
  let u := Sample.user "2019-06-03T00:00:00Z" 40 100 in
  let svc := Sample.service u [] [] (GenText "Five ideas") in
  let r := analyze_github_profile Sample.rt svc " octocat " "hackathon_recommender" in
  let misconfigured :=
    {| agents := [("mentor", [("parameters", CList [CFloat (7 # 10)])])];
       github := github svc;
       model := model svc |} in
  (AnalysisResponse.success r = true
   /\ exists text p, AnalysisResponse.profile r = Some p
                     /\ AnalysisResponse.recommendations r = Some text
                     /\ Profile.username p = "octocat")
  /\ AnalysisResponse.error
       (analyze_github_profile Sample.rt misconfigured "octocat" "mentor")
     = Some "'list' object has no attribute 'get'".
Proof.
  intros u svc r misconfigured. split.
  - assert (H : AnalysisResponse.success r = true) by reflexivity.
    split; [exact H|].
    destruct (X6_success_response Sample.rt svc " octocat " "hackathon_recommender")
      as (_ & S & _).
    destruct (S H) as (text & p & E & _ & Hu).
    exists text, p. fold r in E. rewrite E. repeat split. exact Hu.
  - destruct (X6_success_response Sample.rt misconfigured "octocat" "mentor")
      as (_ & _ & U).
    destruct (U (CList [CFloat (7 # 10)])) as [_ E].
    { split; [reflexivity | discriminate]. }
    rewrite (E _ eq_refl eq_refl). reflexivity.
Defined.

Lemma response_of_missing_agent (rt : Runtime) (svc : Service)
    (username agent_name name : string) :
  validate_username username = Ok name ->
  agents_get (agents svc) agent_name = [] ->
  analyze_github_profile rt svc username agent_name
  = {| AnalysisResponse.success := false;
       AnalysisResponse.agent := agent_name;
       AnalysisResponse.recommendations := None;
       AnalysisResponse.profile := None;
       AnalysisResponse.error :=
         Some ("Agent " ++ agent_name ++ " not found in configuration") |}.
Proof.
  intros V A. apply response_of_Raise. unfold analysis_steps.
  rewrite V. cbn [bind]. now rewrite A.
Qed.

(** X7.  Nothing is fetched or generated for a request that fails the
    early checks: when the username is rejected the response is the same
    whatever the platform, the generator, the agent table and the clock
    are, and carries the rejection message; when the username is accepted
    but the agent has no (or an empty) configuration the response is the
    "not found" failure whatever the platform and the generator would have
    answered. *)
Theorem X7_early_failures_reach_nobody :
  forall (username agent_name : string),
    (forall msg, validate_username username = Raise msg ->
                 forall rt svc,
                   analyze_github_profile rt svc username agent_name
                   = {| AnalysisResponse.success := false;
                        AnalysisResponse.agent := agent_name;
                        AnalysisResponse.recommendations := None;
                        AnalysisResponse.profile := None;
                        AnalysisResponse.error := Some msg |})
    /\ (forall name, validate_username username = Ok name ->
                     forall rt svc,
                       agents_get (agents svc) agent_name = [] ->
                       analyze_github_profile rt svc username agent_name
                       = {| AnalysisResponse.success := false;
                            AnalysisResponse.agent := agent_name;
                            AnalysisResponse.recommendations := None;
                            AnalysisResponse.profile := None;
                            AnalysisResponse.error :=
                              Some ("Agent " ++ agent_name
                                    ++ " not found in configuration") |}).
Proof.
  intros username agent_name. split.
  - intros msg V rt svc. apply response_of_Raise. unfold analysis_steps. now rewrite V.
  - intros name V rt svc A. now apply response_of_missing_agent with (name := name).
Qed.

Lemma X7_early_failures_reach_nobody_witness :
  let u := Sample.user "2019-06-03T00:00:00Z" 40 100 in
  let svc := Sample.service u [] [] (GenText "Five ideas") in
  AnalysisResponse.error (analyze_github_profile Sample.rt svc "octo!cat" "mentor")
  = Some "Invalid username format. GitHub usernames can only contain letters, numbers, hyphens, and underscores."
  /\ AnalysisResponse.error (analyze_github_profile Sample.rt svc "octocat" "mentor")
     = Some "Agent mentor not found in configuration".
Proof.
  intros u svc.
  destruct (X7_early_failures_reach_nobody "octo!cat" "mentor") as [H1 _].
  destruct (X7_early_failures_reach_nobody "octocat" "mentor") as [_ H2].
  split.
  - rewrite (H1 _ eq_refl Sample.rt svc). reflexivity.
  - rewrite (H2 "octocat" eq_refl Sample.rt svc eq_refl). reflexivity.
Defined.

(** The configuration files on which [load_config] ends in its [except]
    branch. *)
Lemma load_config_fallback (file : config_file) :
  (exists msg, file = Unreadable msg) \/ file = NotMapping
  \/ (exists c, file = Mapping Null c) ->
  AgentConfig.load_config file = AgentConfig.fallback.
Proof.
  intros [(msg & ->) | [-> | (c & ->)]]; reflexivity.
Qed.

(** X8.  When the configuration file cannot be read, is not a mapping, or
    has a null [agents] key, the service still offers exactly the agent
    "hackathon_recommender": the agent list names it alone, a request that
    names no agent succeeds exactly when its username is accepted, the
    fetch returns a profile and the generator returns a text, and a request
    for any other agent is answered "not found". *)
Theorem X8_default_agent_after_failed_load :
  forall (file : config_file) (platform : string -> Replies)
         (generator : option (agent_config -> Profile.t -> generation)),
    (exists msg, file = Unreadable msg) \/ file = NotMapping
    \/ (exists c, file = Mapping Null c) ->
    let svc := AgentService_init file platform generator in
    list_agents svc = ["hackathon_recommender"]
    /\ (forall rt username,
           let r := analyze_profile rt svc
                      {| AnalysisRequest.username := username;
                         AnalysisRequest.agent := None |} in
           AnalysisResponse.agent r = "hackathon_recommender"
           /\ (AnalysisResponse.success r = true
               <-> exists text p,
                     validate_username username = Ok (PyStr.strip username)
                     /\ get_user_profile rt platform (PyStr.strip username) = Ok p
                     /\ call_agent generator
                          (agents_get AgentConfig.default_agents "hackathon_recommender") p
                        = Ok text))
    /\ (forall rt username other,
           other <> "hackathon_recommender" ->
           validate_username username = Ok (PyStr.strip username) ->
           AnalysisResponse.error
             (analyze_profile rt svc
                {| AnalysisRequest.username := username;
                   AnalysisRequest.agent := Some other |})
           = Some ("Agent " ++ other ++ " not found in configuration")).
Proof.
  intros file platform generator Hfile svc.
  assert (A : agents svc = AgentConfig.default_agents).
  { subst svc. unfold AgentService_init. cbn [agents].
    now rewrite load_config_fallback. }
  split; [|split].
  - unfold list_agents. rewrite A. reflexivity.
  - intros rt username r. subst r. unfold analyze_profile.
    cbn [AnalysisRequest.username AnalysisRequest.agent].
    unfold analyze_github_profile.
    destruct (analysis_steps rt svc username "hackathon_recommender")
      as [[text p]|m] eqn:S; cbn [AnalysisResponse.agent AnalysisResponse.success].
    + split; [reflexivity|]. split; [|reflexivity]. intros _.
      apply analysis_steps_Ok in S. rewrite A in S.
      destruct S as (V & _ & G & C). now exists text, p.
    + split; [reflexivity|]. split; [discriminate|].
      intros (text & p & V & G & C).
      assert (S' : analysis_steps rt svc username "hackathon_recommender" = Ok (text, p)).
      { apply analysis_steps_Ok. rewrite A. repeat split; try assumption. discriminate. }
      congruence.
  - intros rt username other D V. unfold analyze_profile.
    cbn [AnalysisRequest.username AnalysisRequest.agent].
    rewrite (response_of_missing_agent rt svc username other _ V); [reflexivity|].
    rewrite A. unfold AgentConfig.default_agents. cbn [agents_get].
    destruct (String.eqb_spec "hackathon_recommender" other) as [E | _];
      [now elim D | reflexivity].
Qed.

Lemma X8_default_agent_after_failed_load_witness :
  let u := Sample.user "2019-06-03T00:00:00Z" 40 100 in
  let svc := AgentService_init (Unreadable "No such file or directory: 'agents.yaml'")
               (fun _ => Sample.replies u [] []) (Some (fun _ _ => GenText "Five ideas")) in
  list_agents svc = ["hackathon_recommender"]
  /\ AnalysisResponse.error
       (analyze_profile Sample.rt svc
          {| AnalysisRequest.username := "octocat";
             AnalysisRequest.agent := Some "mentor" |})
     = Some "Agent mentor not found in configuration".
Proof.
  intros u svc.
  destruct (X8_default_agent_after_failed_load
              (Unreadable "No such file or directory: 'agents.yaml'")
              (fun _ => Sample.replies u [] []) (Some (fun _ _ => GenText "Five ideas")))
    as (L & _ & H).
  { left. eexists. reflexivity. }
  split; [exact L|].
  apply (H Sample.rt "octocat" "mentor"); [discriminate | reflexivity].
Defined.

(** X9.  A configuration file that loads but has no [agents] key leaves the
    service without any agent: the agent list is empty and every request
    with an acceptable username, whatever agent it names, is answered "not
    found", the default agent included. *)
Theorem X9_no_agents_key_no_agent :
  forall (c : field (list (string * string))) (platform : string -> Replies)
         (generator : option (agent_config -> Profile.t -> generation))
         (rt : Runtime) (request : AnalysisRequest.t),
    let svc := AgentService_init (Mapping Absent c) platform generator in
    let r := analyze_profile rt svc request in
    list_agents svc = []
    /\ AnalysisResponse.success r = false
    /\ (validate_username (AnalysisRequest.username request)
        = Ok (PyStr.strip (AnalysisRequest.username request)) ->
        AnalysisResponse.error r
        = Some ("Agent "
                ++ match AnalysisRequest.agent request with
                   | Some a => a
                   | None => "hackathon_recommender"
                   end
                ++ " not found in configuration")).
Proof.
  intros c platform generator rt request svc r.
  split; [reflexivity|]. subst r. unfold analyze_profile. split.
  - destruct (validate_username (AnalysisRequest.username request)) as [n|m] eqn:V.
    + now rewrite (response_of_missing_agent rt svc _ _ n V eq_refl).
    + rewrite (response_of_Raise rt svc _ _ m); [reflexivity|].
      unfold analysis_steps. now rewrite V.
  - intros V. now rewrite (response_of_missing_agent rt svc _ _ _ V eq_refl).
Qed.

Lemma X9_no_agents_key_no_agent_witness :
  let u := Sample.user "2019-06-03T00:00:00Z" 40 100 in
  let svc := AgentService_init (Mapping Absent Absent)
               (fun _ => Sample.replies u [] []) (Some (fun _ _ => GenText "Five ideas")) in
  AnalysisResponse.error
    (analyze_profile Sample.rt svc
       {| AnalysisRequest.username := "octocat"; AnalysisRequest.agent := None |})
  = Some "Agent hackathon_recommender not found in configuration".
Proof.
  intros u svc.
  destruct (X9_no_agents_key_no_agent Absent (fun _ => Sample.replies u [] [])
              (Some (fun _ _ => GenText "Five ideas")) Sample.rt
              {| AnalysisRequest.username := "octocat"; AnalysisRequest.agent := None |})
    as (_ & _ & H).
  apply H. reflexivity.
Defined.

(* ===================================================================== *)
(** ** Counters and their most common keys *)
(* ===================================================================== *)

Lemma keys_of_Some (xs : list string) : keys_of Some xs = xs.
Proof.
  unfold keys_of. induction xs as [|x xs IH]; simpl; [reflexivity | now rewrite IH].
Qed.

Lemma Counter_spec (xs : list string) :
  Counter xs = map (fun k => (k, occurrences k xs)) (dict_fromkeys xs).
Proof.
  unfold Counter.
  change (fun (d : list (string * Z)) (x : string) => bump x 1 d)
    with (tally_step (@Some string) (fun _ : string => 1)).
  rewrite tally_spec, keys_of_Some. apply map_ext. intros k. f_equal.
  rewrite total_for_ones. unfold occurrences. apply count_if_ext.
  intros x. unfold has_key. apply String.eqb_sym.
Qed.

Lemma Counter_keys (xs : list string) : map fst (Counter xs) = dict_fromkeys xs.
Proof.
  rewrite Counter_spec, map_map. cbn [fst]. apply map_id.
Qed.

Lemma Counter_In (xs : list string) (k : string) (v : Z) :
  In (k, v) (Counter xs) <-> In k xs /\ v = occurrences k xs.
Proof.
  rewrite Counter_spec, in_map_iff. split.
  - intros (k' & E & H). injection E as -> <-.
    split; [now apply dict_fromkeys_In | reflexivity].
  - intros [H ->]. exists k. split; [reflexivity | now apply dict_fromkeys_In].
Qed.

Lemma insert_desc_sorted (x : string * Z) (l : list (string * Z)) :
  StronglySorted descending l -> StronglySorted descending (insert_desc x l).
Proof.
  induction l as [|y t IH]; intros S; simpl.
  - repeat constructor.
  - apply StronglySorted_inv in S. destruct S as [St Fy].
    destruct (Z.leb_spec (snd y) (snd x)) as [L | G].
    + constructor; [now constructor|]. constructor; [exact L|].
      rewrite Forall_forall in *. intros z Hz. specialize (Fy z Hz).
      unfold descending in *. lia.
    + constructor; [now apply IH|].
      rewrite Forall_forall in *. intros z Hz. apply insert_desc_In in Hz.
      destruct Hz as [-> | Hz]; [unfold descending; lia | now apply Fy].
Qed.

Lemma sorted_desc_sorted (l : list (string * Z)) : StronglySorted descending (sorted_desc l).
Proof.
  unfold sorted_desc. induction l as [|x l IH]; simpl.
  - constructor.
  - now apply insert_desc_sorted.
Qed.

Lemma sorted_split (l1 l2 : list (string * Z)) (a b : string * Z) :
  StronglySorted descending (l1 ++ l2) -> In a l1 -> In b l2 -> snd b <= snd a.
Proof.
  induction l1 as [|x l1 IH]; simpl; intros S Ha Hb.
  - contradiction.
  - apply StronglySorted_inv in S. destruct S as [S F].
    destruct Ha as [-> | Ha].
    + rewrite Forall_forall in F. apply (F b). apply in_or_app. now right.
    + now apply IH.
Qed.

Lemma NoDup_firstn {A : Type} (n : nat) (l : list A) : NoDup l -> NoDup (firstn n l).
Proof.
  intros H. rewrite <- (firstn_skipn n l) in H. now apply NoDup_app_remove_r in H.
Qed.

Section MostCommon.

Variables (n : nat) (xs : list string).

Lemma most_common_NoDup : NoDup (most_common n (Counter xs)).
Proof.
  unfold most_common. rewrite <- firstn_map. apply NoDup_firstn.
  apply (Permutation_NoDup (l := map fst (Counter xs))).
  - symmetry. apply Permutation_map, sorted_desc_perm.
  - rewrite Counter_keys. apply fresh_NoDup.
Qed.

Lemma most_common_In (k : string) :
  In k (most_common n (Counter xs))
  <-> In (k, occurrences k xs) (firstn n (sorted_desc (Counter xs))).
Proof.
  unfold most_common. rewrite in_map_iff. split.
  - intros ([k' v] & E & H). simpl in E. subst k'.
    assert (Hc : In (k, v) (Counter xs)).
    { apply In_firstn in H. now rewrite sorted_desc_In in H. }
    apply Counter_In in Hc. destruct Hc as [_ ->]. exact H.
  - intros H. now exists (k, occurrences k xs).
Qed.

Lemma most_common_incl (k : string) : In k (most_common n (Counter xs)) -> In k xs.
Proof.
  rewrite most_common_In. intros H. apply In_firstn in H.
  rewrite sorted_desc_In, Counter_In in H. tauto.
Qed.

Lemma most_common_top (k k' : string) :
  In k (most_common n (Counter xs)) ->
  In k' xs -> ~ In k' (most_common n (Counter xs)) ->
  occurrences k' xs <= occurrences k xs.
Proof.
  rewrite !most_common_In. intros Hk Hk' Hout.
  assert (Hs : In (k', occurrences k' xs) (sorted_desc (Counter xs))).
  { rewrite sorted_desc_In, Counter_In. tauto. }
  rewrite <- (firstn_skipn n (sorted_desc (Counter xs))) in Hs.
  apply in_app_or in Hs. destruct Hs as [Hs | Hs]; [contradiction|].
  apply (sorted_split (firstn n (sorted_desc (Counter xs)))
                      (skipn n (sorted_desc (Counter xs)))
                      (k, occurrences k xs) (k', occurrences k' xs));
    try assumption.
  rewrite firstn_skipn. apply sorted_desc_sorted.
Qed.

Lemma most_common_all (k : string) :
  (List.length (dict_fromkeys xs) <= n)%nat -> In k xs -> In k (most_common n (Counter xs)).
Proof.
  intros L H. rewrite most_common_In, firstn_all2.
  - rewrite sorted_desc_In, Counter_In. tauto.
  - rewrite (Permutation_length (sorted_desc_perm _)), <- (length_map fst), Counter_keys.
    exact L.
Qed.

End MostCommon.

Lemma repo_scan_all_topics (rt : Runtime) (repos : list Repo.t) (st : RepoScan.t) :
  RepoScan.all_topics (fold_left (repo_step rt) repos st)
  = (RepoScan.all_topics st ++ topics_of repos)%list.
Proof.
  revert st. induction repos as [|r repos IH]; intros st.
  - simpl. now rewrite app_nil_r.
  - cbn [fold_left]. rewrite IH. cbn [repo_step RepoScan.all_topics].
    unfold topics_of. cbn [flat_map]. now rewrite <- app_assoc.
Qed.

Lemma popular_topics_spec (rt : Runtime) (repos : list Repo.t) :
  RepositoryAnalysis.popular_topics (_analyze_repositories rt repos)
  = most_common 5 (Counter (topics_of repos)).
Proof.
  unfold _analyze_repositories, repo_scan. cbn [RepositoryAnalysis.popular_topics].
  now rewrite repo_scan_all_topics.
Qed.

(** X10.  The popular topics are the most frequent topic tags of the
    analysed repositories: each is a tag of one of them, none is listed
    twice, no tag left out occurs more often than a listed one, and with
    five distinct tags or fewer every tag is listed. *)
Theorem X10_popular_topics_are_most_frequent :
  forall (rt : Runtime) (repos : list Repo.t),
    let popular := RepositoryAnalysis.popular_topics (_analyze_repositories rt repos) in
    let tags := topics_of repos in
    NoDup popular
    /\ (forall t, In t popular ->
                  exists r ts, In r repos /\ Repo.topics r = Some ts /\ In t ts)
    /\ (forall t t', In t popular -> In t' tags -> ~ In t' popular ->
                     occurrences t' tags <= occurrences t tags)
    /\ ((List.length (dict_fromkeys tags) <= 5)%nat ->
        forall t, In t tags -> In t popular).
Proof.
  intros rt repos popular tags. subst popular. rewrite popular_topics_spec. fold tags.
  split; [apply most_common_NoDup|]. split; [|split].
  - intros t H. apply most_common_incl in H. subst tags. unfold topics_of in H.
    apply in_flat_map in H. destruct H as (r & Hr & Ht).
    destruct (Repo.topics r) as [ts|] eqn:E; [|contradiction].
    now exists r, ts.
  - intros t t'. apply most_common_top.
  - intros L t. now apply most_common_all.
Qed.

Lemma X10_popular_topics_are_most_frequent_witness :
  let tagged := fun ts =>
    {| Repo.name := "r"; Repo.description := None; Repo.language := None;
       Repo.stargazers_count := None; Repo.forks_count := None; Repo.size := None;
       Repo.topics := Some ts; Repo.updated_at := None; Repo.fork := None |} in
  let repos := [tagged ["cli"; "rust"]; tagged ["rust"; "wasm"]] in
  In "rust" (RepositoryAnalysis.popular_topics (_analyze_repositories Sample.rt repos))
  /\ occurrences "cli" (topics_of repos) <= occurrences "rust" (topics_of repos).
Proof.
  intros tagged repos.
  destruct (X10_popular_topics_are_most_frequent Sample.rt repos) as (_ & _ & _ & H).
  split.
  - apply H; [vm_compute; lia | right; left; reflexivity].
  - vm_compute. discriminate.
Defined.

Lemma topic_domains_labels (topic l : string) :
  In l (topic_domains topic) -> In l domain_labels.
Proof.
  unfold topic_domains, domain_labels. cbv zeta.
  destruct (str_in _ _); [simpl; intuition|].
  destruct (str_in _ _); [simpl; intuition|].
  destruct (str_in _ _); simpl; intuition.
Qed.

Lemma repo_domains_labels (repo : Repo.t) (l : string) :
  In l (repo_domains repo) -> In l domain_labels.
Proof.
  unfold repo_domains. cbv zeta. rewrite !in_app_iff, in_flat_map.
  unfold when, domain_labels.
  intros [H | [H | [H | [H | [H | [H | (t & _ & H)]]]]]];
    try (destruct (any_keyword _ _ _); simpl in H |- *; intuition).
  now apply topic_domains_labels in H.
Qed.

(** X11.  The preferred domains are drawn from the six domain labels, none
    twice, and are the most frequently matched ones among the first fifteen
    repositories: a label that is matched but left out was matched no more
    often than any listed one. *)
Theorem X11_preferred_domains :
  forall (repos : list Repo.t),
    let domains := _extract_project_domains repos in
    let matched := flat_map repo_domains (firstn 15 repos) in
    NoDup domains
    /\ (forall d, In d domains -> In d domain_labels /\ In d matched)
    /\ (forall d d', In d domains -> In d' matched -> ~ In d' domains ->
                     occurrences d' matched <= occurrences d matched)
    /\ (List.length domains <= 5)%nat.
Proof.
  intros repos domains matched. subst domains. unfold _extract_project_domains.
  fold matched. split; [apply most_common_NoDup|]. split; [|split].
  - intros d H. apply most_common_incl in H. split; [|exact H].
    subst matched. apply in_flat_map in H. destruct H as (r & _ & H).
    now apply repo_domains_labels in H.
  - intros d d'. apply most_common_top.
  - apply most_common_length.
Qed.

Lemma X11_preferred_domains_witness :
  In "Web Development" (_extract_project_domains [Sample.fullstack])
  /\ In "Web Development" domain_labels.
Proof.
  assert (H : In "Web Development" (_extract_project_domains [Sample.fullstack]))
    by (left; reflexivity).
  split; [exact H|].
  destruct (X11_preferred_domains [Sample.fullstack]) as (_ & L & _).
  exact (proj1 (L _ H)).
Defined.

(* ===================================================================== *)
(** ** Detected frameworks and project types *)
(* ===================================================================== *)

Lemma when_In (b : bool) (label l : string) : In l (when b label) <-> b = true /\ l = label.
Proof.
  unfold when. destruct b; simpl; intuition (try discriminate; auto).
Qed.

Lemma repo_scan_frameworks (rt : Runtime) (repos : list Repo.t) (st : RepoScan.t) (l : string) :
  In l (RepoScan.frameworks (fold_left (repo_step rt) repos st))
  <-> In l (RepoScan.frameworks st)
      \/ (l = "Frontend Framework"
          /\ exists r, In r repos /\ detects ["react"; "vue"; "angular"] r = true)
      \/ (l = "Backend Framework"
          /\ exists r, In r repos
                       /\ detects ["django"; "flask"; "fastapi"; "express"] r = true).
Proof.
  revert st. induction repos as [|r repos IH]; intros st.
  - simpl. split; [tauto|]. intros [H | [(_ & x & [] & _) | (_ & x & [] & _)]]. exact H.
  - cbn [fold_left]. rewrite IH. cbn [repo_step RepoScan.frameworks].
    rewrite !in_app_iff, !when_In. fold (detects ["react"; "vue"; "angular"] r).
    fold (detects ["django"; "flask"; "fastapi"; "express"] r).
    split.
    + intros [[H | [[D ->] | [D ->]]] | [(-> & x & Hx & D) | (-> & x & Hx & D)]].
      * now left.
      * right. left. split; [reflexivity|]. exists r. split; [now left | exact D].
      * right. right. split; [reflexivity|]. exists r. split; [now left | exact D].
      * right. left. split; [reflexivity|]. exists x. split; [now right | exact D].
      * right. right. split; [reflexivity|]. exists x. split; [now right | exact D].
    + intros [H | [(-> & x & [<- | Hx] & D) | (-> & x & [<- | Hx] & D)]].
      * left. now left.
      * left. right. left. now split.
      * right. left. split; [reflexivity|]. now exists x.
      * left. right. right. now split.
      * right. right. split; [reflexivity|]. now exists x.
Qed.

Lemma repo_scan_project_types (rt : Runtime) (repos : list Repo.t) (st : RepoScan.t)
    (l : string) :
  In l (RepoScan.project_types (fold_left (repo_step rt) repos st)) ->
  In l (RepoScan.project_types st)
  \/ In l ["AI/ML"; "API Development"; "Mobile Development"].
Proof.
  revert st. induction repos as [|r repos IH]; intros st.
  - simpl. tauto.
  - cbn [fold_left]. intros H. apply IH in H. destruct H as [H | H]; [|now right].
    cbn [repo_step RepoScan.project_types] in H.
    rewrite !in_app_iff, !when_In in H.
    destruct H as [H | [[_ ->] | [[_ ->] | [_ ->]]]]; simpl; tauto.
Qed.

(** X12.  Under the contract of set iteration, [frameworks_used] lists
    "Frontend Framework" exactly when the lower-cased name or description of
    some analysed repository contains react, vue or angular, and "Backend
    Framework" exactly when one contains django, flask, fastapi or express;
    it lists nothing else and nothing twice, so it has at most two entries,
    and [project_types] at most three, however many repositories match. *)
Theorem X12_detected_labels :
  forall (rt : Runtime) (repos : list Repo.t),
    set_order_ok (list_of_set rt) ->
    let a := _analyze_repositories rt repos in
    (forall l, In l (RepositoryAnalysis.frameworks_used a)
               <-> (l = "Frontend Framework"
                    /\ exists r, In r repos
                                 /\ detects ["react"; "vue"; "angular"] r = true)
                   \/ (l = "Backend Framework"
                       /\ exists r, In r repos
                                    /\ detects ["django"; "flask"; "fastapi"; "express"] r
                                       = true))
    /\ NoDup (RepositoryAnalysis.frameworks_used a)
    /\ (List.length (RepositoryAnalysis.frameworks_used a) <= 2)%nat
    /\ NoDup (RepositoryAnalysis.project_types a)
    /\ (List.length (RepositoryAnalysis.project_types a) <= 3)%nat.
Proof.
  intros rt repos Hset a. subst a. unfold _analyze_repositories, repo_scan.
  cbn [RepositoryAnalysis.frameworks_used RepositoryAnalysis.project_types].
  set (fw := RepoScan.frameworks _). set (pt := RepoScan.project_types _).
  destruct (Hset fw) as [Nf If]. destruct (Hset pt) as [Np Ip].
  assert (F : forall l, In l (list_of_set rt fw)
              <-> (l = "Frontend Framework"
                   /\ exists r, In r repos /\ detects ["react"; "vue"; "angular"] r = true)
                  \/ (l = "Backend Framework"
                      /\ exists r, In r repos
                                   /\ detects ["django"; "flask"; "fastapi"; "express"] r
                                      = true)).
  { intros l. rewrite If. subst fw. rewrite repo_scan_frameworks. simpl. tauto. }
  split; [exact F|]. split; [exact Nf|]. split; [|split; [exact Np|]].
  - apply (NoDup_incl_length (l' := ["Frontend Framework"; "Backend Framework"]) Nf).
    intros l H. apply F in H. simpl. destruct H as [[-> _] | [-> _]]; tauto.
  - apply (NoDup_incl_length
             (l' := ["AI/ML"; "API Development"; "Mobile Development"]) Np).
    intros l H. apply Ip in H. subst pt. apply repo_scan_project_types in H.
    destruct H as [[] | H]. exact H.
Qed.

Lemma X12_detected_labels_witness :
  set_order_ok (list_of_set Sample.rt)
  /\ In "Backend Framework"
        (RepositoryAnalysis.frameworks_used
           (_analyze_repositories Sample.rt [Sample.plain 1 false; Sample.fullstack])).
Proof.
  split; [exact dict_fromkeys_order_ok|].
  destruct (X12_detected_labels Sample.rt [Sample.plain 1 false; Sample.fullstack]
              dict_fromkeys_order_ok) as (H & _).
  apply H. right. split; [reflexivity|].
  exists Sample.fullstack. split; [right; left; reflexivity | reflexivity].
Defined.

(* ===================================================================== *)
(** ** The counters and labels of the activity analysis *)
(* ===================================================================== *)

Lemma push_pr_disjoint (e : Event.t) : is_push e && is_pr_or_issue e = false.
Proof.
  unfold is_push, is_pr_or_issue. destruct (Event.type e) as [ty|]; [|reflexivity].
  destruct (String.eqb_spec ty "PushEvent") as [-> | _]; reflexivity.
Qed.

Lemma window_counts_bounds (rt : Runtime) (events : list Event.t) :
  count_if (fun e => in_window rt e && is_push e) events
  + count_if (fun e => in_window rt e && is_pr_or_issue e) events
  <= count_if (in_window rt) events.
Proof.
  induction events as [|e events IH].
  - rewrite !count_if_nil. lia.
  - rewrite !count_if_cons. pose proof (push_pr_disjoint e) as D.
    destruct (in_window rt e), (is_push e), (is_pr_or_issue e);
      cbn [andb] in *; try discriminate D; lia.
Qed.

(** X13.  The three counters of the event loop are ordered: push events
    and pull-request or issue events are disjoint parts of the recent
    events, which are at most all the events; an event in the window whose
    type is missing or of another kind is counted as recent only.  So the
    score is at most three times the number of events. *)
Theorem X13_event_counters :
  forall (rt : Runtime) (events : list Event.t) (repos : list Repo.t),
    let st := event_scan rt events in
    0 <= EventScan.push_events st
    /\ 0 <= EventScan.pr_events st
    /\ EventScan.push_events st + EventScan.pr_events st <= EventScan.recent_events st
    /\ EventScan.recent_events st <= Z.of_nat (List.length events)
    /\ ActivityAnalysis.recent_activity_score (_analyze_activity_patterns rt events repos)
       <= 3 * Z.of_nat (List.length events).
Proof.
  intros rt events repos st. subst st. rewrite event_scan_counts.
  cbn [EventScan.push_events EventScan.pr_events EventScan.recent_events].
  pose proof (count_if_le_length (in_window rt) events) as L.
  split; [apply count_if_nonneg|]. split; [apply count_if_nonneg|].
  split; [apply window_counts_bounds|]. split; [exact L|].
  destruct events as [|e events]; [simpl; lia|].
  unfold _analyze_activity_patterns. cbn [ActivityAnalysis.recent_activity_score].
  rewrite event_scan_counts. cbn [EventScan.recent_events]. unfold activity_score_of. lia.
Qed.

Lemma count_if_none {A : Type} (p : A -> bool) (xs : list A) :
  (forall x, In x xs -> p x = false) -> count_if p xs = 0.
Proof.
  induction xs as [|x xs IH]; intros H.
  - reflexivity.
  - rewrite count_if_cons, (H x (or_introl eq_refl)), IH; [reflexivity|].
    intros y Hy. apply H. now right.
Qed.

(** X14.  Having no event and having only events outside the window are
    told apart: with an empty event list the analysis is the default record
    and the tier is "moderate", while with a non-empty list none of whose
    events is recent (too old, or with a missing or malformed timestamp) the
    score is 0 as well but the tier is "low". *)
Theorem X14_no_events_versus_stale_events :
  forall (rt : Runtime) (events : list Event.t) (repos : list Repo.t),
    events <> [] ->
    (forall e, In e events -> in_window rt e = false) ->
    _analyze_activity_patterns rt events repos
    = {| ActivityAnalysis.recent_activity_score := 0;
         ActivityAnalysis.activity_type := "low";
         ActivityAnalysis.preferred_days := [];
         ActivityAnalysis.commit_frequency := "weekly";
         ActivityAnalysis.collaboration_level := "individual" |}
    /\ _analyze_activity_patterns rt [] repos
       = {| ActivityAnalysis.recent_activity_score := 0;
            ActivityAnalysis.activity_type := "moderate";
            ActivityAnalysis.preferred_days := [];
            ActivityAnalysis.commit_frequency := "weekly";
            ActivityAnalysis.collaboration_level := "individual" |}.
Proof.
  intros rt events repos Hne Hold. split; [|reflexivity].
  destruct events as [|e events]; [contradiction|].
  unfold _analyze_activity_patterns. rewrite event_scan_counts.
  cbn [EventScan.recent_events EventScan.push_events EventScan.pr_events].
  rewrite (count_if_none (in_window rt)) by exact Hold.
  rewrite !count_if_none; [reflexivity | |];
    intros x Hx; now rewrite (Hold x Hx).
Qed.

Lemma X14_no_events_versus_stale_events_witness :
  let events := [Sample.event "PushEvent" "2023-01-01T00:00:00Z";
                 Sample.event "PushEvent" "not a timestamp"] in
  ActivityAnalysis.activity_type (_analyze_activity_patterns Sample.rt events []) = "low".
Proof.
  intros events.
  destruct (X14_no_events_versus_stale_events Sample.rt events []) as [H _].
  - discriminate.
  - intros e [<- | [<- | []]]; reflexivity.
  - now rewrite H.
Defined.

Lemma busy_integers (push pr : Z) :
  (inject_Z push * (3 # 10) < inject_Z pr)%Q <-> 3 * push < 10 * pr.
Proof.
  unfold Qlt, Qmult, inject_Z. cbn [Qnum Qden]. lia.
Qed.

(** X15.  For a non-empty event list the labels follow from the score and
    from whole numbers: the tier is "very_active" exactly when the score is
    above 60, "active" when it is above 30, "moderate" when it is above 9,
    else "low"; the collaboration level is "collaborative" exactly when
    10 * pr_events > 3 * push_events, "individual" exactly when no
    pull-request or issue event is recent, and "mixed" needs at least four
    recent push events. *)
Theorem X15_activity_labels_in_integers :
  forall (rt : Runtime) (events : list Event.t) (repos : list Repo.t),
    events <> [] ->
    let a := _analyze_activity_patterns rt events repos in
    let score := ActivityAnalysis.recent_activity_score a in
    let tier := ActivityAnalysis.activity_type a in
    let level := ActivityAnalysis.collaboration_level a in
    let push_events := EventScan.push_events (event_scan rt events) in
    let pr_events := EventScan.pr_events (event_scan rt events) in
    (tier = "very_active" <-> 60 < score)
    /\ (tier = "active" <-> 30 < score <= 60)
    /\ (tier = "moderate" <-> 9 < score <= 30)
    /\ (tier = "low" <-> score <= 9)
    /\ (level = "collaborative" <-> 3 * push_events < 10 * pr_events)
    /\ (level = "individual" <-> pr_events = 0)
    /\ (level = "mixed" -> 4 <= push_events).
Proof.
  intros rt events repos Hne a score tier level push pr.
  destruct events as [|e events]; [contradiction|].
  subst a score tier level push pr. unfold _analyze_activity_patterns.
  cbn [ActivityAnalysis.recent_activity_score ActivityAnalysis.activity_type
       ActivityAnalysis.collaboration_level].
  pose proof (X := window_counts_bounds rt (e :: events)).
  rewrite event_scan_counts in *.
  cbn [EventScan.recent_events EventScan.push_events EventScan.pr_events] in *.
  pose proof (count_if_nonneg (in_window rt) (e :: events)) as Hn.
  pose proof (count_if_nonneg (fun e => in_window rt e && is_push e) (e :: events)) as Hp.
  pose proof (count_if_nonneg (fun e => in_window rt e && is_pr_or_issue e)
                              (e :: events)) as Hq.
  set (n := count_if (in_window rt) (e :: events)) in *.
  set (push := count_if (fun e => in_window rt e && is_push e) (e :: events)) in *.
  set (pr := count_if (fun e => in_window rt e && is_pr_or_issue e) (e :: events)) in *.
  unfold activity_score_of, activity_type_of, collaboration_level_of.
  split; [|split; [|split; [|split]]].
  1-4: destruct (Z.ltb_spec 20 n), (Z.ltb_spec 10 n), (Z.ltb_spec 3 n);
       split; intros E; try discriminate E; try reflexivity; lia.
  destruct (Qgtb (inject_Z pr) (inject_Z push * (3 # 10))) eqn:B;
    [apply Qgtb_true, busy_integers in B
    | apply Qgtb_false in B;
      assert (B' : ~ 3 * push < 10 * pr)
        by (rewrite <- busy_integers; now apply Qle_not_lt)];
  destruct (Z.ltb_spec 0 pr); repeat split; intros E;
    try discriminate E; try reflexivity; lia.
Qed.

Lemma X15_activity_labels_in_integers_witness :
  let events := [Sample.event "PushEvent" "2024-05-30T12:00:00Z";
                 Sample.event "WatchEvent" "2024-05-29T12:00:00Z"] in
  ActivityAnalysis.collaboration_level (_analyze_activity_patterns Sample.rt events [])
  = "individual".
Proof.
  intros events.
  destruct (X15_activity_labels_in_integers Sample.rt events [])
    as (_ & _ & _ & _ & _ & H & _).
  - discriminate.
  - apply H. reflexivity.
Defined.

(* ===================================================================== *)
(** ** The collaboration style in whole numbers; order of the records *)
(* ===================================================================== *)

Lemma mostly_forks_integers (forked original : Z) :
  (inject_Z original * (5 # 10) < inject_Z forked)%Q <-> original < 2 * forked.
Proof.
  unfold Qlt, Qmult, inject_Z. cbn [Qnum Qden]. lia.
Qed.

(** X16.  The fork test compares the forks with half of the other
    repositories, so the style is "collaborative" exactly when more than a
    third of the repositories are forks or more than five events are fork,
    pull-request or issue events; it is "independent" exactly when no
    repository is a fork and there is no such event; otherwise "mixed". *)
Theorem X16_collaboration_style_in_integers :
  forall (repos : list Repo.t) (events : list Event.t),
    let forked := count_if is_fork repos in
    let collab := count_if is_collab_event events in
    let style := _analyze_collaboration_style repos events in
    (style = "collaborative"
     <-> Z.of_nat (List.length repos) < 3 * forked \/ 5 < collab)
    /\ (style = "independent" <-> forked = 0 /\ collab = 0)
    /\ (style = "mixed"
        <-> 0 < forked + collab
            /\ 3 * forked <= Z.of_nat (List.length repos) /\ collab <= 5).
Proof.
  intros repos events forked collab style.
  pose proof (count_if_nonneg is_fork repos) as Hf.
  pose proof (count_if_le_length is_fork repos) as Hl.
  pose proof (count_if_nonneg is_collab_event events) as Hc.
  subst style. unfold _analyze_collaboration_style, collaboration_style_of.
  cbv zeta. fold forked. fold collab.
  destruct (Qgtb (inject_Z forked)
                 (inject_Z (Z.of_nat (List.length repos) - forked) * (5 # 10))) eqn:A;
    [apply Qgtb_true, mostly_forks_integers in A
    | apply Qgtb_false in A;
      assert (A' : ~ Z.of_nat (List.length repos) - forked < 2 * forked)
        by (rewrite <- mostly_forks_integers; now apply Qle_not_lt)];
  destruct (Z.ltb_spec 5 collab), (Z.ltb_spec 0 forked), (Z.ltb_spec 0 collab);
    cbn [orb]; (split; [|split]);
    (split; intros E;
     [try discriminate E; lia | first [reflexivity | exfalso; lia]]).
Qed.






(* ===================================================================== *)
(** ** Bounds of the expertise score *)
(* ===================================================================== *)

Lemma account_age_le_30 (rt : Runtime) (user_data : User.t) :
  account_age_factor rt user_data <= 30.
Proof.
  unfold account_age_factor.
  destruct (User.created_at user_data) as [| |s]; try lia.
  destruct (parse_timestamp rt s) as [created|]; try lia.
  destruct (account_days rt created) as [days|]; try lia.
  unfold age_points. lia.
Qed.

Lemma inject_Z_le (a b : Z) : a <= b -> (inject_Z a <= inject_Z b)%Q.
Proof. intros H. now rewrite <- Zle_Qle. Qed.

(** X18.  Each of the five factors is capped from above, so the expertise
    score of a profile never exceeds 100 (30 + 25 + 20 + 15 + 10), whatever
    the raw records hold; the activity factor is between 0 and 15. *)
Theorem X18_expertise_score_at_most_100 :
  forall (rt : Runtime) (user_data : User.t) (repos_data : list Repo.t)
         (events_data : list Event.t),
    let activity_analysis := _analyze_activity_patterns rt events_data repos_data in
    let f := expertise_factors rt user_data repos_data activity_analysis in
    Factors.account_age f <= 30
    /\ Factors.repo_count f <= 25
    /\ (Factors.followers f <= 20)%Q
    /\ (0 <= Factors.activity f)%Q /\ (Factors.activity f <= 15)%Q
    /\ Factors.complexity f <= 10
    /\ (Factors.total f <= 100)%Q.
Proof.
  intros rt user_data repos_data events_data activity_analysis f.
  pose proof (activity_score_in_range rt events_data repos_data) as [S0 S1].
  fold activity_analysis in S0, S1.
  assert (A : Factors.account_age f <= 30) by apply account_age_le_30.
  assert (R : Factors.repo_count f <= 25) by (cbn; lia).
  assert (Fo : (Factors.followers f <= 20)%Q) by apply Q.le_min_r.
  assert (C : Factors.complexity f <= 10) by (cbn; lia).
  assert (Ac : (0 <= Factors.activity f)%Q /\ (Factors.activity f <= 15)%Q).
  { subst f. cbn [expertise_factors Factors.activity].
    apply inject_Z_le in S0, S1.
    set (s := inject_Z (ActivityAnalysis.recent_activity_score activity_analysis)) in *.
    change (inject_Z 0) with 0%Q in S0. change (inject_Z 100) with 100%Q in S1.
    split; lra. }
  repeat split; try assumption; try apply Ac.
  unfold Factors.total. apply inject_Z_le in A, R, C.
  change (inject_Z 30) with 30%Q in A. change (inject_Z 25) with 25%Q in R.
  change (inject_Z 10) with 10%Q in C. destruct Ac as [_ Ac]. lra.
Qed.

(** X19.  An account that is at least three years old (1095 days) with at
    least 13 public repositories and 40 followers is an "expert" whatever
    its events are, provided the stars of its first ten repositories do not
    sum to a negative number: the three saturated factors alone give 75. *)
Theorem X19_saturated_account_is_expert :
  forall (rt : Runtime) (username : string) (user_data : User.t)
         (repos_data : list Repo.t) (events_data : list Event.t)
         (s : string) (created : datetime) (public_repos followers : Z),
    User.created_at user_data = Val s ->
    parse_timestamp rt s = Some created ->
    1095 <= (now rt - wall created) / day_us ->
    User.public_repos user_data = Some public_repos -> 13 <= public_repos ->
    User.followers user_data = Some followers -> 40 <= followers ->
    0 <= Zsum (map (fun r => or_zero (Repo.stargazers_count r)) (firstn 10 repos_data)) ->
    Profile.expertise_level (analyze rt username user_data repos_data events_data)
    = "expert".
Proof.
  intros rt username user_data repos_data events_data s created public_repos followers
         Hc Hp Hdays Hr Hr13 Hf Hf40 Hstars.
  unfold analyze. cbn [Profile.expertise_level].
  unfold _calculate_expertise_level.
  apply (proj1 (expertise_tier_cases _)).
  pose proof (activity_score_in_range rt events_data repos_data) as [S0 _].
  unfold Factors.total, expertise_factors.
  cbn [Factors.account_age Factors.repo_count Factors.followers Factors.activity
       Factors.complexity].
  rewrite (account_age_parsed rt user_data s created Hc Hp), Hr, Hf, py_int_fifth,
    sum_stars_Zsum.
  cbn [or_zero].
  set (d := (now rt - wall created) / day_us) in *.
  assert (Hage : Z.min (Z.quot (d * 10) 365) 30 = 30).
  { rewrite Z.quot_div_nonneg by lia.
    assert (30 <= d * 10 / 365) by (apply Z.div_le_lower_bound; lia). lia. }
  assert (Hrepo : Z.min (public_repos * 2) 25 = 25) by lia.
  assert (Hfol : (Qmin (inject_Z followers * (5 # 10)) 20 == 20)%Q).
  { apply Q.min_r. apply inject_Z_le in Hf40.
    change (inject_Z 40) with 40%Q in Hf40. lra. }
  rewrite Hage, Hrepo, Hfol.
  set (stars := Zsum _) in *.
  assert (Hcx : 0 <= Z.min (Z.quot stars 5) 10).
  { apply Z.min_glb; [|lia]. apply Z.quot_pos; lia. }
  apply inject_Z_le in S0, Hcx.
  change (inject_Z 0) with 0%Q in S0, Hcx.
  change (inject_Z 30) with 30%Q. change (inject_Z 25) with 25%Q.
  lra.
Qed.

Lemma X19_saturated_account_is_expert_witness :
  Profile.expertise_level
    (analyze Sample.rt "octocat" (Sample.user "2019-06-03T00:00:00Z" 13 40) [] [])
  = "expert".
Proof.
  apply (X19_saturated_account_is_expert Sample.rt "octocat"
           (Sample.user "2019-06-03T00:00:00Z" 13 40) [] []
           "2019-06-03T00:00:00Z" {| wall := 63695116800000000; tzinfo := Some 0 |}
           13 40); try reflexivity; vm_compute; discriminate.
Defined.

(* ===================================================================== *)
(** ** The language list: few languages, and its head *)
(* ===================================================================== *)

Lemma fresh_app (l1 l2 seen : list string) :
  fresh seen (l1 ++ l2) = (fresh seen l1 ++ fresh (l1 ++ seen) l2)%list.
Proof.
  revert seen. induction l1 as [|x t IH]; intros seen.
  - reflexivity.
  - cbn [app fresh]. destruct (str_in x seen) eqn:S.
    + rewrite IH. f_equal. apply fresh_ext. intros y. cbn [In].
      apply str_in_In in S. rewrite in_app_iff. split; [tauto|].
      intros [-> | H]; [now right | exact H].
    + cbn [app]. rewrite IH. f_equal. f_equal. apply fresh_ext. intros y.
      cbn [In]. rewrite !in_app_iff. cbn [In]. tauto.
Qed.

Lemma fresh_id (l seen : list string) :
  NoDup l -> (forall x, In x l -> ~ In x seen) -> fresh seen l = l.
Proof.
  revert seen. induction l as [|x t IH]; intros seen ND H.
  - reflexivity.
  - inversion ND as [|? ? Hx ND']; subst. cbn [fresh].
    assert (S : str_in x seen = false).
    { apply not_true_iff_false. rewrite str_in_In. apply H. now left. }
    rewrite S. f_equal. apply IH; [exact ND'|].
    intros y Hy [<- | Hs]; [contradiction|]. apply (H y); [now right | exact Hs].
Qed.

Lemma fresh_nil (l seen : list string) :
  (forall x, In x l -> In x seen) -> fresh seen l = [].
Proof.
  induction l as [|x t IH]; intros H.
  - reflexivity.
  - cbn [fresh]. rewrite (proj2 (str_in_In x seen)) by (apply H; now left).
    apply IH. intros y Hy. apply H. now right.
Qed.

Lemma dict_fromkeys_absorb (l1 l2 : list string) :
  NoDup l1 -> (forall x, In x l2 -> In x l1) -> dict_fromkeys (l1 ++ l2) = l1.
Proof.
  intros ND H. unfold dict_fromkeys. rewrite fresh_app.
  rewrite fresh_id by (try assumption; intros x _ []).
  rewrite fresh_nil; [apply app_nil_r|].
  intros x Hx. apply in_or_app. left. now apply H.
Qed.

Section Ranked.

Variables (score : string -> Z) (langs : list string).

Let entries : list (string * Z) := map (fun l => (l, score l)) langs.

Lemma entries_keys : map fst entries = langs.
Proof. unfold entries. rewrite map_map. apply map_id. Qed.

Lemma ranked_NoDup : NoDup langs -> NoDup (SpecWords.ranked score langs).
Proof.
  intros ND. unfold SpecWords.ranked. fold entries.
  rewrite <- firstn_map. apply NoDup_firstn.
  apply (Permutation_NoDup (l := map fst entries)).
  - symmetry. apply Permutation_map, sorted_desc_perm.
  - now rewrite entries_keys.
Qed.

Lemma ranked_all : (List.length langs <= 8)%nat ->
  SpecWords.ranked score langs = map fst (sorted_desc entries).
Proof.
  intros L. unfold SpecWords.ranked. fold entries. rewrite firstn_all2; [reflexivity|].
  rewrite (Permutation_length (sorted_desc_perm _)). unfold entries.
  now rewrite length_map.
Qed.

Lemma ranked_perm : (List.length langs <= 8)%nat ->
  Permutation (SpecWords.ranked score langs) langs.
Proof.
  intros L. rewrite ranked_all by exact L.
  apply perm_trans with (map fst entries).
  - apply Permutation_map, sorted_desc_perm.
  - now rewrite entries_keys.
Qed.

Lemma sorted_keys_descending (ps : list (string * Z)) :
  StronglySorted descending ps ->
  (forall p, In p ps -> snd p = score (fst p)) ->
  StronglySorted (fun a b => score b <= score a) (map fst ps).
Proof.
  induction ps as [|p ps IH]; intros S H; simpl.
  - constructor.
  - apply StronglySorted_inv in S. destruct S as [S F]. constructor.
    + apply IH; [exact S|]. intros q Hq. apply H. now right.
    + rewrite Forall_forall in *. intros k Hk. apply in_map_iff in Hk.
      destruct Hk as (q & <- & Hq). specialize (F q Hq). unfold descending in F.
      rewrite <- (H p (or_introl eq_refl)), <- (H q (or_intror Hq)). exact F.
Qed.

Lemma entries_scores (p : string * Z) : In p (sorted_desc entries) -> snd p = score (fst p).
Proof.
  rewrite sorted_desc_In. unfold entries. rewrite in_map_iff.
  intros (l & <- & _). reflexivity.
Qed.

Lemma ranked_head (l : string) (rest : list string) (l' : string) :
  SpecWords.ranked score langs = l :: rest -> In l' langs -> score l' <= score l.
Proof.
  unfold SpecWords.ranked. fold entries. intros E Hl'.
  pose proof (sorted_desc_sorted entries) as S.
  assert (Hin : In (l', score l') (sorted_desc entries)).
  { rewrite sorted_desc_In. unfold entries. apply in_map_iff. now exists l'. }
  pose proof entries_scores as Sc.
  destruct (sorted_desc entries) as [|p ps]; [contradiction|].
  cbn [firstn map] in E. injection E as <- _.
  apply StronglySorted_inv in S. destruct S as [_ F].
  rewrite <- (Sc p (or_introl eq_refl)).
  destruct Hin as [-> | Hin]; [cbn; lia|].
  rewrite Forall_forall in F. apply (F _ Hin).
Qed.

End Ranked.

Lemma languages_seen_NoDup (repos : list Repo.t) : NoDup (SpecWords.languages_seen repos).
Proof. apply fresh_NoDup. Qed.

Lemma languages_seen_In (repos : list Repo.t) (l : string) :
  In l (SpecWords.languages_seen repos)
  <-> exists r, In r repos /\ language_of r = Some l.
Proof.
  unfold SpecWords.languages_seen. rewrite dict_fromkeys_In, in_flat_map. split.
  - intros (r & Hr & H). exists r. split; [exact Hr|].
    destruct (language_of r) as [l'|]; [|contradiction].
    destruct H as [-> | []]. reflexivity.
  - intros (r & Hr & E). exists r. split; [exact Hr|]. rewrite E. now left.
Qed.

(** X20.  With at most eight distinct languages, the language list is just
    the languages ordered by descending total weight: the ranking by
    repository count adds nothing and changes no position, every language
    is listed once, and [technology_diversity] is the number of distinct
    languages. *)
Theorem X20_few_languages_weight_order :
  forall (repos_data : list Repo.t),
    (List.length (SpecWords.languages_seen repos_data) <= 8)%nat ->
    all_languages repos_data
    = SpecWords.ranked (SpecWords.total_weight repos_data)
                       (SpecWords.languages_seen repos_data)
    /\ Permutation (all_languages repos_data) (SpecWords.languages_seen repos_data)
    /\ StronglySorted (fun a b => SpecWords.total_weight repos_data b
                                  <= SpecWords.total_weight repos_data a)
                      (all_languages repos_data)
    /\ (forall rt username user_data events_data,
           Profile.technology_diversity
             (analyze rt username user_data repos_data events_data)
           = Z.of_nat (List.length (SpecWords.languages_seen repos_data))).
Proof.
  intros repos L.
  set (seen := SpecWords.languages_seen repos) in *.
  set (tw := SpecWords.total_weight repos).
  assert (E : all_languages repos = SpecWords.ranked tw seen).
  { rewrite all_languages_spec. unfold SpecWords.top_languages. fold seen. fold tw.
    rewrite dict_fromkeys_absorb.
    - apply firstn_all2.
      rewrite (Permutation_length (ranked_perm tw seen L)). lia.
    - apply ranked_NoDup, languages_seen_NoDup.
    - intros x Hx. apply ranked_In in Hx.
      apply (Permutation_in _ (Permutation_sym (ranked_perm tw seen L))). exact Hx. }
  assert (P : Permutation (all_languages repos) seen)
    by (rewrite E; now apply ranked_perm).
  split; [exact E|]. split; [exact P|]. split.
  - rewrite E, ranked_all by exact L.
    apply sorted_keys_descending; [apply sorted_desc_sorted | apply entries_scores].
  - intros rt username user_data events_data. unfold analyze.
    cbn [Profile.technology_diversity]. now rewrite (Permutation_length P).
Qed.

Lemma X20_few_languages_weight_order_witness :
  let repos := [Sample.plain 0 false; Sample.fullstack; Sample.plain 1 true] in
  all_languages repos = ["Python"; "Go"].
Proof.
  intros repos.
  destruct (X20_few_languages_weight_order repos) as (E & _).
  - vm_compute. lia.
  - rewrite E. reflexivity.
Defined.

(** X21.  Whenever the language list is not empty, its first entry is a
    language of maximal total weight among the languages of all the
    repositories; and the list is empty exactly when no repository has a
    non-empty language. *)
Theorem X21_first_language_has_top_weight :
  forall (repos_data : list Repo.t),
    (forall l rest l',
        all_languages repos_data = l :: rest ->
        (exists r, In r repos_data /\ language_of r = Some l') ->
        SpecWords.total_weight repos_data l' <= SpecWords.total_weight repos_data l)
    /\ (all_languages repos_data = []
        <-> forall r, In r repos_data -> language_of r = None).
Proof.
  intros repos.
  set (seen := SpecWords.languages_seen repos).
  set (tw := SpecWords.total_weight repos).
  set (Rw := SpecWords.ranked tw seen).
  set (Rc := SpecWords.ranked (SpecWords.repo_count repos) seen).
  assert (E : all_languages repos = firstn 10 (dict_fromkeys (Rw ++ Rc)))
    by apply all_languages_spec.
  assert (Hnil : seen = [] -> all_languages repos = []).
  { intros S. rewrite E. subst Rw Rc. rewrite S. reflexivity. }
  assert (Hhead : forall l0 t, Rw = l0 :: t ->
                               exists t', all_languages repos = l0 :: t').
  { intros l0 t R. rewrite E, R. cbn. eauto. }
  assert (Hcons : forall l0 s, seen = l0 :: s -> exists l1 t, Rw = l1 :: t).
  { intros l0 s S. subst Rw. unfold SpecWords.ranked.
    pose proof (sorted_desc_perm (map (fun l => (l, tw l)) seen)) as P.
    rewrite S in *. cbn [map] in *.
    destruct (sorted_desc _) as [|p ps].
    - apply Permutation_nil in P. discriminate P.
    - cbn. eauto. }
  split.
  - intros l rest l' A (r & Hr & Hl').
    assert (Hs : In l' seen) by (apply languages_seen_In; eauto).
    destruct seen as [|l0 s] eqn:S; [contradiction|].
    destruct (Hcons l0 s eq_refl) as (l1 & t & R).
    destruct (Hhead l1 t R) as (t' & A'). rewrite A in A'. injection A' as -> _.
    apply (ranked_head tw (l0 :: s) l1 t l' R Hs).
  - split.
    + intros A r Hr. destruct (language_of r) as [l|] eqn:L; [|reflexivity].
      assert (Hs : In l seen) by (apply languages_seen_In; eauto).
      destruct seen as [|l0 s] eqn:S; [contradiction|].
      destruct (Hcons l0 s eq_refl) as (l1 & t & R).
      destruct (Hhead l1 t R) as (t' & A'). congruence.
    + intros H. apply Hnil. destruct seen as [|l0 s] eqn:S; [reflexivity|].
      assert (Hs : In l0 seen) by (rewrite S; now left).
      apply languages_seen_In in Hs. destruct Hs as (r & Hr & L).
      rewrite (H r Hr) in L. discriminate L.
Qed.

Lemma X21_first_language_has_top_weight_witness :
  let repos := [Sample.plain 0 false; Sample.fullstack; Sample.plain 1 true] in
  SpecWords.total_weight repos "Go" <= SpecWords.total_weight repos "Python".
Proof.
  intros repos.
  destruct (X21_first_language_has_top_weight repos) as [H _].
  apply (H "Python" ["Go"] "Go"); [reflexivity|].
  exists (Sample.plain 0 false). split; [now left | reflexivity].
Defined.

(* ===================================================================== *)
(** ** What the profile reads of a long repository list; its labels *)
(* ===================================================================== *)

Lemma firstn_app_long {A : Type} (n : nat) (l extra : list A) :
  (n <= List.length l)%nat -> firstn n (l ++ extra) = firstn n l.
Proof.
  intros H. rewrite firstn_app.
  replace (n - List.length l)%nat with 0%nat by lia.
  cbn [firstn]. apply app_nil_r.
Qed.

(** X22.  Repositories beyond the caps are not read: appending repositories
    to a list of at least 20 changes nothing in [repo_analysis] (totals,
    complexity, topics, frameworks, project types, recent-activity flag) nor
    in [project_complexity_preference]; to a list of at least 15, nothing in
    the preferred domains; of at least 10, nothing in the expertise level;
    of at least 5, nothing in [recent_repos].  The repository count does
    count them all. *)
Theorem X22_repositories_beyond_the_caps :
  forall (rt : Runtime) (username : string) (user_data : User.t)
         (repos extra : list Repo.t) (events : list Event.t),
    let p := analyze rt username user_data repos events in
    let p' := analyze rt username user_data (repos ++ extra) events in
    ((20 <= List.length repos)%nat ->
     Profile.repo_analysis p' = Profile.repo_analysis p
     /\ Profile.project_complexity_preference p' = Profile.project_complexity_preference p)
    /\ ((15 <= List.length repos)%nat ->
        Profile.preferred_domains p' = Profile.preferred_domains p)
    /\ ((10 <= List.length repos)%nat ->
        Profile.expertise_level p' = Profile.expertise_level p)
    /\ ((5 <= List.length repos)%nat -> Profile.recent_repos p' = Profile.recent_repos p)
    /\ Profile.repository_count p'
       = Profile.repository_count p + Z.of_nat (List.length extra).
Proof.
  intros rt username user_data repos extra events p p'. subst p p'. unfold analyze.
  cbn [Profile.repo_analysis Profile.project_complexity_preference
       Profile.preferred_domains Profile.expertise_level Profile.recent_repos
       Profile.repository_count].
  split; [|split; [|split; [|split]]].
  - intros L. now rewrite firstn_app_long.
  - intros L. unfold _extract_project_domains. now rewrite firstn_app_long.
  - intros L. unfold _calculate_expertise_level, expertise_factors.
    rewrite firstn_app_long by exact L.
    destruct events; reflexivity.
  - intros L. now rewrite firstn_app_long.
  - rewrite length_app. lia.
Qed.

Lemma X22_repositories_beyond_the_caps_witness :
  let u := Sample.user "2019-06-03T00:00:00Z" 40 100 in
  let repos := repeat (Sample.plain 1 false) 20 in
  Profile.repo_analysis (analyze Sample.rt "octocat" u (repos ++ [Sample.fullstack]) [])
  = Profile.repo_analysis (analyze Sample.rt "octocat" u repos []).
Proof.
  intros u repos.
  destruct (X22_repositories_beyond_the_caps Sample.rt "octocat" u repos
              [Sample.fullstack] []) as (H & _).
  apply H. vm_compute. lia.
Defined.

(** X23.  Every label of a profile is one of its fixed vocabulary, whatever
    the raw records hold: the complexity tier and the complexity preference
    (always equal) are beginner, intermediate or advanced; the activity tier
    is low, moderate, active or very_active; the collaboration level is
    individual, mixed or collaborative; the expertise level is newcomer,
    beginner, intermediate or expert; the collaboration style is
    independent, mixed or collaborative. *)
Theorem X23_labels_in_vocabulary :
  forall (rt : Runtime) (username : string) (user_data : User.t)
         (repos_data : list Repo.t) (events_data : list Event.t),
    let p := analyze rt username user_data repos_data events_data in
    In (RepositoryAnalysis.avg_complexity (Profile.repo_analysis p))
       ["beginner"; "intermediate"; "advanced"]
    /\ Profile.project_complexity_preference p
       = RepositoryAnalysis.avg_complexity (Profile.repo_analysis p)
    /\ In (ActivityAnalysis.activity_type (Profile.activity_analysis p))
          ["low"; "moderate"; "active"; "very_active"]
    /\ In (ActivityAnalysis.collaboration_level (Profile.activity_analysis p))
          ["individual"; "mixed"; "collaborative"]
    /\ In (Profile.expertise_level p) ["newcomer"; "beginner"; "intermediate"; "expert"]
    /\ In (Profile.collaboration_style p) ["independent"; "mixed"; "collaborative"]
    /\ Profile.recent_activity_score p
       = ActivityAnalysis.recent_activity_score (Profile.activity_analysis p).
Proof.
  intros rt username user_data repos_data events_data p. subst p. unfold analyze.
  cbn [Profile.repo_analysis Profile.project_complexity_preference
       Profile.activity_analysis Profile.expertise_level Profile.collaboration_style
       Profile.recent_activity_score].
  split; [|split; [reflexivity|split; [|split; [|split; [|split; [|reflexivity]]]]]].
  - unfold _analyze_repositories. cbn [RepositoryAnalysis.avg_complexity].
    unfold complexity_of. destruct (_ || _); [simpl; tauto|].
    destruct (_ && _); simpl; tauto.
  - unfold _analyze_activity_patterns. destruct events_data; [simpl; tauto|].
    cbn [ActivityAnalysis.activity_type]. unfold activity_type_of.
    destruct (_ <? _); [simpl; tauto|]. destruct (_ <? _); [simpl; tauto|].
    destruct (_ <? _); simpl; tauto.
  - unfold _analyze_activity_patterns. destruct events_data; [simpl; tauto|].
    cbn [ActivityAnalysis.collaboration_level]. unfold collaboration_level_of.
    destruct (Qgtb _ _); [simpl; tauto|]. destruct (_ <? _); simpl; tauto.
  - unfold _calculate_expertise_level, expertise_tier.
    destruct (Qgtb _ _); [simpl; tauto|]. destruct (Qgtb _ _); [simpl; tauto|].
    destruct (Qgtb _ _); simpl; tauto.
  - unfold _analyze_collaboration_style, collaboration_style_of.
    destruct (_ || _); [simpl; tauto|]. destruct (_ || _); simpl; tauto.
Qed.
